(** * NCLB Survey App: one-time passcodes, access policy, rate limiting

    A shallow embedding of the passcode and access-control core of the
    survey application:

    - [src/lib/crypto.ts]            ([generateOTP], [hashEmail], [validateOTP])
    - [src/lib/production-mode.ts]   ([isTestAccount], [isSiteAdmin], [canAccessSurvey])
    - [src/lib/rate-limiter.ts]      ([RateLimiter.check])
    - [src/app/api/auth/request-otp/route.ts]
    - [src/app/api/auth/verify-otp/route.ts]
    - [src/app/api/admin/toggle-production/route.ts]

    Conventions.  JavaScript numbers that hold integers (attempt counters,
    millisecond timestamps, limits) are [Z].  A [Date] is its millisecond
    time value.  Strings are [string], read as UTF-8 byte sequences; the
    [length] of a string counts UTF-16 code units ([JS.length]).  The
    wall clock ([Date.now()], [new Date()]) and the random source
    ([crypto.randomBytes]) are explicit arguments; a route handler reads
    one clock value per request, the rate-limiting wrapper is given one
    reading for each place where it reads the clock.  The persisted store is an explicit record of tables that
    each handler threads through, together with the process-local rate
    limiter.  The validation library's email check and the JWT library's
    signing and verification are parameters of the handlers.

    Not modelled: a request body that is not JSON or whose fields have
    other types than the schema's, store or mail exceptions (the handlers
    answer those with status 500 from their [catch]), and interleavings of
    concurrent requests: a handler runs from start to end on the state it
    is given. *)

From Stdlib Require Import ZArith List String Ascii Bool Lia.
From stdpp Require Import base gmap strings list.

Local Open Scope string_scope.
Local Open Scope Z_scope.

(** ** JavaScript value conventions *)

Module JS.

(** [!s] for a value of type [string]: only the empty string is falsy. *)
Definition falsy_string (s : string) : bool := String.eqb s "".

(** [x || 0] for an integer-valued number: [0] is the only falsy integer. *)
Definition or_zero (x : Z) : Z := if x =? 0 then 0 else x.

(** Decimal digit character of a value in [0, 9]. *)
Definition digit_char (d : Z) : ascii := ascii_of_nat (48 + Z.to_nat d).

Definition is_digit (c : ascii) : bool :=
  let n := Z.of_nat (nat_of_ascii c) in (48 <=? n) && (n <=? 57).

Definition digit_value (c : ascii) : Z := Z.of_nat (nat_of_ascii c) - 48.

(** Decimal digits of a non-negative integer, most significant first.
    [fuel] bounds the number of digits produced. *)
Fixpoint digits_of (fuel : nat) (n : Z) (acc : list Z) : list Z :=
  match fuel with
  | O => acc
  | S fuel' =>
      let acc' := (n mod 10) :: acc in
      if n / 10 =? 0 then acc' else digits_of fuel' (n / 10) acc'
  end.

(** [Number.prototype.toString()] on a non-negative integer below 1e21,
    where JavaScript prints plain decimal notation.  A number [n] has at
    most [log2 n + 1] decimal digits, so the fuel always suffices. *)
Definition toString (n : Z) : string :=
  string_of_list_ascii
    (List.map digit_char (digits_of (S (Z.to_nat (Z.log2 n))) n [])).

(** Numeric value of a string of decimal digits ([parseInt(s, 10)] on
    such a string). *)
Definition parseDigits (s : string) : Z :=
  fold_left (fun a c => 10 * a + digit_value c) (list_ascii_of_string s) 0.

(** The regular expression [^\d{6}$]. *)
Definition matches_six_digits (s : string) : bool :=
  (String.length s =? 6)%nat && forallb is_digit (list_ascii_of_string s).

(** [s.substring(0, n)] *)
Definition substring0 (n : nat) (s : string) : string :=
  string_of_list_ascii (firstn n (list_ascii_of_string s)).

Fixpoint is_prefix (p l : list ascii) : bool :=
  match p, l with
  | [], _ => true
  | a :: p', b :: l' => Ascii.eqb a b && is_prefix p' l'
  | _ :: _, [] => false
  end.

Fixpoint includes_list (l needle : list ascii) : bool :=
  is_prefix needle l ||
  match l with
  | [] => false
  | _ :: l' => includes_list l' needle
  end.

(** [s.includes(needle)]: [needle] occurs in [s] as a substring. *)
Definition includes (s needle : string) : bool :=
  includes_list (list_ascii_of_string s) (list_ascii_of_string needle).

(** [s.endsWith(suffix)] *)
Definition endsWith (s suffix : string) : bool :=
  is_prefix (rev (list_ascii_of_string suffix)) (rev (list_ascii_of_string s)).

(** The UTF-16 code units that the character starting at a byte takes:
    one for a character of one, two or three bytes, two for a character of
    four bytes (a surrogate pair), none for a byte [10xxxxxx], which
    continues a character.  A lone surrogate is held as the three bytes of
    its code point and so counts one unit. *)
Definition code_units (c : ascii) : nat :=
  let n := nat_of_ascii c in
  if (n <? 128)%nat then 1%nat
  else if (n <? 192)%nat then 0%nat
  else if (n <? 240)%nat then 1%nat
  else 2%nat.

(** [s.length]: the number of UTF-16 code units of the text. *)
Fixpoint length (s : string) : nat :=
  match s with
  | EmptyString => 0%nat
  | String c s' => (code_units c + length s')%nat
  end.

End JS.

(** ** SHA-256 (FIPS 180-4), as computed by Node's [crypto.createHash('sha256')] *)

Module Sha256.

Definition w32 (x : Z) : Z := x mod 4294967296.
Definition add32 (x y : Z) : Z := w32 (x + y).
Definition rotr (n x : Z) : Z := Z.lor (Z.shiftr x n) (w32 (Z.shiftl x (32 - n))).
Definition shr (n x : Z) : Z := Z.shiftr x n.
Definition not32 (x : Z) : Z := Z.lxor x 4294967295.

Definition Ch (x y z : Z) : Z := Z.lxor (Z.land x y) (Z.land (not32 x) z).
Definition Maj (x y z : Z) : Z :=
  Z.lxor (Z.land x y) (Z.lxor (Z.land x z) (Z.land y z)).
Definition bigSigma0 (x : Z) : Z := Z.lxor (rotr 2 x) (Z.lxor (rotr 13 x) (rotr 22 x)).
Definition bigSigma1 (x : Z) : Z := Z.lxor (rotr 6 x) (Z.lxor (rotr 11 x) (rotr 25 x)).
Definition smallSigma0 (x : Z) : Z := Z.lxor (rotr 7 x) (Z.lxor (rotr 18 x) (shr 3 x)).
Definition smallSigma1 (x : Z) : Z := Z.lxor (rotr 17 x) (Z.lxor (rotr 19 x) (shr 10 x)).

(** The constants are derived as the standard defines them, from the first
    sixty-four primes: the round constants are the first 32 bits of the
    fractional parts of their cube roots, the initial chaining words those
    of the square roots of the first eight. *)
Definition is_prime (n : Z) : bool :=
  List.forallb (fun d => negb (n mod Z.of_nat d =? 0)) (seq 2 (Z.to_nat n - 2)).

Definition primes : list Z :=
  List.filter is_prime (List.map Z.of_nat (seq 2 310)).

(** Integer cube root by bisection: the largest [r] in [lo, hi) with
    [r ^ 3 <= n], given [lo ^ 3 <= n < hi ^ 3]. *)
Fixpoint cube_root (fuel : nat) (lo hi n : Z) : Z :=
  match fuel with
  | O => lo
  | S fuel' =>
      if hi - lo <=? 1 then lo
      else
        let mid := (lo + hi) / 2 in
        if mid * mid * mid <=? n then cube_root fuel' mid hi n
        else cube_root fuel' lo mid n
  end.

Definition frac_cube_root (p : Z) : Z :=
  w32 (cube_root 64 0 (2 ^ 36) (p * 2 ^ 96)).

Definition frac_square_root (p : Z) : Z := w32 (Z.sqrt (p * 2 ^ 64)).

Definition K : list Z := List.map frac_cube_root primes.

(** The eight chaining words. *)
Record State := {
  h0 : Z; h1 : Z; h2 : Z; h3 : Z; h4 : Z; h5 : Z; h6 : Z; h7 : Z }.

Definition initial : State :=
  {| h0 := frac_square_root 2; h1 := frac_square_root 3;
     h2 := frac_square_root 5; h3 := frac_square_root 7;
     h4 := frac_square_root 11; h5 := frac_square_root 13;
     h6 := frac_square_root 17; h7 := frac_square_root 19 |}.

(** Big-endian bytes of a value, [n] bytes wide. *)
Fixpoint be_bytes (n : nat) (x : Z) : list Z :=
  match n with
  | O => []
  | S n' => (x / 256 ^ Z.of_nat n') mod 256 :: be_bytes n' x
  end.

(** Padding: a [0x80] byte, zeros up to 56 mod 64, the bit length on 8 bytes. *)
Definition pad (msg : list Z) : list Z :=
  let len := Z.of_nat (length msg) in
  msg ++ [128] ++ repeat 0 (Z.to_nat ((55 - len) mod 64)) ++ be_bytes 8 (8 * len).

(** Big-endian 32-bit words of a byte sequence. *)
Fixpoint words (n : nat) (bs : list Z) : list Z :=
  match n with
  | O => []
  | S n' =>
      match bs with
      | b0 :: b1 :: b2 :: b3 :: rest =>
          (b0 * 16777216 + b1 * 65536 + b2 * 256 + b3) :: words n' rest
      | _ => []
      end
  end.

(** Message schedule: extends the 16 block words to 64. *)
Fixpoint schedule (n : nat) (w : list Z) : list Z :=
  match n with
  | O => w
  | S n' =>
      let t := length w in
      let at_ (i : nat) := nth (t - i) w 0 in
      schedule n'
        (w ++ [add32 (add32 (smallSigma1 (at_ 2%nat)) (at_ 7%nat))
                     (add32 (smallSigma0 (at_ 15%nat)) (at_ 16%nat))])
  end.

Definition round (s : State) (kw : Z * Z) : State :=
  let '(k, w) := kw in
  let t1 := add32 (add32 (add32 (h7 s) (bigSigma1 (h4 s)))
                         (add32 (Ch (h4 s) (h5 s) (h6 s)) k)) w in
  let t2 := add32 (bigSigma0 (h0 s)) (Maj (h0 s) (h1 s) (h2 s)) in
  {| h0 := add32 t1 t2; h1 := h0 s; h2 := h1 s; h3 := h2 s;
     h4 := add32 (h3 s) t1; h5 := h4 s; h6 := h5 s; h7 := h6 s |}.

Definition compress (s : State) (block : list Z) : State :=
  let w := schedule 48 (words 16 block) in
  let r := fold_left round (combine K w) s in
  {| h0 := add32 (h0 s) (h0 r); h1 := add32 (h1 s) (h1 r);
     h2 := add32 (h2 s) (h2 r); h3 := add32 (h3 s) (h3 r);
     h4 := add32 (h4 s) (h4 r); h5 := add32 (h5 s) (h5 r);
     h6 := add32 (h6 s) (h6 r); h7 := add32 (h7 s) (h7 r) |}.

Fixpoint blocks (n : nat) (s : State) (bs : list Z) : State :=
  match n with
  | O => s
  | S n' => blocks n' (compress s (firstn 64 bs)) (skipn 64 bs)
  end.

Definition digest (msg : list Z) : State :=
  let p := pad msg in
  blocks (length p / 64) initial p.

Definition hex_char (d : Z) : ascii :=
  match d with
  | 0 => "0" | 1 => "1" | 2 => "2" | 3 => "3" | 4 => "4" | 5 => "5"
  | 6 => "6" | 7 => "7" | 8 => "8" | 9 => "9" | 10 => "a" | 11 => "b"
  | 12 => "c" | 13 => "d" | 14 => "e" | _ => "f"
  end%char.

Definition nibble (i x : Z) : ascii := hex_char ((x / 16 ^ i) mod 16).

Definition hex_word (x : Z) : list ascii :=
  [ nibble 7 x; nibble 6 x; nibble 5 x; nibble 4 x;
    nibble 3 x; nibble 2 x; nibble 1 x; nibble 0 x ].

Definition hex_state (s : State) : list ascii :=
  hex_word (h0 s) ++ hex_word (h1 s) ++ hex_word (h2 s) ++ hex_word (h3 s) ++
  hex_word (h4 s) ++ hex_word (h5 s) ++ hex_word (h6 s) ++ hex_word (h7 s).

Definition bytes_of_string (s : string) : list Z :=
  List.map (fun c => Z.of_nat (nat_of_ascii c)) (list_ascii_of_string s).

(** [createHash('sha256').update(s).digest('hex')] *)
Definition hexdigest (s : string) : string :=
  string_of_list_ascii (hex_state (digest (bytes_of_string s))).

(** Characters of a lowercase hexadecimal digest. *)
Definition is_hex (c : ascii) : bool :=
  let n := Z.of_nat (nat_of_ascii c) in
  ((48 <=? n) && (n <=? 57)) || ((97 <=? n) && (n <=? 102)).

End Sha256.

(** ** [src/lib/crypto.ts] *)

Module Crypto.

(** [buffer.readUInt32BE(0)] on the four bytes of [crypto.randomBytes(4)]. *)
Definition readUInt32BE (b0 b1 b2 b3 : Byte.byte) : Z :=
  Z.of_N (Byte.to_N b0) * 16777216 + Z.of_N (Byte.to_N b1) * 65536
  + Z.of_N (Byte.to_N b2) * 256 + Z.of_N (Byte.to_N b3).

(** [(num % 900000) + 100000] *)
Definition otpNumber (num : Z) : Z := Z.rem num 900000 + 100000.

(** [generateOTP], with the four random bytes as its input. *)
Definition generateOTP (buffer : Byte.byte * Byte.byte * Byte.byte * Byte.byte) : string :=
  let '(b0, b1, b2, b3) := buffer in
  let num := readUInt32BE b0 b1 b2 b3 in
  JS.toString (otpNumber num).

(** [process.env.ANONYMIZATION_SALT || 'default-salt'] *)
Definition anonymizationSalt (env_salt : option string) : string :=
  match env_salt with
  | Some s => if JS.falsy_string s then "default-salt" else s
  | None => "default-salt"
  end.

(** [hashEmail(email)]; the environment variable is an explicit argument. *)
Definition hashEmail (env_salt : option string) (email : string) : string :=
  JS.substring0 16 (Sha256.hexdigest (email ++ anonymizationSalt env_salt)).

(** Result object of [validateOTP]. *)
Record OTPValidation := { valid : bool; error : option string }.

Definition TooManyAttempts : string := "Too many failed attempts".
Definition NoCodeFound : string := "No valid OTP found".
Definition Expired : string := "OTP has expired".
Definition Mismatch : string := "Invalid OTP code".

Definition invalid (msg : string) : OTPValidation :=
  {| valid := false; error := Some msg |}.

(** [validateOTP(providedCode, storedCode, expiry, attempts)]; [now] is
    the value of [new Date()] at the expiry comparison.  [!storedCode]
    holds for [null] and for the empty string; [!expiry] holds for
    [null] only, a [Date] object being always truthy. *)
Definition validateOTP (now : Z) (providedCode : string)
    (storedCode : option string) (expiry : option Z) (attempts : Z)
    : OTPValidation :=
  if attempts >=? 5 then invalid TooManyAttempts
  else
    match storedCode, expiry with
    | Some code, Some exp =>
        if JS.falsy_string code then invalid NoCodeFound
        else if now >? exp then invalid Expired
        else if negb (String.eqb providedCode code) then invalid Mismatch
        else {| valid := true; error := None |}
    | _, _ => invalid NoCodeFound
    end.

(** The four checks as the specification words them: the second check
    fires on [null] only. *)
Definition validateOTP_spec (now : Z) (providedCode : string)
    (storedCode : option string) (expiry : option Z) (attempts : Z)
    : OTPValidation :=
  if attempts >=? 5 then invalid TooManyAttempts
  else
    match storedCode, expiry with
    | Some code, Some exp =>
        if now >? exp then invalid Expired
        else if negb (String.eqb providedCode code) then invalid Mismatch
        else {| valid := true; error := None |}
    | _, _ => invalid NoCodeFound
    end.

End Crypto.

(** ** The persisted store (Prisma models) *)

Module Store.

(** A row of [InvitedUser], keyed by its unique [email].  The failed-attempt
    counter is the column [remindersSent]. *)
Record InvitedUser := {
  group : string;
  hasTaken : bool;
  otpCode : option string;
  otpExpiry : option Z;
  consented : bool;
  remindersSent : Z }.

(** A row of [AdminUser], keyed by its unique [email]. *)
Record AdminUser := {
  adminId : Z;
  adminName : string;
  adminRole : string }.

(** A row of [SystemSettings]. *)
Record SystemSettings := {
  productionMode : bool;
  toggledAt : option Z;
  toggledBy : option string }.

(** A row of [SurveyResponse]. *)
Record SurveyResponse := {
  responseEmail : string;
  responseGroup : string;
  submittedAt : Z }.

Record DB := {
  invitedUser : gmap string InvitedUser;
  adminUser : gmap string AdminUser;
  systemSettings : list SystemSettings;
  surveyResponse : list SurveyResponse }.

Definition with_invitedUser (t : gmap string InvitedUser) (db : DB) : DB :=
  {| invitedUser := t; adminUser := adminUser db;
     systemSettings := systemSettings db; surveyResponse := surveyResponse db |}.

Definition with_systemSettings (t : list SystemSettings) (db : DB) : DB :=
  {| invitedUser := invitedUser db; adminUser := adminUser db;
     systemSettings := t; surveyResponse := surveyResponse db |}.

Definition with_surveyResponse (t : list SurveyResponse) (db : DB) : DB :=
  {| invitedUser := invitedUser db; adminUser := adminUser db;
     systemSettings := systemSettings db; surveyResponse := t |}.

(** [prisma.systemSettings.findFirst()] *)
Definition findFirst (t : list SystemSettings) : option SystemSettings := head t.

(** [prisma.invitedUser.update({ where: { email }, data })] on a row that
    exists: [data] overwrites the listed columns of that row. *)
Definition update (email : string) (data : InvitedUser -> InvitedUser) (db : DB) : DB :=
  with_invitedUser (alter data email (invitedUser db)) db.

End Store.

(** ** [src/lib/production-mode.ts] *)

Module ProductionMode.
Import Store.

(** Result object of [canAccessSurvey]. *)
Record Access := { allowed : bool; reason : option string }.

Definition ADMIN_REASON : string :=
  "Site administrators cannot participate in surveys. To participate as an Administrator stakeholder, use a different email address (e.g., admin_survey@example.com).".

Definition TEST_ACCOUNT_REASON : string :=
  "Test accounts are disabled in production mode. Please use a real email address.".

(** [settings?.productionMode || false] *)
Definition getProductionMode (db : DB) : bool :=
  match findFirst (systemSettings db) with
  | Some settings => productionMode settings || false
  | None => false
  end.

Definition isTestAccount (email : string) : bool :=
  JS.endsWith email "@example.com".

(** [prisma.adminUser.findUnique({ where: { email } }) !== null] *)
Definition isSiteAdmin (db : DB) (email : string) : bool :=
  match adminUser db !! email with
  | Some _ => true
  | None => false
  end.

Definition canAccessSurvey (db : DB) (email : string) : Access :=
  let isAdmin := isSiteAdmin db email in
  if isAdmin then {| allowed := false; reason := Some ADMIN_REASON |}
  else
    let productionMode := getProductionMode db in
    if productionMode && isTestAccount email
    then {| allowed := false; reason := Some TEST_ACCOUNT_REASON |}
    else {| allowed := true; reason := None |}.

(** [canTakeSurvey(email)] *)
Definition canTakeSurvey (db : DB) (email : string) : bool :=
  let isAdmin := isSiteAdmin db email in
  if isAdmin then false else true.

End ProductionMode.

(** ** [src/lib/rate-limiter.ts] *)

Module RateLimiter.

Record RateLimitEntry := { count : Z; resetTime : Z }.

(** The private [attempts] map of a [RateLimiter] instance. *)
Abbreviation Attempts := (gmap string RateLimitEntry).

(** [check(identifier, limit, windowMs)] at clock reading [now]: the
    result and the map afterwards.  [record.count++] updates the entry
    that the map holds. *)
Definition check (now : Z) (identifier : string) (limit windowMs : Z)
    (attempts : Attempts) : bool * Attempts :=
  match attempts !! identifier with
  | None =>
      (true, <[identifier := {| count := 1; resetTime := now + windowMs |}]> attempts)
  | Some record =>
      if now >? resetTime record then
        (true, <[identifier := {| count := 1; resetTime := now + windowMs |}]> attempts)
      else if count record >=? limit then (false, attempts)
      else
        (true, <[identifier := {| count := count record + 1;
                                  resetTime := resetTime record |}]> attempts)
  end.

(** [getRemaining(identifier, limit)] *)
Definition getRemaining (now : Z) (identifier : string) (limit : Z)
    (attempts : Attempts) : Z :=
  match attempts !! identifier with
  | None => limit
  | Some record =>
      if now >? resetTime record then limit
      else Z.max 0 (limit - count record)
  end.

(** Successive calls of [check] for one key at the given clock readings. *)
Fixpoint checks (times : list Z) (identifier : string) (limit windowMs : Z)
    (attempts : Attempts) : list bool * Attempts :=
  match times with
  | [] => ([], attempts)
  | now :: times' =>
      let '(r, attempts') := check now identifier limit windowMs attempts in
      let '(rs, attempts'') := checks times' identifier limit windowMs attempts' in
      (r :: rs, attempts'')
  end.

(** The configured limits. *)
Record Config := { requests : Z; windowMs : Z }.

Definition OTP_REQUEST : Config := {| requests := 5; windowMs := 60 * 1000 |}.
Definition OTP_VERIFY : Config := {| requests := 10; windowMs := 60 * 1000 |}.

(** [getResetTime(identifier)]: [record?.resetTime || Date.now()]. *)
Definition getResetTime (now : Z) (identifier : string) (attempts : Attempts) : Z :=
  match attempts !! identifier with
  | Some record => if resetTime record =? 0 then now else resetTime record
  | None => now
  end.

(** [clear(identifier)] *)
Definition clear (identifier : string) (attempts : Attempts) : Attempts :=
  delete identifier attempts.

End RateLimiter.

(** ** Session lookup ([src/lib/auth.ts]) *)

Module Auth.

(** Claims of a verified session token. *)
Record Session := { sessionEmail : string; sessionType : string }.

Section Sessions.

(** [validateSessionToken]: signature verification by the JWT library. *)
Variable validateSessionToken : string -> option Session.

Definition sessionOfType (ty : string) (token : string) : option Session :=
  match validateSessionToken token with
  | Some session => if String.eqb (sessionType session) ty then Some session else None
  | None => None
  end.

Definition present (cookie : option string) : option string :=
  match cookie with
  | Some v => if JS.falsy_string v then None else Some v
  | None => None
  end.

(** [getSessionFromRequest]: the two cookies of the request. *)
Definition getSessionFromRequest (adminCookie surveyCookie : option string)
    : option Session :=
  match present adminCookie with
  | Some adminToken => sessionOfType "admin" adminToken
  | None =>
      match present surveyCookie with
      | Some surveyToken => sessionOfType "survey" surveyToken
      | None => None
      end
  end.

End Sessions.

End Auth.

(** ** Route handlers *)

Module Routes.
Import Store.

(** Process state: the database and the module-level [otpRateLimiter]. *)
Record World := {
  db : DB;
  otpRateLimiter : RateLimiter.Attempts }.

Definition with_db (d : DB) (w : World) : World :=
  {| db := d; otpRateLimiter := otpRateLimiter w |}.

(** JSON bodies of the responses the three handlers build. *)
Inductive Body :=
| ErrorBody (error : option string)
| IssuesBody (error : string)
| OtpSentBody (expiresIn : Z) (devCode : option string)
| VerifiedBody (group : string) (expiresAt : Z) (sessionCookie : string)
| ActivatedBody (deletedResponses resetUsers : Z) (activatedBy : string) (activatedAt : Z).

Record Response := { status : Z; body : Body }.

Definition json (b : Body) (st : Z) : Response := {| status := st; body := b |}.

(** Headers that [getClientIdentifier] reads. *)
Record Headers := { xForwardedFor : option string; xRealIp : option string }.

(** Text before the first comma: [forwarded.split(',')[0]]. *)
Fixpoint first_field (s : string) : string :=
  match s with
  | EmptyString => EmptyString
  | String c s' => if Ascii.eqb c ","%char then EmptyString else String c (first_field s')
  end.

(** [getClientIdentifier(request)] of [src/lib/rate-limiter.ts]. *)
Definition getClientIdentifier (h : Headers) : string :=
  match Auth.present (xForwardedFor h) with
  | Some forwarded => first_field forwarded
  | None =>
      match Auth.present (xRealIp h) with
      | Some ip => ip
      | None => "unknown"
      end
  end.

(** *** [POST /api/auth/request-otp] *)

Record OtpRequest := {
  req_headers : Headers;
  req_email : string }.

(** The environment and the outside world of one code request. *)
Record OtpEnv := {
  NODE_ENV : option string;
  RESEND_API_KEY : option string;
  randomBytes4 : Byte.byte * Byte.byte * Byte.byte * Byte.byte;
  mailDelivered : bool }.

Definition env_set (v : option string) : bool :=
  match v with
  | Some s => negb (JS.falsy_string s)
  | None => false
  end.

Definition env_is (v : option string) (s : string) : bool :=
  match v with
  | Some s' => String.eqb s' s
  | None => false
  end.

(** The row of a user after [data: { remindersSent: user.remindersSent + 1 }]. *)
Definition failedAttempt (user : InvitedUser) : InvitedUser :=
  {| group := group user; hasTaken := hasTaken user;
     otpCode := otpCode user; otpExpiry := otpExpiry user;
     consented := consented user;
     remindersSent := remindersSent user + 1 |}.

(** The row of a user after [data: { consented: true, otpCode: null,
    otpExpiry: null, remindersSent: 0 }]. *)
Definition redeemed (user : InvitedUser) : InvitedUser :=
  {| group := group user; hasTaken := hasTaken user;
     otpCode := None; otpExpiry := None;
     consented := true; remindersSent := 0 |}.

Section Handlers.

(** [z.string().email()]: the validation library's email format check. *)
Variable isEmail : string -> bool.

(** Cookie verification and token signing, by the JWT library. *)
Variable validateSessionToken : string -> option Auth.Session.
Variable createSurveySessionToken : string -> string -> bool -> Z -> string.

Definition request_otp_POST (now : Z) (env : OtpEnv) (req : OtpRequest)
    (w : World) : Response * World :=
  if negb (isEmail (req_email req)) then
    (json (IssuesBody "Invalid email format") 400, w)
  else
    let email := req_email req in
    let access := ProductionMode.canAccessSurvey (db w) email in
    if negb (ProductionMode.allowed access) then
      (json (ErrorBody (ProductionMode.reason access)) 403, w)
    else
      match invitedUser (db w) !! email with
      | None => (json (ErrorBody (Some "Email not authorized for this survey")) 404, w)
      | Some invited =>
          if hasTaken invited then
            (json (ErrorBody (Some "You have already completed this survey")) 409, w)
          else
            let otp := Crypto.generateOTP (randomBytes4 env) in
            let expiry := now + 10 * 60 * 1000 in
            let w' :=
              with_db
                (update email
                   (fun u => {| group := group u; hasTaken := hasTaken u;
                                otpCode := Some otp; otpExpiry := Some expiry;
                                consented := consented u; remindersSent := 0 |})
                   (db w)) w in
            let emailSent :=
              if env_is (NODE_ENV env) "production" && env_set (RESEND_API_KEY env)
              then mailDelivered env else true in
            if negb emailSent then
              (json (ErrorBody (Some "Failed to send access code. Please try again.")) 500, w')
            else
              (json (OtpSentBody 600
                       (if env_is (NODE_ENV env) "development" then Some otp else None))
                    200, w')
      end.

(** Successive code requests served by one process, each with its clock
    reading and environment. *)
Fixpoint request_otp_POSTs (calls : list (Z * OtpEnv * OtpRequest)) (w : World)
    : list Response * World :=
  match calls with
  | [] => ([], w)
  | (now, env, req) :: calls' =>
      let '(r, w') := request_otp_POST now env req w in
      let '(rs, w'') := request_otp_POSTs calls' w' in
      (r :: rs, w'')
  end.

(** *** [POST /api/auth/verify-otp] *)

Record VerifyRequest := {
  vr_email : string;
  vr_code : string;
  vr_consented : bool }.

(** [VerifyOTPSchema.safeParse(body).success]: [code] is a string of
    [length] 6, counted as JavaScript counts it. *)
Definition VerifyOTPSchema (r : VerifyRequest) : bool :=
  isEmail (vr_email r) && (JS.length (vr_code r) =? 6)%nat.

Definition verify_otp_POST (now : Z) (req : VerifyRequest) (w : World)
    : Response * World :=
  if negb (VerifyOTPSchema req) then
    (json (IssuesBody "Invalid verification data") 400, w)
  else
    let email := vr_email req in
    let access := ProductionMode.canAccessSurvey (db w) email in
    if negb (ProductionMode.allowed access) then
      (json (ErrorBody (ProductionMode.reason access)) 403, w)
    else if negb (vr_consented req) then
      (json (ErrorBody (Some "Consent is required to participate in this survey")) 400, w)
    else
      match invitedUser (db w) !! email with
      | None => (json (ErrorBody (Some "User not found")) 404, w)
      | Some user =>
          let otpValidation :=
            Crypto.validateOTP now (vr_code req) (otpCode user) (otpExpiry user)
              (JS.or_zero (remindersSent user)) in
          if negb (Crypto.valid otpValidation) then
            (json (ErrorBody (Crypto.error otpValidation)) 400,
             with_db
               (update email
                  (fun u => {| group := group u; hasTaken := hasTaken u;
                               otpCode := otpCode u; otpExpiry := otpExpiry u;
                               consented := consented u;
                               remindersSent := JS.or_zero (remindersSent user) + 1 |})
                  (db w)) w)
          else
            let w' :=
              with_db
                (update email
                   (fun u => {| group := group u; hasTaken := hasTaken u;
                                otpCode := None; otpExpiry := None;
                                consented := true; remindersSent := 0 |})
                   (db w)) w in
            let expiresAt := now + 2 * 60 * 60 * 1000 in
            let sessionToken :=
              createSurveySessionToken email (group user) true expiresAt in
            (json (VerifiedBody (group user) expiresAt sessionToken) 200, w')
      end.

(** *** [POST /api/admin/toggle-production] *)

Record ToggleRequest := {
  adminCookie : option string;
  surveyCookie : option string;
  confirmation : option string }.

(** [ToggleSchema.safeParse(body).success]: the field [confirmation] is the
    literal ["PRODUCTION"]. *)
Definition ToggleSchema (r : ToggleRequest) : bool :=
  match confirmation r with
  | Some c => String.eqb c "PRODUCTION"
  | None => false
  end.

(** Step 2 of the transition: the [data] of [invitedUser.updateMany]. *)
Definition resetUser (u : InvitedUser) : InvitedUser :=
  {| group := group u; hasTaken := false; otpCode := None; otpExpiry := None;
     consented := false; remindersSent := remindersSent u |}.

(** Step 3 of the transition: the [data] of [systemSettings.updateMany]. *)
Definition activate (now : Z) (actor : string) (s : SystemSettings) : SystemSettings :=
  {| productionMode := true; toggledAt := Some now; toggledBy := Some actor |}.

Definition currentlyProduction (d : DB) : bool :=
  match findFirst (systemSettings d) with
  | Some currentSettings => productionMode currentSettings
  | None => false
  end.

Definition toggle_production_POST (now : Z) (req : ToggleRequest) (w : World)
    : Response * World :=
  match Auth.getSessionFromRequest validateSessionToken (adminCookie req) (surveyCookie req) with
  | None => (json (ErrorBody (Some "Unauthorized")) 401, w)
  | Some session =>
      if negb (ToggleSchema req) then
        (json (ErrorBody (Some "Must type PRODUCTION to confirm")) 400, w)
      else if currentlyProduction (db w) then
        (json (ErrorBody (Some "Already in production mode")) 400, w)
      else
        let deletedResponses := Z.of_nat (length (surveyResponse (db w))) in
        let d1 := with_surveyResponse [] (db w) in
        let resetUsers := Z.of_nat (size (invitedUser d1)) in
        let d2 := with_invitedUser (resetUser <$> invitedUser d1) d1 in
        let d3 :=
          with_systemSettings
            (List.map (activate now (Auth.sessionEmail session)) (systemSettings d2)) d2 in
        (json (ActivatedBody deletedResponses resetUsers
                 (Auth.sessionEmail session) now) 200,
         with_db d3 w)
  end.

End Handlers.

End Routes.

(** ** Sample data *)

Module Sample.
Import Store.

(** Stand-ins for the validation and JWT libraries. *)
Definition isEmail (s : string) : bool := JS.includes s "@".

Definition validateSessionToken (token : string) : option Auth.Session :=
  if String.eqb token "admin-jwt"
  then Some {| Auth.sessionEmail := "admin@district.org"; Auth.sessionType := "admin" |}
  else None.

Definition createSurveySessionToken (email group : string) (consented : bool)
    (expiresAt : Z) : string :=
  "survey-jwt:" ++ email.

Definition teacher : InvitedUser :=
  {| group := "teacher"; hasTaken := true; otpCode := Some "123456";
     otpExpiry := Some 600000; consented := true; remindersSent := 3 |}.

Definition parent : InvitedUser :=
  {| group := "parent"; hasTaken := false; otpCode := None;
     otpExpiry := None; consented := false; remindersSent := 0 |}.

Definition database (mode : bool) : DB :=
  {| invitedUser :=
       {[ "teacher@district.org" := teacher; "parent@district.org" := parent ]};
     adminUser :=
       {[ "admin@district.org" :=
            {| adminId := 1; adminName := "Site Admin"; adminRole := "admin" |} ]};
     systemSettings :=
       [ {| productionMode := mode; toggledAt := None; toggledBy := None |} ];
     surveyResponse :=
       [ {| responseEmail := "teacher@district.org"; responseGroup := "teacher";
            submittedAt := 500 |} ] |}.

Definition world (mode : bool) : Routes.World :=
  {| Routes.db := database mode; Routes.otpRateLimiter := ∅ |}.

Definition wrongCode : Routes.VerifyRequest :=
  {| Routes.vr_email := "teacher@district.org"; Routes.vr_code := "000000";
     Routes.vr_consented := true |}.

Definition rightCode : Routes.VerifyRequest :=
  {| Routes.vr_email := "teacher@district.org"; Routes.vr_code := "123456";
     Routes.vr_consented := true |}.

Definition confirmedToggle : Routes.ToggleRequest :=
  {| Routes.adminCookie := Some "admin-jwt"; Routes.surveyCookie := None;
     Routes.confirmation := Some "PRODUCTION" |}.

(** A code request by [parent@district.org] from the client 203.0.113.7,
    at clock reading [now] and with random bytes ending in [b]. *)
Definition otpCall (now : Z) (b : Byte.byte) : Z * Routes.OtpEnv * Routes.OtpRequest :=
  (now,
   {| Routes.NODE_ENV := Some "production"; Routes.RESEND_API_KEY := Some "re_key";
      Routes.randomBytes4 := (Byte.x00, Byte.x00, Byte.x00, b);
      Routes.mailDelivered := true |},
   {| Routes.req_headers :=
        {| Routes.xForwardedFor := Some "203.0.113.7, 10.0.0.1";
           Routes.xRealIp := None |};
      Routes.req_email := "parent@district.org" |}).

(** Six code requests within six milliseconds. *)
Definition sixCalls : list (Z * Routes.OtpEnv * Routes.OtpRequest) :=
  [ otpCall 1000 Byte.x01; otpCall 1001 Byte.x02; otpCall 1002 Byte.x03;
    otpCall 1003 Byte.x04; otpCall 1004 Byte.x05; otpCall 1005 Byte.x06 ].

End Sample.

(** ** [withRateLimit] of [src/lib/rate-limiter.ts] *)

Module Limited.
Import RateLimiter.

(** The numbers that the rate-limit headers carry (each header is the
    [toString()] of its number): [Retry-After] on a refusal only, then
    [X-RateLimit-Limit], [X-RateLimit-Remaining], [X-RateLimit-Reset]. *)
Record RateHeaders := {
  retryAfterHeader : option Z;
  limitHeader : Z;
  remainingHeader : Z;
  resetHeader : Z }.

(** What the wrapped handler answers: the 429 response built by the
    wrapper, with the [retryAfter] of its body, or the handler's own
    response with the headers set on it. *)
Inductive Answer (Resp : Type) :=
| Refused (retryAfter : Z) (headers : RateHeaders)
| Served (response : Resp) (headers : RateHeaders).

(** The clock readings of one request, one for each place where the
    wrapper reads the clock, in the order of evaluation: [check]; for the
    [retryAfter] of a refusal's body [getResetTime] and [Date.now()], for
    its [Retry-After] header the same two again; then [getRemaining] and
    the [getResetTime] of [X-RateLimit-Reset].  A reading goes unused where
    the code does not take it: [getResetTime] reads the clock only when
    there is no reset time, [getRemaining] only when there is a record. *)
Record Readings := {
  atCheck : Z;
  atBodyReset : Z;
  atBody : Z;
  atRetryReset : Z;
  atRetry : Z;
  atRemaining : Z;
  atReset : Z }.

(** A request handled so fast that every reading is the same. *)
Definition sameInstant (now : Z) : Readings :=
  {| atCheck := now; atBodyReset := now; atBody := now; atRetryReset := now;
     atRetry := now; atRemaining := now; atReset := now |}.

Arguments Refused {Resp} retryAfter headers.
Arguments Served {Resp} response headers.

(** [Math.ceil(ms / 1000)] on an integer number of milliseconds. *)
Definition ceilSeconds (ms : Z) : Z := - ((- ms) / 1000).

Section WithRateLimit.

Variables Req Resp St : Type.

(** The headers of a request, and a handler running on its own state: it
    does not call this limiter. *)
Variable headersOf : Req -> Routes.Headers.
Variable handler : Req -> St -> Resp * St.

(** [withRateLimit(rateLimiter, config)(handler)(request)] with the clock
    readings [clock]: the answer, the limiter's map and the handler's
    state. *)
Definition withRateLimit (config : Config) (clock : Readings) (request : Req)
    (limiter : Attempts) (st : St) : Answer Resp * Attempts * St :=
  let identifier := Routes.getClientIdentifier (headersOf request) in
  let '(admitted, limiter') :=
    check (atCheck clock) identifier (requests config) (windowMs config) limiter in
  if negb admitted then
    (Refused
       (ceilSeconds (getResetTime (atBodyReset clock) identifier limiter'
                     - atBody clock))
       {| retryAfterHeader :=
            Some (ceilSeconds (getResetTime (atRetryReset clock) identifier limiter'
                               - atRetry clock));
          limitHeader := requests config;
          remainingHeader :=
            getRemaining (atRemaining clock) identifier (requests config) limiter';
          resetHeader := getResetTime (atReset clock) identifier limiter' |},
     limiter', st)
  else
    let '(response, st') := handler request st in
    (Served response
       {| retryAfterHeader := None;
          limitHeader := requests config;
          remainingHeader :=
            getRemaining (atRemaining clock) identifier (requests config) limiter';
          resetHeader := getResetTime (atReset clock) identifier limiter' |},
     limiter', st').

(** Successive requests through the wrapped handler. *)
Fixpoint serve (config : Config) (calls : list (Readings * Req))
    (limiter : Attempts) (st : St) : list (Answer Resp) * Attempts * St :=
  match calls with
  | [] => ([], limiter, st)
  | (clock, request) :: calls' =>
      let '(a, limiter', st') := withRateLimit config clock request limiter st in
      let '(answers, limiter'', st'') := serve config calls' limiter' st' in
      (a :: answers, limiter'', st'')
  end.

(** The handler alone on successive requests. *)
Fixpoint handle (requests : list Req) (st : St) : list Resp * St :=
  match requests with
  | [] => ([], st)
  | request :: requests' =>
      let '(r, st') := handler request st in
      let '(rs, st'') := handle requests' st' in
      (r :: rs, st'')
  end.

End WithRateLimit.

Definition isServed {Resp : Type} (a : Answer Resp) : bool :=
  match a with
  | Served _ _ => true
  | Refused _ _ => false
  end.

End Limited.

(** ** Further route handlers *)

Module Admin.
Import Store.

(** *** [GET /api/admin/toggle-production] *)



(** *** [POST /api/admin/allow-resubmission] *)

Record ResubmissionRequest := {
  ar_adminCookie : option string;
  ar_surveyCookie : option string;
  ar_email : string;
  ar_reason : option string }.

Inductive ResubmissionBody :=
| ResubmissionError (error : string)
| ResubmissionEnabled (maskedEmail group : string) (previousSubmissions : Z)
    (reason : string).

Record ResubmissionResponse := {
  ar_status : Z;
  ar_body : ResubmissionBody }.

(** [reason || 'Admin-initiated resubmission'] *)
Definition reasonOrDefault (reason : option string) : string :=
  match reason with
  | Some r => if JS.falsy_string r then "Admin-initiated resubmission" else r
  | None => "Admin-initiated resubmission"
  end.

(** [prisma.surveyResponse.findMany({ where: { email } })] *)
Definition responsesOf (email : string) (t : list SurveyResponse) : list SurveyResponse :=
  List.filter (fun r => String.eqb (responseEmail r) email) t.

(** The [data] of the update.  The row was read with
    [select: { id, email, group, hasTaken }], so [(user as any).remindersSent]
    is [undefined] and [undefined || 0] is [0]. *)
Definition allowAgain (u : InvitedUser) : InvitedUser :=
  {| group := group u; hasTaken := false; otpCode := otpCode u;
     otpExpiry := otpExpiry u; consented := consented u; remindersSent := 0 |}.

Section Handlers.

Variable isEmail : string -> bool.
Variable validateSessionToken : string -> option Auth.Session.

(** The masking [email.replace(...)] of the answer: two characters, three
    stars, then the text from the at-sign on. *)
Variable maskEmail : string -> string.

Definition allow_resubmission_POST (req : ResubmissionRequest) (w : Routes.World)
    : ResubmissionResponse * Routes.World :=
  match Auth.getSessionFromRequest validateSessionToken
          (ar_adminCookie req) (ar_surveyCookie req) with
  | None => ({| ar_status := 401; ar_body := ResubmissionError "Unauthorized" |}, w)
  | Some session =>
      if negb (isEmail (ar_email req)) then
        ({| ar_status := 400; ar_body := ResubmissionError "Invalid request data" |}, w)
      else
        let email := ar_email req in
        match invitedUser (Routes.db w) !! email with
        | None =>
            ({| ar_status := 404; ar_body := ResubmissionError "User not found" |}, w)
        | Some user =>
            let submissionHistory := responsesOf email (surveyResponse (Routes.db w)) in
            let w' := Routes.with_db (update email allowAgain (Routes.db w)) w in
            ({| ar_status := 200;
                ar_body :=
                  ResubmissionEnabled (maskEmail email) (group user)
                    (Z.of_nat (length submissionHistory))
                    (reasonOrDefault (ar_reason req)) |}, w')
        end
  end.

(** *** [POST /api/admin/check-site-admin]: the [isSiteAdmin] field of the
    answer. *)
Definition check_site_admin_POST (email : string) (w : Routes.World) : bool :=
  if negb (isEmail email) then false
  else
    match adminUser (Routes.db w) !! email with
    | Some _ => true
    | None => false
    end.

End Handlers.

End Admin.

(** ** Sequences of redemption requests *)

Module Redemption.

Section Calls.

Variable isEmail : string -> bool.
Variable createSurveySessionToken : string -> string -> bool -> Z -> string.

(** Successive [POST /api/auth/verify-otp] requests served by one process. *)
Fixpoint verify_otp_POSTs (calls : list (Z * Routes.VerifyRequest)) (w : Routes.World)
    : list Routes.Response * Routes.World :=
  match calls with
  | [] => ([], w)
  | (now, req) :: calls' =>
      let '(r, w') := Routes.verify_otp_POST isEmail createSurveySessionToken now req w in
      let '(rs, w'') := verify_otp_POSTs calls' w' in
      (r :: rs, w'')
  end.

End Calls.

End Redemption.

(** ** Data export ([POST /api/admin/export]) *)

Module DataExport.

(** JSON values of a stored answer sheet and of an export record. *)
Inductive JValue :=
| JNull
| JBool (b : bool)
| JNumber (n : Z)
| JString (s : string)
| JOther (text : string).

(** A response with its version, as the export query returns it. *)
Record Row := {
  rowEmail : string;
  rowGroup : string;
  rowVersion : string;
  rowSubmittedAt : Z;
  rowPartial : bool;
  rowResponses : gmap string JValue;
  rowCompletionTime : option Z;
  rowDeviceType : option string }.

Definition nullable {A : Type} (f : A -> JValue) (v : option A) : JValue :=
  match v with
  | Some a => f a
  | None => JNull
  end.

Section Process.

(** [process.env.ANONYMIZATION_SALT], and the three date formats
    ([toISOString], [toLocaleDateString], [toLocaleTimeString]). *)
Variable env_salt : option string.
Variables toISOString toLocaleDateString toLocaleTimeString : Z -> string.

(** The [baseData] of a response: the five fixed fields, then the spread of
    the answer sheet, whose keys override them. *)
Definition baseData (anonymize : bool) (response : Row) : gmap string JValue :=
  rowResponses response ∪
  {[ "participantId" :=
       JString (if anonymize then Crypto.hashEmail env_salt (rowEmail response)
                else rowEmail response);
     "group" := JString (rowGroup response);
     "surveyVersion" := JString (rowVersion response);
     "submittedAt" := JString (toISOString (rowSubmittedAt response));
     "isPartial" := JBool (rowPartial response) ]}.

(** One element of [processedData]: with metadata, the four metadata
    fields are spread last and override [baseData]. *)
Definition processRow (anonymize includeMetadata : bool) (response : Row)
    : gmap string JValue :=
  if includeMetadata then
    {[ "completionTime" := nullable JNumber (rowCompletionTime response);
       "deviceType" := nullable JString (rowDeviceType response);
       "submissionDate" := JString (toLocaleDateString (rowSubmittedAt response));
       "submissionTime" := JString (toLocaleTimeString (rowSubmittedAt response)) ]}
    ∪ baseData anonymize response
  else baseData anonymize response.

End Process.

(** The double-quote character. *)
Definition quote : ascii := ascii_of_nat 34.

(** [value.replace(...)] of the cell: every double quote is doubled. *)
Fixpoint doubleQuotes (s : string) : string :=
  match s with
  | EmptyString => EmptyString
  | String c s' =>
      if Ascii.eqb c quote
      then String quote (String quote (doubleQuotes s'))
      else String c (doubleQuotes s')
  end.

(** A CSV cell of [generateCSVExport] for a string value: quoted, with its
    quotes doubled, when it has a comma or a quote; as it is otherwise
    ([value || ''] is the value itself for every string). *)
Definition csvCell (value : string) : string :=
  if JS.includes value "," || JS.includes value (String quote EmptyString)
  then String quote (doubleQuotes value ++ String quote EmptyString)
  else value.

End DataExport.

(** ** Survey submission ([POST /api/survey/submit]) *)

Module Submission.
Import Store.

(** A row of [SurveyResponse] with all the columns the handler writes. *)
Record ResponseRow := {
  sr_id : Z;
  sr_email : string;
  sr_group : string;
  sr_versionId : Z;
  sr_responses : gmap string DataExport.JValue;
  sr_completionTime : option Z;
  sr_partial : bool;
  sr_userAgent : string;
  sr_deviceType : string;
  sr_ipAddressHash : string;
  sr_submittedAt : Z }.

(** A row of [SurveyVersion]: its group, and its questions when the stored
    JSON is an array. *)
Record Version := {
  versionGroup : string;
  versionQuestions : option (list DataExport.JValue) }.

(** The tables the handler reads and writes; [nextResponseId] is the id the
    database gives to the next created response. *)
Record Tables := {
  invited : gmap string InvitedUser;
  admins : gmap string AdminUser;
  settings : list SystemSettings;
  responseRows : list ResponseRow;
  versions : gmap Z Version;
  nextResponseId : Z }.

(** The same store as the access policy reads it. *)
Definition toDB (t : Tables) : DB :=
  {| invitedUser := invited t; adminUser := admins t; systemSettings := settings t;
     surveyResponse :=
       List.map (fun r => {| responseEmail := sr_email r; responseGroup := sr_group r;
                             submittedAt := sr_submittedAt r |}) (responseRows t) |}.

Record SubmitRequest := {
  sq_email : string;
  sq_surveyVersionId : Z;
  sq_responses : gmap string DataExport.JValue;
  sq_completionTime : option Z;
  sq_partial : option bool;
  sq_userAgent : option string;
  sq_deviceType : option string;
  sq_allowResubmissionHeader : option string;
  sq_forwardedForHeader : option string;
  sq_realIpHeader : option string;
  sq_userAgentHeader : option string }.

Inductive SubmitBody :=
| SubmitError (error : option string)
| SubmitIssues (error : string)
| AlreadyCompleted (group : string) (responseId : option Z) (submittedAt : option Z)
| Submitted (message : string) (responseId : Z) (questionsAnswered totalQuestions : Z).

Record SubmitResponse := { submitStatus : Z; submitBody : SubmitBody }.

(** [a || b] on optional strings: the first non-empty one. *)
Definition orElse (a : option string) (b : string) : string :=
  match Auth.present a with
  | Some v => v
  | None => b
  end.

Definition rowsOf (email : string) (rows : list ResponseRow) : list ResponseRow :=
  List.filter (fun r => String.eqb (sr_email r) email) rows.

(** [findFirst({ where: { email }, orderBy: { submittedAt: 'desc' } })]:
    a row with the greatest [submittedAt], the earliest stored one among
    equals. *)
Definition latest (rows : list ResponseRow) : option ResponseRow :=
  fold_left
    (fun best r =>
       match best with
       | None => Some r
       | Some b => if sr_submittedAt b <? sr_submittedAt r then Some r else Some b
       end) rows None.

(** The stored answer sheet: the submitted answers with the three tracking
    keys set. *)
Definition tracked (responses : gmap string DataExport.JValue) (existing : Z)
    : gmap string DataExport.JValue :=
  <["_previousSubmissions" := DataExport.JNumber existing]>
    (<["_isResubmission" := DataExport.JBool (existing + 1 >? 1)]>
       (<["_submissionVersion" := DataExport.JNumber (existing + 1)]> responses)).

Definition markTaken (u : InvitedUser) : InvitedUser :=
  {| group := group u; hasTaken := true; otpCode := otpCode u;
     otpExpiry := otpExpiry u; consented := consented u;
     remindersSent := remindersSent u |}.

Section Handler.

Variable isEmail : string -> bool.
Variable env_salt : option string.

(** [SubmitSurveySchema.safeParse(body).success] *)
Definition SubmitSurveySchema (req : SubmitRequest) : bool :=
  isEmail (sq_email req) && (0 <? sq_surveyVersionId req).

Definition submit_POST (now : Z) (req : SubmitRequest) (t : Tables)
    : SubmitResponse * Tables :=
  if negb (SubmitSurveySchema req) then
    ({| submitStatus := 400; submitBody := SubmitIssues "Invalid submission data" |}, t)
  else
    let email := sq_email req in
    let partial := match sq_partial req with Some b => b | None => false end in
    let access := ProductionMode.canAccessSurvey (toDB t) email in
    if negb (ProductionMode.allowed access) then
      ({| submitStatus := 403;
          submitBody := SubmitError (ProductionMode.reason access) |}, t)
    else
      match invited t !! email with
      | None =>
          ({| submitStatus := 404; submitBody := SubmitError (Some "User not found") |}, t)
      | Some user =>
          if negb (consented user) then
            ({| submitStatus := 403;
                submitBody := SubmitError (Some "User consent required") |}, t)
          else
            let allowResubmission :=
              Routes.env_is (sq_allowResubmissionHeader req) "true" in
            if hasTaken user && negb partial && negb allowResubmission then
              let existingResponse := latest (rowsOf email (responseRows t)) in
              ({| submitStatus := 200;
                  submitBody :=
                    AlreadyCompleted (group user)
                      (option_map sr_id existingResponse)
                      (option_map sr_submittedAt existingResponse) |}, t)
            else
              match versions t !! sq_surveyVersionId req with
              | None =>
                  ({| submitStatus := 404;
                      submitBody := SubmitError (Some "Survey version not found") |}, t)
              | Some surveyVersion =>
                  if negb (String.eqb (versionGroup surveyVersion) (group user)) then
                    ({| submitStatus := 400;
                        submitBody :=
                          SubmitError (Some "Survey version does not match user group") |},
                     t)
                  else
                    let clientIP :=
                      orElse (sq_forwardedForHeader req)
                        (orElse (sq_realIpHeader req) "unknown") in
                    let clientUserAgent :=
                      orElse (sq_userAgent req)
                        (orElse (sq_userAgentHeader req) "unknown") in
                    let existingResponseCount :=
                      Z.of_nat (length (rowsOf email (responseRows t))) in
                    let surveyResponse :=
                      {| sr_id := nextResponseId t;
                         sr_email := email;
                         sr_group := group user;
                         sr_versionId := sq_surveyVersionId req;
                         sr_responses := tracked (sq_responses req) existingResponseCount;
                         sr_completionTime := sq_completionTime req;
                         sr_partial := partial;
                         sr_userAgent := clientUserAgent;
                         sr_deviceType := orElse (sq_deviceType req) "unknown";
                         sr_ipAddressHash := Crypto.hashEmail env_salt clientIP;
                         sr_submittedAt := now |} in
                    let invited' :=
                      if negb partial then alter markTaken email (invited t)
                      else invited t in
                    ({| submitStatus := 200;
                        submitBody :=
                          Submitted
                            (if partial then "Survey progress saved"
                             else "Survey submitted successfully")
                            (sr_id surveyResponse)
                            (Z.of_nat (size (sq_responses req)))
                            (match versionQuestions surveyVersion with
                             | Some questions => Z.of_nat (length questions)
                             | None => 0
                             end) |},
                     {| invited := invited'; admins := admins t; settings := settings t;
                        responseRows := (responseRows t ++ [surveyResponse])%list;
                        versions := versions t;
                        nextResponseId := nextResponseId t + 1 |})
              end
      end.

End Handler.

Definition isSubmitted (b : SubmitBody) : bool :=
  match b with
  | Submitted _ _ _ _ => true
  | _ => false
  end.

End Submission.

(** ** Further sample data *)

Module Scenario.
Import Store.

(** Sessions of both kinds. *)
Definition validateSessionToken (token : string) : option Auth.Session :=
  if String.eqb token "admin-jwt"
  then Some {| Auth.sessionEmail := "admin@district.org"; Auth.sessionType := "admin" |}
  else if String.eqb token "survey-jwt"
  then Some {| Auth.sessionEmail := "teacher@district.org"; Auth.sessionType := "survey" |}
  else None.

Definition participant : Auth.Session :=
  {| Auth.sessionEmail := "teacher@district.org"; Auth.sessionType := "survey" |}.

Definition maskEmail (email : string) : string := "***".

(** A code request as the wrapped handler receives it, with its clock
    reading and environment. *)
Definition OtpCall : Type := Z * Routes.OtpEnv * Routes.OtpRequest.

Definition otpHeaders (call : OtpCall) : Routes.Headers :=
  Routes.req_headers (snd call).

Definition otpHandler (call : OtpCall) (w : Routes.World)
    : Routes.Response * Routes.World :=
  Routes.request_otp_POST Sample.isEmail (fst (fst call)) (snd (fst call)) (snd call) w.

Definition timed (call : OtpCall) : Limited.Readings * OtpCall :=
  (Limited.sameInstant (fst (fst call)), call).

(** A request checked at the last instant of its window, whose later
    readings fall one millisecond after the window's end. *)
Definition acrossWindowEnd : Limited.Readings :=
  {| Limited.atCheck := 61000; Limited.atBodyReset := 61000; Limited.atBody := 61000;
     Limited.atRetryReset := 61000; Limited.atRetry := 61000;
     Limited.atRemaining := 61001; Limited.atReset := 61001 |}.

(** A limiter in which the sample client has used up its five requests. *)
Definition usedUp : RateLimiter.Attempts :=
  {[ "203.0.113.7" := {| RateLimiter.count := 5; RateLimiter.resetTime := 61000 |} ]}.

(** A world in which the teacher's invitation is locked. *)
Definition lockedWorld : Routes.World :=
  {| Routes.db :=
       with_invitedUser
         {[ "teacher@district.org" :=
              {| group := "teacher"; hasTaken := false; otpCode := Some "123456";
                 otpExpiry := Some 600000; consented := false; remindersSent := 5 |} ]}
         (Sample.database false);
     Routes.otpRateLimiter := ∅ |}.

(** The letter e with an acute accent, U+00E9: two bytes, one UTF-16
    code unit. *)
Definition eAcute : string :=
  String (ascii_of_nat 195) (String (ascii_of_nat 169) EmptyString).

(** A code of five characters that takes six bytes, and one of six
    characters that takes seven. *)
Definition fiveUnits : Routes.VerifyRequest :=
  {| Routes.vr_email := "teacher@district.org"; Routes.vr_code := "1234" ++ eAcute;
     Routes.vr_consented := true |}.

Definition sixUnits : Routes.VerifyRequest :=
  {| Routes.vr_email := "teacher@district.org"; Routes.vr_code := "12345" ++ eAcute;
     Routes.vr_consented := true |}.

Definition withoutConsent : Routes.VerifyRequest :=
  {| Routes.vr_email := "teacher@district.org"; Routes.vr_code := "000000";
     Routes.vr_consented := false |}.

Definition parentEnv : Routes.OtpEnv := snd (fst (Sample.otpCall 1000 Byte.x01)).
Definition parentRequest : Routes.OtpRequest := snd (Sample.otpCall 1000 Byte.x01).

Definition strangerRequest : Routes.OtpRequest :=
  {| Routes.req_headers := {| Routes.xForwardedFor := None; Routes.xRealIp := None |};
     Routes.req_email := "stranger@district.org" |}.

Definition participantToggle : Routes.ToggleRequest :=
  {| Routes.adminCookie := None; Routes.surveyCookie := Some "survey-jwt";
     Routes.confirmation := Some "PRODUCTION" |}.

Definition resubmission : Admin.ResubmissionRequest :=
  {| Admin.ar_adminCookie := Some "admin-jwt"; Admin.ar_surveyCookie := None;
     Admin.ar_email := "teacher@district.org"; Admin.ar_reason := None |}.

(** Tables for the submission handler: the teacher has consented and not
    yet completed the survey. *)
Definition tables : Submission.Tables :=
  {| Submission.invited :=
       {[ "teacher@district.org" :=
            {| group := "teacher"; hasTaken := false; otpCode := None;
               otpExpiry := None; consented := true; remindersSent := 0 |} ]};
     Submission.admins := ∅;
     Submission.settings :=
       [ {| productionMode := false; toggledAt := None; toggledBy := None |} ];
     Submission.responseRows := [];
     Submission.versions :=
       {[ 1 := {| Submission.versionGroup := "teacher";
                  Submission.versionQuestions := Some [] |} ]};
     Submission.nextResponseId := 1 |}.

Definition submission (partial : bool) : Submission.SubmitRequest :=
  {| Submission.sq_email := "teacher@district.org";
     Submission.sq_surveyVersionId := 1;
     Submission.sq_responses := {[ "q1" := DataExport.JString "yes" ]};
     Submission.sq_completionTime := Some 300;
     Submission.sq_partial := Some partial;
     Submission.sq_userAgent := None;
     Submission.sq_deviceType := None;
     Submission.sq_allowResubmissionHeader := None;
     Submission.sq_forwardedForHeader := Some "203.0.113.7";
     Submission.sq_realIpHeader := None;
     Submission.sq_userAgentHeader := None |}.

End Scenario.

(** * Worked examples *)

(** Closed goals, conjunct by conjunct, by evaluation. *)
Ltac by_computation :=
  intros; repeat (match goal with |- _ /\ _ => split end); vm_compute; reflexivity.

Example sha256_constants :
  length Sha256.K = 64%nat
  /\ nth 0 Sha256.K 0 = 0x428a2f98 /\ nth 63 Sha256.K 0 = 0xc67178f2
  /\ Sha256.h0 Sha256.initial = 0x6a09e667 /\ Sha256.h7 Sha256.initial = 0x5be0cd19.
Proof. by_computation. Qed.

Example sha256_abc :
  Sha256.hexdigest "abc"
  = "ba7816bf8f01cfea414140de5dae2223b00361a396177a9cb410ff61f20015ad".
Proof. by_computation. Qed.

Example hashEmail_test :
  Crypto.hashEmail None "test@example.com" = "a5a49c3a615ddf03".
Proof. by_computation. Qed.

Example validateOTP_ok :
  Crypto.validateOTP 1000 "123456" (Some "123456") (Some 2000) 0
  = {| Crypto.valid := true; Crypto.error := None |}.
Proof. reflexivity. Qed.

Example toString_sample : JS.toString 742916 = "742916".
Proof. reflexivity. Qed.

(** * Properties *)

(** ** The passcode validator *)

Lemma falsy_string_spec (s : string) : JS.falsy_string s = true <-> s = "".
Proof. unfold JS.falsy_string. apply String.eqb_eq. Qed.

Lemma falsy_string_false (s : string) : s <> "" -> JS.falsy_string s = false.
Proof.
  intros Hs. destruct (JS.falsy_string s) eqn:E; [|reflexivity].
  apply falsy_string_spec in E. contradiction.
Qed.

(** C1 (as amended): [validateOTP] runs its four checks in order and
    returns the outcome of the first that fires.  Five or more attempts give
    [TooManyAttempts] whatever the other fields; otherwise a stored code
    that is null or the empty string, or a null expiry, gives
    [NoCodeFound]; otherwise a clock past the expiry gives [Expired];
    otherwise a submitted code different from the stored one gives
    [Mismatch]; otherwise the result is valid with a null error. *)
Theorem validateOTP_checks_in_order :
  forall (now : Z) (submitted : string) (stored : option string)
         (expiry : option Z) (attempts : Z),
    (5 <= attempts ->
       Crypto.validateOTP now submitted stored expiry attempts
       = Crypto.invalid Crypto.TooManyAttempts) /\
    (attempts < 5 -> stored = None \/ stored = Some "" \/ expiry = None ->
       Crypto.validateOTP now submitted stored expiry attempts
       = Crypto.invalid Crypto.NoCodeFound) /\
    (forall code exp,
       attempts < 5 -> stored = Some code -> code <> "" -> expiry = Some exp ->
       (exp < now ->
          Crypto.validateOTP now submitted stored expiry attempts
          = Crypto.invalid Crypto.Expired) /\
       (now <= exp -> submitted <> code ->
          Crypto.validateOTP now submitted stored expiry attempts
          = Crypto.invalid Crypto.Mismatch) /\
       (now <= exp -> submitted = code ->
          Crypto.validateOTP now submitted stored expiry attempts
          = {| Crypto.valid := true; Crypto.error := None |})).
Proof.
  intros now submitted stored expiry attempts. unfold Crypto.validateOTP.
  split; [|split].
  - intros Ha. destruct (Z.geb_spec attempts 5); [reflexivity | lia].
  - intros Ha Hnull. destruct (Z.geb_spec attempts 5); [lia|].
    destruct Hnull as [-> | [-> | ->]].
    + reflexivity.
    + destruct expiry; reflexivity.
    + destruct stored; reflexivity.
  - intros code exp Ha -> Hcode ->.
    destruct (Z.geb_spec attempts 5); [lia|].
    rewrite (falsy_string_false code Hcode).
    repeat split.
    + intros Hpast. destruct (Z.gtb_spec now exp); [reflexivity | lia].
    + intros Hfresh Hneq. destruct (Z.gtb_spec now exp); [lia|].
      apply String.eqb_neq in Hneq. rewrite Hneq. reflexivity.
    + intros Hfresh ->. destruct (Z.gtb_spec now exp); [lia|].
      rewrite String.eqb_refl. reflexivity.
Qed.

(** C1, as the specification states it, fails on an empty stored code: with
    no attempts used, a non-null stored code [""] and a future expiry, the
    code answers [NoCodeFound] where the stated order answers [Mismatch]. *)
Lemma validateOTP_empty_stored_code :
  Crypto.validateOTP 0 "123456" (Some "") (Some 600000) 0
    = Crypto.invalid Crypto.NoCodeFound
  /\ Crypto.validateOTP_spec 0 "123456" (Some "") (Some 600000) 0
    = Crypto.invalid Crypto.Mismatch
  /\ Crypto.validateOTP 0 "123456" (Some "") (Some 600000) 0
    <> Crypto.validateOTP_spec 0 "123456" (Some "") (Some 600000) 0.
Proof. repeat split; try reflexivity. discriminate. Qed.

(** On every stored code that is not the empty string the code and the
    stated order agree. *)
Lemma validateOTP_spec_agree now submitted stored expiry attempts :
  stored <> Some "" ->
  Crypto.validateOTP now submitted stored expiry attempts
  = Crypto.validateOTP_spec now submitted stored expiry attempts.
Proof.
  intros Hs. unfold Crypto.validateOTP, Crypto.validateOTP_spec.
  destruct (attempts >=? 5); [reflexivity|].
  destruct stored as [code|]; [|reflexivity].
  destruct expiry as [exp|]; [|reflexivity].
  rewrite falsy_string_false; [reflexivity|]. congruence.
Qed.

(** ** The code generator *)

Lemma small_digit_cases (d : Z) :
  0 <= d < 10 ->
  d = 0 \/ d = 1 \/ d = 2 \/ d = 3 \/ d = 4 \/ d = 5 \/ d = 6 \/ d = 7 \/ d = 8 \/ d = 9.
Proof. lia. Qed.

Lemma is_digit_digit_char (d : Z) :
  0 <= d < 10 -> JS.is_digit (JS.digit_char d) = true.
Proof.
  intros Hd. destruct (small_digit_cases d Hd) as
    [-> | [-> | [-> | [-> | [-> | [-> | [-> | [-> | [-> | ->]]]]]]]]]; reflexivity.
Qed.

Lemma digit_value_digit_char (d : Z) :
  0 <= d < 10 -> JS.digit_value (JS.digit_char d) = d.
Proof.
  intros Hd. destruct (small_digit_cases d Hd) as
    [-> | [-> | [-> | [-> | [-> | [-> | [-> | [-> | [-> | ->]]]]]]]]]; reflexivity.
Qed.

Lemma mod10_digit (q : Z) : 0 <= q mod 10 < 10.
Proof. apply Z.mod_pos_bound. lia. Qed.

(** The digits of a number of the passcode range, by repeated division. *)
Lemma digits_of_six (fuel : nat) (n : Z) :
  100000 <= n <= 999999 -> (6 <= fuel)%nat ->
  JS.digits_of fuel n []
  = [ (n / 10 / 10 / 10 / 10 / 10) mod 10; (n / 10 / 10 / 10 / 10) mod 10;
      (n / 10 / 10 / 10) mod 10; (n / 10 / 10) mod 10; (n / 10) mod 10; n mod 10 ].
Proof.
  intros Hn Hfuel.
  do 6 (destruct fuel as [|fuel]; [lia|]).
  cbn [JS.digits_of].
  assert (H1 : n / 10 <> 0) by (Z.to_euclidean_division_equations; lia).
  assert (H2 : n / 10 / 10 <> 0) by (Z.to_euclidean_division_equations; lia).
  assert (H3 : n / 10 / 10 / 10 <> 0) by (Z.to_euclidean_division_equations; lia).
  assert (H4 : n / 10 / 10 / 10 / 10 <> 0) by (Z.to_euclidean_division_equations; lia).
  assert (H5 : n / 10 / 10 / 10 / 10 / 10 <> 0) by (Z.to_euclidean_division_equations; lia).
  assert (H6 : n / 10 / 10 / 10 / 10 / 10 / 10 = 0) by (Z.to_euclidean_division_equations; lia).
  apply Z.eqb_neq in H1, H2, H3, H4, H5. apply Z.eqb_eq in H6.
  rewrite H1, H2, H3, H4, H5, H6. reflexivity.
Qed.

Lemma toString_fuel (n : Z) :
  100000 <= n <= 999999 -> (6 <= S (Z.to_nat (Z.log2 n)))%nat.
Proof.
  intros Hn.
  assert (H : Z.log2 65536 <= Z.log2 n) by (apply Z.log2_le_mono; lia).
  change (Z.log2 65536) with 16 in H. lia.
Qed.

Lemma toString_six_digits (n : Z) :
  100000 <= n <= 999999 ->
  JS.matches_six_digits (JS.toString n) = true /\ JS.parseDigits (JS.toString n) = n.
Proof.
  intros Hn. unfold JS.matches_six_digits, JS.parseDigits, JS.toString.
  rewrite (digits_of_six _ n Hn (toString_fuel n Hn)).
  rewrite list_ascii_of_string_of_list_ascii.
  split.
  - cbn [List.map string_of_list_ascii String.length Nat.eqb forallb andb].
    rewrite !is_digit_digit_char by apply mod10_digit. reflexivity.
  - cbn [List.map fold_left].
    rewrite !digit_value_digit_char by apply mod10_digit.
    Z.to_euclidean_division_equations. lia.
Qed.

Lemma readUInt32BE_range (b0 b1 b2 b3 : Byte.byte) :
  0 <= Crypto.readUInt32BE b0 b1 b2 b3 < 4294967296.
Proof.
  unfold Crypto.readUInt32BE.
  pose proof (Byte.to_N_bounded b0). pose proof (Byte.to_N_bounded b1).
  pose proof (Byte.to_N_bounded b2). pose proof (Byte.to_N_bounded b3).
  lia.
Qed.

Lemma otpNumber_range (n : Z) :
  0 <= n -> 100000 <= Crypto.otpNumber n <= 999999.
Proof.
  intros Hn. unfold Crypto.otpNumber.
  pose proof (Z.rem_bound_pos n 900000 Hn ltac:(lia)). lia.
Qed.

(** C8: every call of [generateOTP], whatever four bytes the random source
    returns, yields a string matching [^\d{6}$] whose numeric value lies in
    [100000, 999999]; and for every 32-bit [n] the number
    [(n % 900000) + 100000] lies in that range and prints as six digits. *)
Theorem generateOTP_six_digits :
  forall buffer : Byte.byte * Byte.byte * Byte.byte * Byte.byte,
    (JS.matches_six_digits (Crypto.generateOTP buffer) = true /\
     100000 <= JS.parseDigits (Crypto.generateOTP buffer) <= 999999) /\
    (forall n : Z, 0 <= n < 4294967296 ->
       100000 <= Crypto.otpNumber n <= 999999 /\
       JS.matches_six_digits (JS.toString (Crypto.otpNumber n)) = true /\
       JS.parseDigits (JS.toString (Crypto.otpNumber n)) = Crypto.otpNumber n).
Proof.
  intros [[[b0 b1] b2] b3]. split.
  - unfold Crypto.generateOTP.
    pose proof (readUInt32BE_range b0 b1 b2 b3) as Hr.
    pose proof (otpNumber_range _ (proj1 Hr)) as Ho.
    destruct (toString_six_digits _ Ho) as [Hm Hp].
    rewrite Hm, Hp. auto.
  - intros n Hn.
    pose proof (otpNumber_range n (proj1 Hn)) as Ho.
    destruct (toString_six_digits _ Ho) as [Hm Hp]. auto.
Qed.

Example generateOTP_zero_bytes :
  Crypto.generateOTP (Byte.x00, Byte.x00, Byte.x00, Byte.x00) = "100000".
Proof. reflexivity. Qed.

Example generateOTP_max_bytes :
  Crypto.generateOTP (Byte.xff, Byte.xff, Byte.xff, Byte.xff) = "267295".
Proof. by_computation. Qed.

(** ** The anonymization hash *)

Lemma is_hex_hex_char (d : Z) : 0 <= d < 16 -> Sha256.is_hex (Sha256.hex_char d) = true.
Proof.
  intros Hd.
  assert (H : d = 0 \/ d = 1 \/ d = 2 \/ d = 3 \/ d = 4 \/ d = 5 \/ d = 6 \/ d = 7 \/
              d = 8 \/ d = 9 \/ d = 10 \/ d = 11 \/ d = 12 \/ d = 13 \/ d = 14 \/ d = 15)
    by lia.
  repeat (destruct H as [-> | H]; [reflexivity|]). subst d. reflexivity.
Qed.

Lemma is_hex_nibble (i x : Z) : Sha256.is_hex (Sha256.nibble i x) = true.
Proof. unfold Sha256.nibble. apply is_hex_hex_char, Z.mod_pos_bound. lia. Qed.

(** The first 16 characters of a digest are the first two chaining words. *)
Lemma firstn_hex_state (s : Sha256.State) :
  firstn 16 (Sha256.hex_state s)
  = (Sha256.hex_word (Sha256.h0 s) ++ Sha256.hex_word (Sha256.h1 s))%list.
Proof. reflexivity. Qed.

Lemma hashEmail_chars (env_salt : option string) (email : string) :
  exists s : Sha256.State,
    list_ascii_of_string (Crypto.hashEmail env_salt email)
    = (Sha256.hex_word (Sha256.h0 s) ++ Sha256.hex_word (Sha256.h1 s))%list.
Proof.
  unfold Crypto.hashEmail, JS.substring0, Sha256.hexdigest.
  eexists. rewrite !list_ascii_of_string_of_list_ascii. apply firstn_hex_state.
Qed.

Lemma length_list_ascii (s : string) :
  length (list_ascii_of_string s) = String.length s.
Proof. induction s as [|c s IH]; simpl; congruence. Qed.

Lemma hashEmail_length (env_salt : option string) (email : string) :
  String.length (Crypto.hashEmail env_salt email) = 16%nat.
Proof.
  destruct (hashEmail_chars env_salt email) as [s Hs].
  rewrite <- length_list_ascii, Hs. reflexivity.
Qed.

Lemma hashEmail_hex (env_salt : option string) (email : string) :
  forallb Sha256.is_hex (list_ascii_of_string (Crypto.hashEmail env_salt email)) = true.
Proof.
  destruct (hashEmail_chars env_salt email) as [s Hs]. rewrite Hs.
  cbn [Sha256.hex_word app forallb]. rewrite !is_hex_nibble. reflexivity.
Qed.

Lemma is_prefix_In (p l : list ascii) (c : ascii) :
  JS.is_prefix p l = true -> In c p -> In c l.
Proof.
  revert l. induction p as [|a p IH]; intros l Hp Hc; [contradiction|].
  destruct l as [|b l]; [discriminate|]. simpl in Hp.
  apply andb_prop in Hp as [Hab Hp]. apply Ascii.eqb_eq in Hab. subst b.
  destruct Hc as [-> | Hc]; [left; reflexivity | right; eauto].
Qed.

Lemma is_prefix_length (p l : list ascii) :
  JS.is_prefix p l = true -> (length p <= length l)%nat.
Proof.
  revert l. induction p as [|a p IH]; intros l Hp; simpl; [lia|].
  destruct l as [|b l]; [discriminate|]. simpl in Hp.
  apply andb_prop in Hp as [_ Hp]. apply IH in Hp. simpl. lia.
Qed.

(** A substring occurrence places every character of the needle in the
    haystack, and the needle is no longer than the haystack. *)
Lemma includes_list_In (l needle : list ascii) (c : ascii) :
  JS.includes_list l needle = true -> In c needle -> In c l.
Proof.
  induction l as [|b l IH]; intros H Hc; simpl in H.
  - rewrite orb_false_r in H. exact (is_prefix_In _ _ c H Hc).
  - apply orb_prop in H as [H | H].
    + exact (is_prefix_In _ _ c H Hc).
    + right. auto.
Qed.

Lemma includes_list_length (l needle : list ascii) :
  JS.includes_list l needle = true -> (length needle <= length l)%nat.
Proof.
  induction l as [|b l IH]; intros H; simpl in H.
  - rewrite orb_false_r in H. apply is_prefix_length in H. exact H.
  - apply orb_prop in H as [H | H].
    + apply is_prefix_length in H. exact H.
    + apply IH in H. simpl. lia.
Qed.

(** C9 (as amended): [hashEmail] is deterministic, its result has exactly
    16 characters, all of them lowercase hexadecimal digits, and it never
    contains the input email as a substring when the email has a character
    outside [0-9a-f] (as every address with an [@] has) or is longer than
    16 characters. *)
Theorem hashEmail_token :
  forall (env_salt : option string) (email : string),
    (forall env_salt' email',
       env_salt' = env_salt -> email' = email ->
       Crypto.hashEmail env_salt' email' = Crypto.hashEmail env_salt email) /\
    String.length (Crypto.hashEmail env_salt email) = 16%nat /\
    forallb Sha256.is_hex (list_ascii_of_string (Crypto.hashEmail env_salt email)) = true /\
    ((exists c, In c (list_ascii_of_string email) /\ Sha256.is_hex c = false) \/
     (16 < String.length email)%nat ->
     JS.includes (Crypto.hashEmail env_salt email) email = false).
Proof.
  intros env_salt email. split; [|split; [|split]].
  - intros env_salt' email' -> ->. reflexivity.
  - apply hashEmail_length.
  - apply hashEmail_hex.
  - intros Hcond. unfold JS.includes.
    destruct (JS.includes_list _ _) eqn:Hinc; [exfalso | reflexivity].
    destruct Hcond as [(c & Hc & Hhex) | Hlong].
    + pose proof (includes_list_In _ _ c Hinc Hc) as Hin.
      pose proof (hashEmail_hex env_salt email) as Hall.
      rewrite forallb_forall in Hall. specialize (Hall c Hin). congruence.
    + apply includes_list_length in Hinc.
      rewrite !length_list_ascii, hashEmail_length in Hinc. lia.
Qed.

(** C9, as the specification states it, fails on a short hexadecimal input:
    with the default salt, the token of ["b"] is ["fa0aa4935b5a17a0"], which
    contains ["b"]. *)
Lemma hashEmail_contains_input :
  Crypto.hashEmail None "b" = "fa0aa4935b5a17a0"
  /\ JS.includes (Crypto.hashEmail None "b") "b" = true.
Proof. by_computation. Qed.

Example hashEmail_addresses :
  JS.includes (Crypto.hashEmail None "secret@example.com") "secret@example.com" = false
  /\ JS.includes (Crypto.hashEmail None "secret@example.com") "secret" = false.
Proof. by_computation. Qed.

(** ** The access policy *)

Lemma isSiteAdmin_settings (d : Store.DB) (settings : list Store.SystemSettings)
    (email : string) :
  ProductionMode.isSiteAdmin (Store.with_systemSettings settings d) email
  = ProductionMode.isSiteAdmin d email.
Proof. reflexivity. Qed.

(** C2: [canAccessSurvey] looks at administrator membership first.  An
    email in the administrator table is denied with the administrator
    reason whatever the System Mode record holds and whether or not the
    email is a test account; a non-administrator is denied with the
    test-account reason exactly when the mode is restricted and the email
    is a test account; every other email is allowed. *)
Theorem canAccessSurvey_admin_first :
  forall (d : Store.DB) (email : string),
    (is_Some (Store.adminUser d !! email) ->
       forall settings : list Store.SystemSettings,
         ProductionMode.canAccessSurvey (Store.with_systemSettings settings d) email
         = {| ProductionMode.allowed := false;
              ProductionMode.reason := Some ProductionMode.ADMIN_REASON |}) /\
    (Store.adminUser d !! email = None ->
       ProductionMode.getProductionMode d = true ->
       ProductionMode.isTestAccount email = true ->
       ProductionMode.canAccessSurvey d email
       = {| ProductionMode.allowed := false;
            ProductionMode.reason := Some ProductionMode.TEST_ACCOUNT_REASON |}) /\
    (Store.adminUser d !! email = None ->
       ProductionMode.getProductionMode d = false \/
       ProductionMode.isTestAccount email = false ->
       ProductionMode.canAccessSurvey d email
       = {| ProductionMode.allowed := true; ProductionMode.reason := None |}).
Proof.
  intros d email. unfold ProductionMode.canAccessSurvey. split; [|split].
  - intros [a Ha] settings. rewrite isSiteAdmin_settings.
    unfold ProductionMode.isSiteAdmin. rewrite Ha. reflexivity.
  - intros Hna Hmode Htest. unfold ProductionMode.isSiteAdmin.
    rewrite Hna, Hmode, Htest. reflexivity.
  - intros Hna Hor. unfold ProductionMode.isSiteAdmin. rewrite Hna.
    destruct Hor as [-> | ->]; [reflexivity|].
    destruct (ProductionMode.getProductionMode d); reflexivity.
Qed.

(** An administrator whose address is also a test account, in normal mode
    and in restricted mode. *)
Example canAccessSurvey_admin_test_account :
  let admins : gmap string Store.AdminUser :=
    {[ "admin@example.com" :=
         {| Store.adminId := 1; Store.adminName := "Site Admin";
            Store.adminRole := "admin" |} ]} in
  let d (mode : bool) :=
    {| Store.invitedUser := ∅; Store.adminUser := admins;
       Store.systemSettings :=
         [ {| Store.productionMode := mode; Store.toggledAt := None;
              Store.toggledBy := None |} ];
       Store.surveyResponse := [] |} in
  ProductionMode.isTestAccount "admin@example.com" = true /\
  ProductionMode.reason (ProductionMode.canAccessSurvey (d false) "admin@example.com")
    = Some ProductionMode.ADMIN_REASON /\
  ProductionMode.reason (ProductionMode.canAccessSurvey (d true) "admin@example.com")
    = Some ProductionMode.ADMIN_REASON /\
  ProductionMode.canAccessSurvey (d false) "teacher@example.com"
    = {| ProductionMode.allowed := true; ProductionMode.reason := None |} /\
  ProductionMode.reason (ProductionMode.canAccessSurvey (d true) "teacher@example.com")
    = Some ProductionMode.TEST_ACCOUNT_REASON.
Proof. by_computation. Qed.

(** ** The rate limiter *)

Section FixedWindow.

Variables (now : Z) (k : string) (limit windowMs : Z).
Variable m : RateLimiter.Attempts.

Let opened : RateLimiter.RateLimitEntry :=
  {| RateLimiter.count := 1; RateLimiter.resetTime := now + windowMs |}.

Lemma check_first_call :
  m !! k = None ->
  RateLimiter.check now k limit windowMs m = (true, <[k := opened]> m).
Proof. intros H. unfold RateLimiter.check. rewrite H. reflexivity. Qed.

Lemma check_window_passed (r : RateLimiter.RateLimitEntry) :
  m !! k = Some r -> RateLimiter.resetTime r < now ->
  RateLimiter.check now k limit windowMs m = (true, <[k := opened]> m).
Proof.
  intros H Hlt. unfold RateLimiter.check. rewrite H.
  destruct (Z.gtb_spec now (RateLimiter.resetTime r)); [reflexivity | lia].
Qed.

Lemma check_below_limit (r : RateLimiter.RateLimitEntry) :
  m !! k = Some r -> now <= RateLimiter.resetTime r -> RateLimiter.count r < limit ->
  RateLimiter.check now k limit windowMs m
  = (true, <[k := {| RateLimiter.count := RateLimiter.count r + 1;
                     RateLimiter.resetTime := RateLimiter.resetTime r |}]> m).
Proof.
  intros H Hle Hc. unfold RateLimiter.check. rewrite H.
  destruct (Z.gtb_spec now (RateLimiter.resetTime r)); [lia|].
  destruct (Z.geb_spec (RateLimiter.count r) limit); [lia | reflexivity].
Qed.

Lemma check_at_limit (r : RateLimiter.RateLimitEntry) :
  m !! k = Some r -> now <= RateLimiter.resetTime r -> limit <= RateLimiter.count r ->
  RateLimiter.check now k limit windowMs m = (false, m).
Proof.
  intros H Hle Hc. unfold RateLimiter.check. rewrite H.
  destruct (Z.gtb_spec now (RateLimiter.resetTime r)); [lia|].
  destruct (Z.geb_spec (RateLimiter.count r) limit); [reflexivity | lia].
Qed.

End FixedWindow.

Lemma check_new_window (now : Z) (k : string) (limit windowMs : Z)
    (m : RateLimiter.Attempts) :
  m !! k = None \/
  (exists r, m !! k = Some r /\ RateLimiter.resetTime r < now) ->
  RateLimiter.check now k limit windowMs m
  = (true, <[k := {| RateLimiter.count := 1;
                     RateLimiter.resetTime := now + windowMs |}]> m).
Proof.
  intros [Hnone | (r & Hr & Hlt)].
  - apply check_first_call, Hnone.
  - eapply check_window_passed; eauto.
Qed.

(** One more call inside the window that [t0] opened, from count [c]. *)
Lemma check_in_window (t0 t : Z) (k : string) (limit windowMs c : Z)
    (m : RateLimiter.Attempts) :
  t <= t0 + windowMs ->
  RateLimiter.check t k limit windowMs
    (<[k := {| RateLimiter.count := c; RateLimiter.resetTime := t0 + windowMs |}]> m)
  = if c >=? limit
    then (false,
          <[k := {| RateLimiter.count := c; RateLimiter.resetTime := t0 + windowMs |}]> m)
    else (true,
          <[k := {| RateLimiter.count := c + 1;
                    RateLimiter.resetTime := t0 + windowMs |}]> m).
Proof.
  intros Ht. destruct (Z.geb_spec c limit).
  - eapply check_at_limit; [apply lookup_insert_eq | simpl; lia | simpl; lia].
  - erewrite check_below_limit; [| apply lookup_insert_eq | simpl; lia | simpl; lia].
    simpl. rewrite insert_insert_eq. reflexivity.
Qed.

(** C6: [check] is a fixed-window counter.  On the first call for a key,
    or once the stored window end has passed, it stores count 1 with a new
    window end and returns true.  Inside a window it increments and returns
    true while the count is below the limit, and returns false, leaving the
    map as it is, once the count has reached the limit.  Six calls of
    [check(k, 5, 60000)] inside one window return true five times and then
    false, and a call after the window end returns true again. *)
Theorem check_fixed_window :
  forall (now : Z) (k : string) (limit windowMs : Z) (m : RateLimiter.Attempts),
    (m !! k = None \/
     (exists r, m !! k = Some r /\ RateLimiter.resetTime r < now) ->
       RateLimiter.check now k limit windowMs m
       = (true, <[k := {| RateLimiter.count := 1;
                          RateLimiter.resetTime := now + windowMs |}]> m)) /\
    (forall r, m !! k = Some r -> now <= RateLimiter.resetTime r ->
       (RateLimiter.count r < limit ->
          RateLimiter.check now k limit windowMs m
          = (true, <[k := {| RateLimiter.count := RateLimiter.count r + 1;
                             RateLimiter.resetTime := RateLimiter.resetTime r |}]> m)) /\
       (limit <= RateLimiter.count r ->
          RateLimiter.check now k limit windowMs m = (false, m))) /\
    (forall t2 t3 t4 t5 t6 t7 : Z,
       m !! k = None \/
       (exists r, m !! k = Some r /\ RateLimiter.resetTime r < now) ->
       t2 <= now + 60000 -> t3 <= now + 60000 -> t4 <= now + 60000 ->
       t5 <= now + 60000 -> t6 <= now + 60000 -> now + 60000 < t7 ->
       fst (RateLimiter.checks [now; t2; t3; t4; t5; t6; t7] k 5 60000 m)
       = [true; true; true; true; true; false; true]).
Proof.
  intros now k limit windowMs m. split; [|split].
  - apply check_new_window.
  - intros r Hr Hle. split; intros Hc.
    + apply check_below_limit; assumption.
    + apply check_at_limit with (r := r); assumption.
  - intros t2 t3 t4 t5 t6 t7 Hnew H2 H3 H4 H5 H6 H7.
    cbn [RateLimiter.checks].
    rewrite (check_new_window now k 5 60000 m Hnew).
    rewrite (check_in_window now t2 k 5 60000 1 m H2).
    change (1 >=? 5) with false; change (1 + 1) with 2; cbv iota.
    rewrite (check_in_window now t3 k 5 60000 2 m H3).
    change (2 >=? 5) with false; change (2 + 1) with 3; cbv iota.
    rewrite (check_in_window now t4 k 5 60000 3 m H4).
    change (3 >=? 5) with false; change (3 + 1) with 4; cbv iota.
    rewrite (check_in_window now t5 k 5 60000 4 m H5).
    change (4 >=? 5) with false; change (4 + 1) with 5; cbv iota.
    rewrite (check_in_window now t6 k 5 60000 5 m H6).
    change (5 >=? 5) with true; cbv iota.
    erewrite check_window_passed; [reflexivity | apply lookup_insert_eq | simpl; lia].
Qed.

Example check_six_rapid_calls :
  fst (RateLimiter.checks [1000; 1001; 1002; 1003; 1004; 1005; 61001]
         "203.0.113.7" 5 60000 ∅)
  = [true; true; true; true; true; false; true]
  /\ fst (RateLimiter.checks [1000; 1001; 1002; 1003; 1004; 1005; 61000]
         "203.0.113.7" 5 60000 ∅)
  = [true; true; true; true; true; false; false].
Proof. by_computation. Qed.

(** ** Code redemption *)

Lemma or_zero_id (x : Z) : JS.or_zero x = x.
Proof. unfold JS.or_zero. destruct (Z.eqb_spec x 0); congruence. Qed.

Section VerifyOtp.

Variable isEmail : string -> bool.
Variable createSurveySessionToken : string -> string -> bool -> Z -> string.

Let verify := Routes.verify_otp_POST isEmail createSurveySessionToken.

(** A request that passes the schema, the access policy and the consent
    check, for an invited email, is decided by [validateOTP] alone. *)
Lemma verify_reaches_validation (now : Z) (req : Routes.VerifyRequest)
    (w : Routes.World) (user : Store.InvitedUser) :
  Routes.VerifyOTPSchema isEmail req = true ->
  ProductionMode.allowed
    (ProductionMode.canAccessSurvey (Routes.db w) (Routes.vr_email req)) = true ->
  Routes.vr_consented req = true ->
  Store.invitedUser (Routes.db w) !! Routes.vr_email req = Some user ->
  verify now req w
  = let v := Crypto.validateOTP now (Routes.vr_code req) (Store.otpCode user)
               (Store.otpExpiry user) (Store.remindersSent user) in
    if Crypto.valid v then
      (Routes.json
         (Routes.VerifiedBody (Store.group user) (now + 2 * 60 * 60 * 1000)
            (createSurveySessionToken (Routes.vr_email req) (Store.group user) true
               (now + 2 * 60 * 60 * 1000))) 200,
       Routes.with_db
         (Store.with_invitedUser
            (<[Routes.vr_email req := Routes.redeemed user]>
               (Store.invitedUser (Routes.db w))) (Routes.db w)) w)
    else
      (Routes.json (Routes.ErrorBody (Crypto.error v)) 400,
       Routes.with_db
         (Store.with_invitedUser
            (<[Routes.vr_email req := Routes.failedAttempt user]>
               (Store.invitedUser (Routes.db w))) (Routes.db w)) w).
Proof.
  intros Hschema Hacc Hcons Huser.
  unfold verify, Routes.verify_otp_POST.
  rewrite Hschema, Hacc, Hcons, Huser. cbn [negb].
  rewrite or_zero_id. cbv zeta.
  assert (Halter : forall f : Store.InvitedUser -> Store.InvitedUser,
             alter f (Routes.vr_email req) (Store.invitedUser (Routes.db w))
             = <[Routes.vr_email req := f user]> (Store.invitedUser (Routes.db w))).
  { intros f. apply map_eq. intros e.
    destruct (decide (Routes.vr_email req = e)) as [<- | Hne].
    - rewrite lookup_alter_eq, lookup_insert_eq, Huser. reflexivity.
    - rewrite lookup_alter_ne, lookup_insert_ne by assumption. reflexivity. }
  unfold Store.update. rewrite !Halter.
  destruct (Crypto.valid _); reflexivity.
Qed.

Lemma verify_world_fields (now : Z) (req : Routes.VerifyRequest)
    (w : Routes.World) (user : Store.InvitedUser) :
  Routes.VerifyOTPSchema isEmail req = true ->
  ProductionMode.allowed
    (ProductionMode.canAccessSurvey (Routes.db w) (Routes.vr_email req)) = true ->
  Routes.vr_consented req = true ->
  Store.invitedUser (Routes.db w) !! Routes.vr_email req = Some user ->
  Store.invitedUser (Routes.db (snd (verify now req w)))
  = <[Routes.vr_email req :=
        if Crypto.valid (Crypto.validateOTP now (Routes.vr_code req) (Store.otpCode user)
                           (Store.otpExpiry user) (Store.remindersSent user))
        then Routes.redeemed user else Routes.failedAttempt user]>
      (Store.invitedUser (Routes.db w))
  /\ Store.adminUser (Routes.db (snd (verify now req w))) = Store.adminUser (Routes.db w)
  /\ Store.systemSettings (Routes.db (snd (verify now req w)))
     = Store.systemSettings (Routes.db w)
  /\ Store.surveyResponse (Routes.db (snd (verify now req w)))
     = Store.surveyResponse (Routes.db w).
Proof.
  intros Hschema Hacc Hcons Huser.
  rewrite (verify_reaches_validation now req w user Hschema Hacc Hcons Huser).
  cbv zeta. destruct (Crypto.valid _); repeat split; reflexivity.
Qed.

(** A cleared row admits no redemption: whatever code is submitted for the
    email, at whatever time, the handler does not answer 200. *)
Lemma verify_after_redeemed (now : Z) (req : Routes.VerifyRequest)
    (w : Routes.World) (user : Store.InvitedUser) :
  Store.invitedUser (Routes.db w) !! Routes.vr_email req = Some (Routes.redeemed user) ->
  Routes.status (fst (verify now req w)) <> 200.
Proof.
  intros Huser. unfold verify, Routes.verify_otp_POST.
  destruct (Routes.VerifyOTPSchema isEmail req); [|simpl; lia].
  destruct (ProductionMode.allowed _); [|simpl; lia].
  destruct (Routes.vr_consented req); [|simpl; lia].
  rewrite Huser. simpl. lia.
Qed.

(** C7: in the code-redemption handler, once a request reaches validation
    (it passes the schema, the access policy and the consent check, and the
    email is invited), every invalid outcome of [validateOTP] is answered
    with status 400 and stores the attempt counter plus one, and every
    valid outcome stores a null code, a null expiry and a zero counter, so
    that no later request for that email is answered 200 from that state:
    the code is single-use. *)
Theorem verify_otp_attempt_accounting :
  forall (now : Z) (req : Routes.VerifyRequest) (w : Routes.World)
         (user : Store.InvitedUser),
    Routes.VerifyOTPSchema isEmail req = true ->
    ProductionMode.allowed
      (ProductionMode.canAccessSurvey (Routes.db w) (Routes.vr_email req)) = true ->
    Routes.vr_consented req = true ->
    Store.invitedUser (Routes.db w) !! Routes.vr_email req = Some user ->
    (Crypto.valid (Crypto.validateOTP now (Routes.vr_code req) (Store.otpCode user)
                     (Store.otpExpiry user) (Store.remindersSent user)) = false ->
       Routes.status (fst (verify now req w)) = 400 /\
       exists user',
         Store.invitedUser (Routes.db (snd (verify now req w))) !! Routes.vr_email req
         = Some user' /\
         Store.remindersSent user' = Store.remindersSent user + 1) /\
    (Crypto.valid (Crypto.validateOTP now (Routes.vr_code req) (Store.otpCode user)
                     (Store.otpExpiry user) (Store.remindersSent user)) = true ->
       Routes.status (fst (verify now req w)) = 200 /\
       (exists user',
          Store.invitedUser (Routes.db (snd (verify now req w))) !! Routes.vr_email req
          = Some user' /\
          Store.otpCode user' = None /\ Store.otpExpiry user' = None /\
          Store.remindersSent user' = 0) /\
       (forall (now' : Z) (req' : Routes.VerifyRequest),
          Routes.vr_email req' = Routes.vr_email req ->
          Routes.status (fst (verify now' req' (snd (verify now req w)))) <> 200)).
Proof.
  intros now req w user Hschema Hacc Hcons Huser.
  destruct (verify_world_fields now req w user Hschema Hacc Hcons Huser)
    as (Hrows & _).
  pose proof (verify_reaches_validation now req w user Hschema Hacc Hcons Huser) as Hrun.
  cbv zeta in Hrun. split; intros Hv; rewrite Hv in Hrows, Hrun.
  - split; [rewrite Hrun; reflexivity|].
    exists (Routes.failedAttempt user). split; [|reflexivity].
    rewrite Hrows. apply lookup_insert_eq.
  - split; [rewrite Hrun; reflexivity|]. split.
    + exists (Routes.redeemed user). repeat split.
      rewrite Hrows. apply lookup_insert_eq.
    + intros now' req' Hemail.
      apply verify_after_redeemed with (user := user).
      rewrite Hemail, Hrows. apply lookup_insert_eq.
Qed.

(** C10: on every invalid outcome of [validateOTP] in the code-redemption
    handler, the row of the email keeps its stored code, expiry, consent
    flag, completion flag and group, and only its attempt counter grows by
    one; every other row and every other table is unchanged.  While the
    counter stays below five, the outstanding code validates afterwards
    exactly as it did before. *)
Theorem verify_otp_failure_frame :
  forall (now : Z) (req : Routes.VerifyRequest) (w : Routes.World)
         (user : Store.InvitedUser),
    Routes.VerifyOTPSchema isEmail req = true ->
    ProductionMode.allowed
      (ProductionMode.canAccessSurvey (Routes.db w) (Routes.vr_email req)) = true ->
    Routes.vr_consented req = true ->
    Store.invitedUser (Routes.db w) !! Routes.vr_email req = Some user ->
    Crypto.valid (Crypto.validateOTP now (Routes.vr_code req) (Store.otpCode user)
                    (Store.otpExpiry user) (Store.remindersSent user)) = false ->
    exists user',
      Store.invitedUser (Routes.db (snd (verify now req w))) !! Routes.vr_email req
      = Some user' /\
      Store.otpCode user' = Store.otpCode user /\
      Store.otpExpiry user' = Store.otpExpiry user /\
      Store.consented user' = Store.consented user /\
      Store.hasTaken user' = Store.hasTaken user /\
      Store.group user' = Store.group user /\
      Store.remindersSent user' = Store.remindersSent user + 1 /\
      (forall other : string,
         other <> Routes.vr_email req ->
         Store.invitedUser (Routes.db (snd (verify now req w))) !! other
         = Store.invitedUser (Routes.db w) !! other) /\
      Store.adminUser (Routes.db (snd (verify now req w))) = Store.adminUser (Routes.db w) /\
      Store.systemSettings (Routes.db (snd (verify now req w)))
      = Store.systemSettings (Routes.db w) /\
      Store.surveyResponse (Routes.db (snd (verify now req w)))
      = Store.surveyResponse (Routes.db w) /\
      (Store.remindersSent user + 1 < 5 ->
       forall (now' : Z) (code : string),
         Crypto.validateOTP now' code (Store.otpCode user') (Store.otpExpiry user')
           (Store.remindersSent user')
         = Crypto.validateOTP now' code (Store.otpCode user) (Store.otpExpiry user)
             (Store.remindersSent user)).
Proof.
  intros now req w user Hschema Hacc Hcons Huser Hv.
  destruct (verify_world_fields now req w user Hschema Hacc Hcons Huser)
    as (Hrows & Hadmin & Hsettings & Hresponses).
  rewrite Hv in Hrows.
  exists (Routes.failedAttempt user).
  split; [rewrite Hrows; apply lookup_insert_eq|].
  do 6 (split; [reflexivity|]).
  split; [intros other Hne; rewrite Hrows; apply lookup_insert_ne; congruence|].
  do 3 (split; [assumption|]).
  intros Hcap now' code. unfold Crypto.validateOTP. simpl.
  destruct (Z.geb_spec (Store.remindersSent user + 1) 5); [lia|].
  destruct (Z.geb_spec (Store.remindersSent user) 5); [lia|].
  reflexivity.
Qed.

End VerifyOtp.

Lemma verify_otp_attempt_accounting_witness :
  Routes.status
    (fst (Routes.verify_otp_POST Sample.isEmail Sample.createSurveySessionToken
            1000 Sample.wrongCode (Sample.world false))) = 400 /\
  exists user',
    Store.invitedUser
      (Routes.db
         (snd (Routes.verify_otp_POST Sample.isEmail Sample.createSurveySessionToken
                 1000 Sample.wrongCode (Sample.world false))))
      !! "teacher@district.org" = Some user' /\
    Store.remindersSent user' = 4.
Proof.
  refine (proj1 (verify_otp_attempt_accounting Sample.isEmail
                   Sample.createSurveySessionToken 1000 Sample.wrongCode
                   (Sample.world false) Sample.teacher _ _ _ _) _);
    vm_compute; reflexivity.
Defined.

Lemma verify_otp_failure_frame_witness :
  exists user',
    Store.invitedUser
      (Routes.db
         (snd (Routes.verify_otp_POST Sample.isEmail Sample.createSurveySessionToken
                 1000 Sample.wrongCode (Sample.world false))))
      !! "teacher@district.org" = Some user' /\
    Store.otpCode user' = Some "123456" /\
    Store.otpExpiry user' = Some 600000.
Proof.
  destruct (verify_otp_failure_frame Sample.isEmail Sample.createSurveySessionToken
              1000 Sample.wrongCode (Sample.world false) Sample.teacher)
    as (user' & Hrow & Hcode & Hexpiry & _); try (vm_compute; reflexivity).
  exists user'. split; [exact Hrow|]. split; [exact Hcode | exact Hexpiry].
Defined.

Example verify_right_code_once :
  Routes.status
    (fst (Routes.verify_otp_POST Sample.isEmail Sample.createSurveySessionToken
            1000 Sample.rightCode (Sample.world false))) = 200
  /\ fst (Routes.verify_otp_POST Sample.isEmail Sample.createSurveySessionToken
            1001 Sample.rightCode
            (snd (Routes.verify_otp_POST Sample.isEmail Sample.createSurveySessionToken
                    1000 Sample.rightCode (Sample.world false))))
     = Routes.json (Routes.ErrorBody (Some Crypto.NoCodeFound)) 400.
Proof. by_computation. Qed.

(** The schema measures the code in UTF-16 code units.  A code of five
    characters in six bytes fails it: the answer is the schema error and no
    attempt is counted.  A code of six characters in seven bytes passes it
    and is a failed attempt: the counter goes from 3 to 4. *)
Example verify_counts_code_units :
  JS.length (Routes.vr_code Scenario.fiveUnits) = 5%nat
  /\ String.length (Routes.vr_code Scenario.fiveUnits) = 6%nat
  /\ Routes.verify_otp_POST Sample.isEmail Sample.createSurveySessionToken
       1000 Scenario.fiveUnits (Sample.world false)
     = (Routes.json (Routes.IssuesBody "Invalid verification data") 400,
        Sample.world false)
  /\ JS.length (Routes.vr_code Scenario.sixUnits) = 6%nat
  /\ fst (Routes.verify_otp_POST Sample.isEmail Sample.createSurveySessionToken
            1000 Scenario.sixUnits (Sample.world false))
     = Routes.json (Routes.ErrorBody (Some Crypto.Mismatch)) 400
  /\ Store.invitedUser
       (Routes.db
          (snd (Routes.verify_otp_POST Sample.isEmail Sample.createSurveySessionToken
                  1000 Scenario.sixUnits (Sample.world false))))
     !! "teacher@district.org"
     = Some (Routes.failedAttempt Sample.teacher)
  /\ Store.remindersSent (Routes.failedAttempt Sample.teacher) = 4.
Proof. by_computation. Qed.

(** ** The global mode transition *)

Section ToggleProduction.

Variable validateSessionToken : string -> option Auth.Session.

Let toggle := Routes.toggle_production_POST validateSessionToken.

(** The three steps as they run on an authorized, confirmed request in
    normal mode. *)
Lemma toggle_runs (now : Z) (req : Routes.ToggleRequest) (w : Routes.World)
    (session : Auth.Session) :
  Auth.getSessionFromRequest validateSessionToken
    (Routes.adminCookie req) (Routes.surveyCookie req) = Some session ->
  Routes.ToggleSchema req = true ->
  Routes.currentlyProduction (Routes.db w) = false ->
  toggle now req w
  = (Routes.json
       (Routes.ActivatedBody
          (Z.of_nat (length (Store.surveyResponse (Routes.db w))))
          (Z.of_nat (size (Store.invitedUser (Routes.db w))))
          (Auth.sessionEmail session) now) 200,
     Routes.with_db
       {| Store.invitedUser := Routes.resetUser <$> Store.invitedUser (Routes.db w);
          Store.adminUser := Store.adminUser (Routes.db w);
          Store.systemSettings :=
            List.map (Routes.activate now (Auth.sessionEmail session))
              (Store.systemSettings (Routes.db w));
          Store.surveyResponse := [] |} w).
Proof.
  intros Hsession Hschema Hmode.
  unfold toggle, Routes.toggle_production_POST.
  rewrite Hsession, Hschema, Hmode. reflexivity.
Qed.

Lemma toggle_rejected (now : Z) (req : Routes.ToggleRequest) (w : Routes.World) :
  Routes.currentlyProduction (Routes.db w) = true ->
  snd (toggle now req w) = w /\ Routes.status (fst (toggle now req w)) <> 200.
Proof.
  intros Hmode. unfold toggle, Routes.toggle_production_POST.
  destruct (Auth.getSessionFromRequest _ _ _); [|simpl; split; [reflexivity | lia]].
  destruct (Routes.ToggleSchema req); [|simpl; split; [reflexivity | lia]].
  rewrite Hmode. simpl. split; [reflexivity | lia].
Qed.

(** C3 (as amended): when the global mode transition succeeds (a session
    is present, the confirmation is the exact string, the mode is not yet
    restricted) and a System Mode record exists, it answers 200, deletes all
    survey submissions, resets every invitation's completion flag and
    consent flag to false and its stored code and expiry to null while
    leaving its attempt counter and group as they were, keeps the set of
    invitations and the administrators, and flips System Mode to restricted
    with the acting session's email and the timestamp recorded. *)
Theorem toggle_production_effects :
  forall (now : Z) (req : Routes.ToggleRequest) (w : Routes.World)
         (session : Auth.Session),
    Auth.getSessionFromRequest validateSessionToken
      (Routes.adminCookie req) (Routes.surveyCookie req) = Some session ->
    Routes.ToggleSchema req = true ->
    Routes.currentlyProduction (Routes.db w) = false ->
    Store.systemSettings (Routes.db w) <> [] ->
    Routes.status (fst (toggle now req w)) = 200 /\
    Store.surveyResponse (Routes.db (snd (toggle now req w))) = [] /\
    (forall (email : string) (u : Store.InvitedUser),
       Store.invitedUser (Routes.db w) !! email = Some u ->
       exists u',
         Store.invitedUser (Routes.db (snd (toggle now req w))) !! email = Some u' /\
         Store.hasTaken u' = false /\ Store.consented u' = false /\
         Store.otpCode u' = None /\ Store.otpExpiry u' = None /\
         Store.remindersSent u' = Store.remindersSent u /\
         Store.group u' = Store.group u) /\
    (forall email : string,
       Store.invitedUser (Routes.db w) !! email = None ->
       Store.invitedUser (Routes.db (snd (toggle now req w))) !! email = None) /\
    Store.adminUser (Routes.db (snd (toggle now req w))) = Store.adminUser (Routes.db w) /\
    Forall (fun s => s = {| Store.productionMode := true;
                            Store.toggledAt := Some now;
                            Store.toggledBy := Some (Auth.sessionEmail session) |})
      (Store.systemSettings (Routes.db (snd (toggle now req w)))) /\
    ProductionMode.getProductionMode (Routes.db (snd (toggle now req w))) = true.
Proof.
  intros now req w session Hsession Hschema Hmode Hrow.
  rewrite (toggle_runs now req w session Hsession Hschema Hmode).
  cbn [fst snd Routes.status Routes.json Routes.db Routes.with_db
       Store.surveyResponse Store.invitedUser Store.adminUser Store.systemSettings].
  split; [reflexivity|]. split; [reflexivity|]. split; [|split; [|split; [|split]]].
  - intros email u Hu. exists (Routes.resetUser u).
    rewrite lookup_fmap, Hu. repeat split.
  - intros email Hnone. rewrite lookup_fmap, Hnone. reflexivity.
  - reflexivity.
  - generalize (Store.systemSettings (Routes.db w)). intros rows.
    induction rows as [|s0 rows IH]; simpl; constructor; [reflexivity | exact IH].
  - unfold ProductionMode.getProductionMode, Store.findFirst.
    cbn [Store.systemSettings].
    destruct (Store.systemSettings (Routes.db w)) as [|s0 rest]; [contradiction|].
    reflexivity.
Qed.

(** C5: while System Mode is restricted, the global mode transition has
    no effect on any request: the process state is returned as it was (no
    submission deleted, no invitation reset, the System Mode record
    unchanged) and the answer is not 200; an authorized request with the
    exact confirmation is answered 400 "Already in production mode". *)
Theorem toggle_production_already_restricted :
  forall (now : Z) (req : Routes.ToggleRequest) (w : Routes.World),
    Routes.currentlyProduction (Routes.db w) = true ->
    snd (toggle now req w) = w /\
    Routes.status (fst (toggle now req w)) <> 200 /\
    (forall session : Auth.Session,
       Auth.getSessionFromRequest validateSessionToken
         (Routes.adminCookie req) (Routes.surveyCookie req) = Some session ->
       Routes.ToggleSchema req = true ->
       fst (toggle now req w)
       = Routes.json (Routes.ErrorBody (Some "Already in production mode")) 400).
Proof.
  intros now req w Hmode.
  destruct (toggle_rejected now req w Hmode) as [Hsame Hstatus].
  split; [exact Hsame|]. split; [exact Hstatus|].
  intros session Hsession Hschema.
  unfold toggle, Routes.toggle_production_POST.
  rewrite Hsession, Hschema, Hmode. reflexivity.
Qed.

(** Two invocations in a row: the second is rejected and leaves the state
    that the first produced. *)
Lemma toggle_production_twice (now now' : Z) (req : Routes.ToggleRequest)
    (w : Routes.World) (session : Auth.Session) :
  Auth.getSessionFromRequest validateSessionToken
    (Routes.adminCookie req) (Routes.surveyCookie req) = Some session ->
  Routes.ToggleSchema req = true ->
  Routes.currentlyProduction (Routes.db w) = false ->
  Store.systemSettings (Routes.db w) <> [] ->
  toggle now' req (snd (toggle now req w))
  = (Routes.json (Routes.ErrorBody (Some "Already in production mode")) 400,
     snd (toggle now req w)).
Proof.
  intros Hsession Hschema Hmode Hrow.
  rewrite (toggle_runs now req w session Hsession Hschema Hmode). cbn [snd].
  unfold toggle, Routes.toggle_production_POST.
  rewrite Hsession, Hschema. cbn [negb].
  unfold Routes.currentlyProduction, Store.findFirst.
  cbn [Routes.db Routes.with_db Store.systemSettings].
  destruct (Store.systemSettings (Routes.db w)) as [|s0 rest]; [contradiction|].
  reflexivity.
Qed.

End ToggleProduction.

Lemma toggle_production_effects_witness :
  Routes.status
    (fst (Routes.toggle_production_POST Sample.validateSessionToken 1000
            Sample.confirmedToggle (Sample.world false))) = 200 /\
  Store.surveyResponse
    (Routes.db
       (snd (Routes.toggle_production_POST Sample.validateSessionToken 1000
               Sample.confirmedToggle (Sample.world false)))) = [] /\
  ProductionMode.getProductionMode
    (Routes.db
       (snd (Routes.toggle_production_POST Sample.validateSessionToken 1000
               Sample.confirmedToggle (Sample.world false)))) = true.
Proof.
  destruct (toggle_production_effects Sample.validateSessionToken 1000
              Sample.confirmedToggle (Sample.world false)
              {| Auth.sessionEmail := "admin@district.org"; Auth.sessionType := "admin" |})
    as (Hstatus & Hdeleted & _ & _ & _ & _ & Hmode);
    try (vm_compute; reflexivity).
  - discriminate.
  - split; [exact Hstatus|]. split; [exact Hdeleted | exact Hmode].
Defined.

(** C3, as the specification states it, fails on the attempt counter: a
    successful transition leaves the counter of an invitation at 3, where a
    reset to the default would store 0; the flags, the code and the expiry
    of that invitation are reset. *)
Lemma toggle_production_keeps_attempt_counter :
  Routes.status
    (fst (Routes.toggle_production_POST Sample.validateSessionToken 1000
            Sample.confirmedToggle (Sample.world false))) = 200 /\
  exists u',
    Store.invitedUser
      (Routes.db
         (snd (Routes.toggle_production_POST Sample.validateSessionToken 1000
                 Sample.confirmedToggle (Sample.world false))))
      !! "teacher@district.org" = Some u' /\
    Store.hasTaken u' = false /\ Store.consented u' = false /\
    Store.otpCode u' = None /\ Store.otpExpiry u' = None /\
    Store.remindersSent u' = 3 /\ Store.remindersSent u' <> 0.
Proof.
  split; [by_computation|].
  exists (Routes.resetUser Sample.teacher).
  split; [by_computation|]. do 5 (split; [reflexivity|]). discriminate.
Qed.

(** Without a System Mode record the transition deletes and resets, answers
    200, and the mode still reads as normal. *)
Remark toggle_production_without_record :
  let w := {| Routes.db := Store.with_systemSettings [] (Sample.database false);
              Routes.otpRateLimiter := ∅ |} in
  let r := Routes.toggle_production_POST Sample.validateSessionToken 1000
             Sample.confirmedToggle w in
  Routes.status (fst r) = 200 /\
  Store.surveyResponse (Routes.db (snd r)) = [] /\
  ProductionMode.getProductionMode (Routes.db (snd r)) = false.
Proof. by_computation. Qed.

Lemma toggle_production_already_restricted_witness :
  snd (Routes.toggle_production_POST Sample.validateSessionToken 2000
         Sample.confirmedToggle (Sample.world true)) = Sample.world true /\
  Routes.status
    (fst (Routes.toggle_production_POST Sample.validateSessionToken 2000
            Sample.confirmedToggle (Sample.world true))) <> 200.
Proof.
  destruct (toggle_production_already_restricted Sample.validateSessionToken 2000
              Sample.confirmedToggle (Sample.world true))
    as (Hsame & Hstatus & _); [vm_compute; reflexivity|].
  split; [exact Hsame | exact Hstatus].
Defined.

(** ** Requesting a code *)

Section RequestOtp.

Variable isEmail : string -> bool.

(** The handler never reads or writes the limiter: its answer and the
    database it leaves are the same for every limiter state, and the
    limiter state is returned as it was. *)
Lemma request_otp_ignores_limiter (now : Z) (env : Routes.OtpEnv)
    (req : Routes.OtpRequest) (d : Store.DB) (l1 l2 : RateLimiter.Attempts) :
  let r1 := Routes.request_otp_POST isEmail now env req
              {| Routes.db := d; Routes.otpRateLimiter := l1 |} in
  let r2 := Routes.request_otp_POST isEmail now env req
              {| Routes.db := d; Routes.otpRateLimiter := l2 |} in
  fst r1 = fst r2 /\ Routes.db (snd r1) = Routes.db (snd r2) /\
  Routes.otpRateLimiter (snd r1) = l1.
Proof.
  unfold Routes.request_otp_POST. cbn [Routes.db].
  destruct (isEmail (Routes.req_email req)); [|repeat split].
  destruct (ProductionMode.allowed _); [|repeat split].
  destruct (Store.invitedUser d !! Routes.req_email req) as [invited|]; [|repeat split].
  destruct (Store.hasTaken invited); [repeat split|].
  cbn [negb]. cbv zeta.
  destruct (negb _); repeat split.
Qed.

End RequestOtp.

(** C4, evaluated on six code requests that one client sends within six
    milliseconds: the limiter, asked with the configured limit of 5 per
    60000 ms, would refuse the sixth; the handler answers all six with 200,
    and the code generated for the sixth is the one the store holds. *)
Lemma request_otp_not_rate_limited :
  fst (RateLimiter.checks [1000; 1001; 1002; 1003; 1004; 1005]
         (Routes.getClientIdentifier
            {| Routes.xForwardedFor := Some "203.0.113.7, 10.0.0.1";
               Routes.xRealIp := None |})
         (RateLimiter.requests RateLimiter.OTP_REQUEST)
         (RateLimiter.windowMs RateLimiter.OTP_REQUEST) ∅)
  = [true; true; true; true; true; false]
  /\ List.map Routes.status
       (fst (Routes.request_otp_POSTs Sample.isEmail Sample.sixCalls (Sample.world false)))
     = [200; 200; 200; 200; 200; 200]
  /\ Store.invitedUser
       (Routes.db
          (snd (Routes.request_otp_POSTs Sample.isEmail Sample.sixCalls
                  (Sample.world false))))
       !! "parent@district.org"
     = Some {| Store.group := "parent"; Store.hasTaken := false;
               Store.otpCode := Some "100006"; Store.otpExpiry := Some 601005;
               Store.consented := false; Store.remindersSent := 0 |}.
Proof. by_computation. Qed.

(** * Further properties *)

(** ** The rate limiter: windows, quota, clearing *)

Lemma checks_cons (t : Z) (ts : list Z) (k : string) (limit windowMs : Z)
    (m : RateLimiter.Attempts) :
  fst (RateLimiter.checks (t :: ts) k limit windowMs m)
  = fst (RateLimiter.check t k limit windowMs m)
    :: fst (RateLimiter.checks ts k limit windowMs
              (snd (RateLimiter.check t k limit windowMs m))).
Proof.
  cbn [RateLimiter.checks].
  destruct (RateLimiter.check t k limit windowMs m) as [r m']. cbn [fst snd].
  destruct (RateLimiter.checks ts k limit windowMs m') as [rs m'']. reflexivity.
Qed.

(** Calls inside the window that [t0] opened, starting from count [c]:
    the call number [i] is admitted exactly when [c + i] is below the
    limit. *)
Lemma checks_in_window (ts : list Z) :
  forall (t0 : Z) (k : string) (limit windowMs c : Z) (m : RateLimiter.Attempts),
    List.Forall (fun t => t <= t0 + windowMs) ts ->
    fst (RateLimiter.checks ts k limit windowMs
           (<[k := {| RateLimiter.count := c;
                      RateLimiter.resetTime := t0 + windowMs |}]> m))
    = List.map (fun i => c + Z.of_nat i <? limit) (seq 0 (length ts)).
Proof.
  induction ts as [|t ts IH]; intros t0 k limit windowMs c m Hts; [reflexivity|].
  apply List.Forall_cons_iff in Hts as [Ht Hts].
  rewrite checks_cons, (check_in_window t0 t k limit windowMs c m Ht).
  cbn [length seq List.map]. rewrite <- seq_shift, List.map_map.
  destruct (Z.geb_spec c limit) as [Hge | Hlt]; cbn [fst snd].
  - rewrite (IH t0 k limit windowMs c m Hts). f_equal.
    + symmetry. apply Z.ltb_ge. lia.
    + apply List.map_ext. intros i.
      transitivity false; [apply Z.ltb_ge | symmetry; apply Z.ltb_ge]; lia.
  - rewrite (IH t0 k limit windowMs (c + 1) m Hts). f_equal.
    + symmetry. apply Z.ltb_lt. lia.
    + apply List.map_ext. intros i. f_equal. lia.
Qed.

(** X1: in one window the limiter admits the opening call and then calls
    only while fewer than [limit] have been admitted: of the calls for a key
    whose window is new at [t0], all made before that window ends, call
    number [i] (from 0) is admitted exactly when [i = 0] or [i < limit].  The
    opening call is admitted whatever the limit is, even 0 or negative. *)
Theorem checks_admit_up_to_limit :
  forall (t0 : Z) (ts : list Z) (k : string) (limit windowMs : Z)
         (m : RateLimiter.Attempts),
    m !! k = None \/
    (exists r, m !! k = Some r /\ RateLimiter.resetTime r < t0) ->
    List.Forall (fun t => t <= t0 + windowMs) ts ->
    fst (RateLimiter.checks (t0 :: ts) k limit windowMs m)
    = List.map (fun i => Nat.eqb i 0 || (Z.of_nat i <? limit))
        (seq 0 (S (length ts))).
Proof.
  intros t0 ts k limit windowMs m Hnew Hts.
  rewrite checks_cons, (check_new_window t0 k limit windowMs m Hnew).
  cbn [fst snd seq List.map Nat.eqb orb]. f_equal.
  rewrite (checks_in_window ts t0 k limit windowMs 1 m Hts).
  rewrite <- seq_shift, List.map_map. apply List.map_ext. intros i.
  cbn [Nat.eqb orb]. f_equal. lia.
Qed.

Lemma checks_admit_up_to_limit_witness :
  fst (RateLimiter.checks [5000; 5001; 5002; 5003] "198.51.100.4" 2 1000 ∅)
  = [true; true; false; false].
Proof.
  refine (checks_admit_up_to_limit 5000 [5001; 5002; 5003] "198.51.100.4" 2 1000 ∅ _ _).
  - left. reflexivity.
  - repeat constructor; lia.
Defined.



(** X3: [clear] forgets a key and nothing else: the next [check] for the
    key opens a new window with count 1 and is admitted, the remaining quota
    reads as the full limit, and the entries of all other keys are as they
    were. *)
Theorem clear_resets_key :
  forall (now : Z) (k : string) (limit windowMs : Z) (m : RateLimiter.Attempts),
    RateLimiter.check now k limit windowMs (RateLimiter.clear k m)
    = (true, <[k := {| RateLimiter.count := 1;
                       RateLimiter.resetTime := now + windowMs |}]> m)
    /\ RateLimiter.getRemaining now k limit (RateLimiter.clear k m) = limit
    /\ (forall k' : string, k' <> k -> RateLimiter.clear k m !! k' = m !! k').
Proof.
  intros now k limit windowMs m. unfold RateLimiter.clear. split; [|split].
  - rewrite check_first_call by apply lookup_delete_eq.
    rewrite insert_delete_eq. reflexivity.
  - unfold RateLimiter.getRemaining. rewrite lookup_delete_eq. reflexivity.
  - intros k' Hne. apply lookup_delete_ne. congruence.
Qed.

(** X4: the window is fixed.  A call for a key whose window is still open
    never moves the window end, whether it is admitted or refused, and never
    counts beyond one more; and no call touches the entry of another key. *)
Theorem check_keeps_window :
  forall (now : Z) (k : string) (limit windowMs : Z) (m : RateLimiter.Attempts),
    (forall r, m !! k = Some r -> now <= RateLimiter.resetTime r ->
       exists r',
         snd (RateLimiter.check now k limit windowMs m) !! k = Some r' /\
         RateLimiter.resetTime r' = RateLimiter.resetTime r /\
         RateLimiter.count r'
         = RateLimiter.count r
           + (if fst (RateLimiter.check now k limit windowMs m) then 1 else 0)) /\
    (forall k' : string, k' <> k ->
       snd (RateLimiter.check now k limit windowMs m) !! k' = m !! k').
Proof.
  intros now k limit windowMs m. split.
  - intros r Hr Hin. unfold RateLimiter.check. rewrite Hr.
    destruct (Z.gtb_spec now (RateLimiter.resetTime r)); [lia|].
    destruct (Z.geb_spec (RateLimiter.count r) limit); cbn [fst snd].
    + exists r. split; [exact Hr|]. split; [reflexivity | lia].
    + eexists. split; [apply lookup_insert_eq|]. split; reflexivity.
  - intros k' Hne. unfold RateLimiter.check.
    destruct (m !! k) as [r|].
    + destruct (_ >? _); [cbn [snd]; apply lookup_insert_ne; congruence|].
      destruct (_ >=? _); cbn [snd]; [reflexivity|].
      apply lookup_insert_ne; congruence.
    + cbn [snd]. apply lookup_insert_ne; congruence.
Qed.

(** ** The rate-limiting wrapper *)

Lemma ceilSeconds_bounds (ms : Z) :
  ms <= 1000 * Limited.ceilSeconds ms < ms + 1000.
Proof. unfold Limited.ceilSeconds. Z.to_euclidean_division_equations. lia. Qed.

Lemma ceilSeconds_nonneg (ms : Z) : 0 <= ms -> 0 <= Limited.ceilSeconds ms.
Proof. intros Hms. pose proof (ceilSeconds_bounds ms). lia. Qed.

Section Wrapper.

Variables Req Resp St : Type.
Variable headersOf : Req -> Routes.Headers.
Variable handler : Req -> St -> Resp * St.

Let wrapped := Limited.withRateLimit Req Resp St headersOf handler.
Let ident (request : Req) : string := Routes.getClientIdentifier (headersOf request).

(** X5: a request whose client has used up the limit of the open window
    when [check] reads the clock is answered by the wrapper itself (the 429
    answer) and the handler is not run: the handler's state and the
    limiter's map are returned as they were.  The headers are computed from
    later clock readings.  The announced remaining quota is 0 if the window
    is still open when [getRemaining] reads the clock and the full limit if
    it has ended by then.  [Retry-After] is the time from its own reading to
    the window end rounded up to whole seconds: not negative while that
    reading is not past the window end, and not above the [retryAfter] of
    the body, which is computed from an earlier reading. *)
Theorem withRateLimit_refuses :
  forall (config : RateLimiter.Config) (clock : Limited.Readings) (request : Req)
         (limiter : RateLimiter.Attempts) (st : St) (r : RateLimiter.RateLimitEntry),
    limiter !! ident request = Some r ->
    Limited.atCheck clock <= RateLimiter.resetTime r ->
    RateLimiter.requests config <= RateLimiter.count r ->
    exists bodyRetry retry : Z,
      wrapped config clock request limiter st
      = (Limited.Refused bodyRetry
           {| Limited.retryAfterHeader := Some retry;
              Limited.limitHeader := RateLimiter.requests config;
              Limited.remainingHeader :=
                if Limited.atRemaining clock <=? RateLimiter.resetTime r
                then 0 else RateLimiter.requests config;
              Limited.resetHeader :=
                RateLimiter.getResetTime (Limited.atReset clock) (ident request) limiter |},
         limiter, st) /\
      (RateLimiter.resetTime r <> 0 ->
       RateLimiter.getResetTime (Limited.atReset clock) (ident request) limiter
       = RateLimiter.resetTime r /\
       (RateLimiter.resetTime r - Limited.atRetry clock <= 1000 * retry
        < RateLimiter.resetTime r - Limited.atRetry clock + 1000) /\
       (RateLimiter.resetTime r - Limited.atBody clock <= 1000 * bodyRetry
        < RateLimiter.resetTime r - Limited.atBody clock + 1000) /\
       (Limited.atRetry clock <= RateLimiter.resetTime r -> 0 <= retry) /\
       (Limited.atBody clock <= Limited.atRetry clock -> retry <= bodyRetry)).
Proof.
  intros config clock request limiter st r Hr Hin Hfull.
  exists (Limited.ceilSeconds
            (RateLimiter.getResetTime (Limited.atBodyReset clock) (ident request) limiter
             - Limited.atBody clock)),
         (Limited.ceilSeconds
            (RateLimiter.getResetTime (Limited.atRetryReset clock) (ident request) limiter
             - Limited.atRetry clock)).
  split.
  - unfold wrapped, Limited.withRateLimit. fold (ident request).
    rewrite (check_at_limit (Limited.atCheck clock) (ident request) _ _ limiter r
               Hr Hin Hfull).
    assert (Hrem : RateLimiter.getRemaining (Limited.atRemaining clock) (ident request)
                     (RateLimiter.requests config) limiter
                   = if Limited.atRemaining clock <=? RateLimiter.resetTime r
                     then 0 else RateLimiter.requests config).
    { unfold RateLimiter.getRemaining. rewrite Hr.
      destruct (Z.gtb_spec (Limited.atRemaining clock) (RateLimiter.resetTime r));
        destruct (Z.leb_spec (Limited.atRemaining clock) (RateLimiter.resetTime r)); lia. }
    cbn [negb]. rewrite Hrem. reflexivity.
  - intros Hset.
    assert (Hreset : forall t : Z,
               RateLimiter.getResetTime t (ident request) limiter
               = RateLimiter.resetTime r).
    { intros t. unfold RateLimiter.getResetTime. rewrite Hr.
      destruct (Z.eqb_spec (RateLimiter.resetTime r) 0); [contradiction | reflexivity]. }
    rewrite !Hreset.
    pose proof (ceilSeconds_bounds (RateLimiter.resetTime r - Limited.atRetry clock))
      as Hretry.
    pose proof (ceilSeconds_bounds (RateLimiter.resetTime r - Limited.atBody clock))
      as Hbody.
    split; [reflexivity|]. split; [exact Hretry|]. split; [exact Hbody|]. split.
    + intros Hopen. lia.
    + intros Horder. lia.
Qed.

(** One request inside the window that [t0] opened, from count [c]. *)
Lemma withRateLimit_in_window (config : RateLimiter.Config) (t0 c : Z)
    (t : Limited.Readings) (request : Req) (m : RateLimiter.Attempts) (st : St) :
  Limited.atCheck t <= t0 + RateLimiter.windowMs config ->
  let entry (n : Z) :=
    {| RateLimiter.count := n;
       RateLimiter.resetTime := t0 + RateLimiter.windowMs config |} in
  Limited.isServed (fst (fst (wrapped config t request (<[ident request := entry c]> m) st)))
  = (c <? RateLimiter.requests config) /\
  snd (fst (wrapped config t request (<[ident request := entry c]> m) st))
  = <[ident request := entry (if c <? RateLimiter.requests config then c + 1 else c)]> m /\
  snd (wrapped config t request (<[ident request := entry c]> m) st)
  = if c <? RateLimiter.requests config then snd (handler request st) else st.
Proof.
  intros Ht entry. unfold wrapped, Limited.withRateLimit. fold (ident request).
  unfold entry. rewrite (check_in_window t0 (Limited.atCheck t) (ident request) _ _ c m Ht).
  destruct (Z.geb_spec c (RateLimiter.requests config)) as [Hge | Hlt].
  - assert (Hf : (c <? RateLimiter.requests config) = false) by (apply Z.ltb_ge; lia).
    rewrite Hf. cbn [negb fst snd Limited.isServed]. repeat split.
  - assert (Hf : (c <? RateLimiter.requests config) = true) by (apply Z.ltb_lt; lia).
    rewrite Hf. cbn [negb]. destruct (handler request st) as [response st'].
    cbn [fst snd Limited.isServed]. repeat split.
Qed.

Lemma serve_cons (config : RateLimiter.Config) (t : Limited.Readings) (request : Req)
    (calls : list (Limited.Readings * Req)) (limiter : RateLimiter.Attempts) (st : St) :
  let step := wrapped config t request limiter st in
  let rest := Limited.serve Req Resp St headersOf handler config calls
                (snd (fst step)) (snd step) in
  Limited.serve Req Resp St headersOf handler config ((t, request) :: calls) limiter st
  = (fst (fst step) :: fst (fst rest), snd (fst rest), snd rest).
Proof.
  cbv zeta. cbn [Limited.serve]. unfold wrapped.
  destruct (Limited.withRateLimit Req Resp St headersOf handler config t request limiter st)
    as [[a limiter'] st'].
  cbn [fst snd].
  destruct (Limited.serve Req Resp St headersOf handler config calls limiter' st')
    as [[answers limiter''] st'']. reflexivity.
Qed.

Lemma handle_snd_cons (request : Req) (requests : list Req) (st : St) :
  snd (Limited.handle Req Resp St handler (request :: requests) st)
  = snd (Limited.handle Req Resp St handler requests (snd (handler request st))).
Proof.
  cbn [Limited.handle]. destruct (handler request st) as [r st']. cbn [snd].
  destruct (Limited.handle Req Resp St handler requests st') as [rs st'']. reflexivity.
Qed.

(** Requests of one client inside the window that [t0] opened, from count
    [c]: request number [i] is served exactly when [c + i] is below the
    limit, and the handler has run on the first [limit - c] requests only. *)
Lemma serve_in_window (config : RateLimiter.Config) (k : string) (t0 : Z)
    (calls : list (Limited.Readings * Req)) :
  forall (c : Z) (m : RateLimiter.Attempts) (st : St),
    List.Forall
      (fun call => Limited.atCheck (fst call) <= t0 + RateLimiter.windowMs config /\
                   ident (snd call) = k)
      calls ->
    let run :=
      Limited.serve Req Resp St headersOf handler config calls
        (<[k := {| RateLimiter.count := c;
                   RateLimiter.resetTime := t0 + RateLimiter.windowMs config |}]> m) st in
    List.map Limited.isServed (fst (fst run))
    = List.map (fun i => c + Z.of_nat i <? RateLimiter.requests config)
        (seq 0 (length calls)) /\
    snd run
    = snd (Limited.handle Req Resp St handler
             (firstn (Z.to_nat (RateLimiter.requests config - c)) (List.map snd calls)) st).
Proof.
  induction calls as [|[t request] calls IH]; intros c m st Hcalls.
  - cbn. split; [reflexivity|]. rewrite firstn_nil. reflexivity.
  - apply List.Forall_cons_iff in Hcalls as [[Ht Hk] Hcalls]. cbn [fst snd] in Ht, Hk.
    cbv zeta. rewrite serve_cons. cbv zeta. cbn [fst snd].
    destruct (withRateLimit_in_window config t0 c t request m st Ht)
      as (Hserved & Hlimiter & Hst).
    rewrite Hk in Hserved, Hlimiter, Hst. rewrite Hlimiter, Hst.
    cbn [List.map length seq]. rewrite Hserved, Z.add_0_r.
    rewrite <- seq_shift, List.map_map.
    destruct (Z.ltb_spec c (RateLimiter.requests config)) as [Hlt | Hge].
    + destruct (IH (c + 1) m (snd (handler request st)) Hcalls) as [IHa IHs].
      cbv zeta in IHa, IHs. rewrite IHa, IHs. split.
      * f_equal. apply List.map_ext. intros i. f_equal. lia.
      * replace (Z.to_nat (RateLimiter.requests config - c))
          with (S (Z.to_nat (RateLimiter.requests config - (c + 1)))) by lia.
        cbn [firstn]. rewrite handle_snd_cons. reflexivity.
    + destruct (IH c m st Hcalls) as [IHa IHs].
      cbv zeta in IHa, IHs. rewrite IHa, IHs. split.
      * f_equal. apply List.map_ext. intros i.
        transitivity false; [apply Z.ltb_ge | symmetry; apply Z.ltb_ge]; lia.
      * replace (Z.to_nat (RateLimiter.requests config - c)) with 0%nat by lia.
        reflexivity.
Qed.

(** X6: the wrapper bounds how often the handler runs.  For the requests
    of one client that are all checked before the window opened by the check
    of the first of them ends, the handler runs on the first request and
    then on requests only while fewer than the configured number have been
    served: the state it leaves is the state after the first [max 1 limit]
    requests, and each later request gets the wrapper's refusal.  The
    readings that the headers are computed from play no part. *)
Theorem serve_runs_handler_up_to_limit :
  forall (config : RateLimiter.Config) (t0 : Limited.Readings) (request0 : Req)
         (calls : list (Limited.Readings * Req)) (limiter : RateLimiter.Attempts)
         (st : St),
    limiter !! ident request0 = None \/
    (exists r, limiter !! ident request0 = Some r /\
               RateLimiter.resetTime r < Limited.atCheck t0) ->
    List.Forall
      (fun call =>
         Limited.atCheck (fst call)
         <= Limited.atCheck t0 + RateLimiter.windowMs config /\
         ident (snd call) = ident request0) calls ->
    List.map Limited.isServed
      (fst (fst (Limited.serve Req Resp St headersOf handler config
                   ((t0, request0) :: calls) limiter st)))
    = List.map (fun i => Nat.eqb i 0 || (Z.of_nat i <? RateLimiter.requests config))
        (seq 0 (S (length calls))) /\
    snd (Limited.serve Req Resp St headersOf handler config
           ((t0, request0) :: calls) limiter st)
    = snd (Limited.handle Req Resp St handler
             (firstn (Z.to_nat (Z.max 1 (RateLimiter.requests config)))
                (request0 :: List.map snd calls)) st).
Proof.
  intros config t0 request0 calls limiter st Hnew Hcalls.
  rewrite serve_cons. cbv zeta. cbn [fst snd].
  unfold wrapped, Limited.withRateLimit. fold (ident request0).
  rewrite (check_new_window (Limited.atCheck t0) (ident request0) _ _ limiter Hnew).
  cbn [negb].
  destruct (handler request0 st) as [response st'] eqn:Hrun. cbn [fst snd].
  destruct (serve_in_window config (ident request0) (Limited.atCheck t0) calls 1
              limiter st' Hcalls)
    as [Ha Hs].
  cbv zeta in Ha, Hs. cbn [List.map Limited.isServed]. rewrite Ha, Hs. split.
  - cbn [seq List.map Nat.eqb orb]. f_equal.
    rewrite <- seq_shift, List.map_map. apply List.map_ext. intros i.
    cbn [Nat.eqb orb]. f_equal. lia.
  - replace (Z.to_nat (Z.max 1 (RateLimiter.requests config)))
      with (S (Z.to_nat (RateLimiter.requests config - 1))) by lia.
    cbn [firstn]. rewrite handle_snd_cons, Hrun. reflexivity.
Qed.

End Wrapper.

(** ** Access policy: the two checks, test accounts *)

(** X7: [canAccessSurvey] refines [canTakeSurvey]: it allows exactly the
    emails that [canTakeSurvey] allows and that are not test accounts in
    restricted mode, so whoever it allows [canTakeSurvey] allows as well; and
    its answer carries a reason exactly when it denies. *)
Theorem canAccessSurvey_refines_canTakeSurvey :
  forall (d : Store.DB) (email : string),
    ProductionMode.allowed (ProductionMode.canAccessSurvey d email)
    = ProductionMode.canTakeSurvey d email
      && negb (ProductionMode.getProductionMode d && ProductionMode.isTestAccount email)
    /\ (ProductionMode.allowed (ProductionMode.canAccessSurvey d email) = true ->
        ProductionMode.canTakeSurvey d email = true)
    /\ (ProductionMode.reason (ProductionMode.canAccessSurvey d email) = None <->
        ProductionMode.allowed (ProductionMode.canAccessSurvey d email) = true).
Proof.
  intros d email.
  unfold ProductionMode.canAccessSurvey, ProductionMode.canTakeSurvey.
  cbv zeta.
  destruct (ProductionMode.isSiteAdmin d email);
    [|destruct (ProductionMode.getProductionMode d && ProductionMode.isTestAccount email)];
    cbn [ProductionMode.allowed ProductionMode.reason andb negb];
    (split; [reflexivity | split; [intros H; first [discriminate H | reflexivity]
                                  | split; intros H; first [discriminate H | reflexivity]]]).
Qed.

Lemma list_ascii_of_string_app (s1 s2 : string) :
  list_ascii_of_string (s1 ++ s2)
  = (list_ascii_of_string s1 ++ list_ascii_of_string s2)%list.
Proof.
  induction s1 as [|c s1 IH]; [reflexivity|].
  change (String c s1 ++ s2) with (String c (s1 ++ s2)).
  cbn [list_ascii_of_string app]. f_equal. exact IH.
Qed.

Lemma is_prefix_app (p l : list ascii) :
  JS.is_prefix p l = true <-> exists r, l = (p ++ r)%list.
Proof.
  revert l. induction p as [|a p IH]; intros l.
  - split; [intros _; exists l; reflexivity | reflexivity].
  - destruct l as [|b l]; cbn.
    + split; [discriminate | intros [r Hr]; discriminate].
    + rewrite andb_true_iff, Ascii.eqb_eq, IH. split.
      * intros [-> [r ->]]. exists r. reflexivity.
      * intros [r Hr]. injection Hr as -> ->. split; [reflexivity | exists r; reflexivity].
Qed.

(** [endsWith] holds exactly for the strings that are some text followed by
    the suffix. *)
Lemma endsWith_spec (s suffix : string) :
  JS.endsWith s suffix = true <-> exists p : string, s = p ++ suffix.
Proof.
  unfold JS.endsWith. rewrite is_prefix_app. split.
  - intros [r Hr]. exists (string_of_list_ascii (rev r)).
    apply (f_equal (@rev ascii)) in Hr. rewrite rev_involutive, rev_app_distr, rev_involutive in Hr.
    rewrite <- (string_of_list_ascii_of_string s), Hr.
    rewrite <- (string_of_list_ascii_of_string (_ ++ suffix)).
    rewrite list_ascii_of_string_app, list_ascii_of_string_of_list_ascii. reflexivity.
  - intros [p ->]. exists (rev (list_ascii_of_string p)).
    rewrite list_ascii_of_string_app, rev_app_distr. reflexivity.
Qed.

Lemma test_account_denied (d : Store.DB) (p : string) :
  ProductionMode.getProductionMode d = true ->
  ProductionMode.allowed (ProductionMode.canAccessSurvey d (p ++ "@example.com")) = false.
Proof.
  intros Hmode. unfold ProductionMode.canAccessSurvey.
  destruct (ProductionMode.isSiteAdmin d _); [reflexivity|].
  rewrite Hmode.
  assert (Ht : ProductionMode.isTestAccount (p ++ "@example.com") = true)
    by (apply endsWith_spec; exists p; reflexivity).
  rewrite Ht. reflexivity.
Qed.

(** X8: test accounts are the addresses that end, letter for letter, with
    [@example.com]; in restricted mode [canAccessSurvey] allows none of them,
    whatever precedes the suffix and whether or not the address is an
    administrator's. *)
Theorem test_accounts_denied_in_production :
  forall (d : Store.DB) (email : string),
    (ProductionMode.isTestAccount email = true <->
     exists p : string, email = p ++ "@example.com") /\
    (ProductionMode.getProductionMode d = true ->
     forall p : string,
       ProductionMode.allowed
         (ProductionMode.canAccessSurvey d (p ++ "@example.com")) = false).
Proof.
  intros d email. split; [apply endsWith_spec|].
  intros Hmode p. apply test_account_denied, Hmode.
Qed.

(** ** Sessions *)

(** X9: the admin cookie takes precedence and each cookie only carries its
    own kind of token.  A session comes either from a non-empty admin cookie
    whose verified claims have type ["admin"], or, when the admin cookie is
    absent or empty, from a non-empty survey cookie whose claims have type
    ["survey"]; a non-empty admin cookie that yields no admin session makes
    the request unauthenticated whatever the survey cookie holds. *)
Theorem getSessionFromRequest_kinds :
  forall (validateSessionToken : string -> option Auth.Session)
         (adminCookie surveyCookie : option string),
    (forall session : Auth.Session,
       Auth.getSessionFromRequest validateSessionToken adminCookie surveyCookie
       = Some session ->
       (exists token, adminCookie = Some token /\ token <> "" /\
                      validateSessionToken token = Some session /\
                      Auth.sessionType session = "admin") \/
       ((adminCookie = None \/ adminCookie = Some "") /\
        exists token, surveyCookie = Some token /\ token <> "" /\
                      validateSessionToken token = Some session /\
                      Auth.sessionType session = "survey")) /\
    (forall token : string,
       adminCookie = Some token -> token <> "" ->
       Auth.sessionOfType validateSessionToken "admin" token = None ->
       Auth.getSessionFromRequest validateSessionToken adminCookie surveyCookie = None).
Proof.
  intros validateSessionToken adminCookie surveyCookie.
  assert (Hkind : forall ty token session,
             Auth.sessionOfType validateSessionToken ty token = Some session ->
             validateSessionToken token = Some session /\ Auth.sessionType session = ty).
  { intros ty token session. unfold Auth.sessionOfType.
    destruct (validateSessionToken token) as [s|]; [|discriminate].
    destruct (String.eqb_spec (Auth.sessionType s) ty); [|discriminate].
    intros [= ->]. split; [reflexivity | assumption]. }
  assert (Hpresent : forall cookie token,
             Auth.present cookie = Some token -> cookie = Some token /\ token <> "").
  { intros cookie token. unfold Auth.present.
    destruct cookie as [v|]; [|discriminate].
    destruct (JS.falsy_string v) eqn:Hv; [discriminate|].
    intros [= ->]. split; [reflexivity|].
    intros ->. discriminate. }
  assert (Habsent : forall cookie,
             Auth.present cookie = None -> cookie = None \/ cookie = Some "").
  { intros cookie. unfold Auth.present.
    destruct cookie as [v|]; [|left; reflexivity].
    destruct (JS.falsy_string v) eqn:Hv; [|discriminate].
    apply falsy_string_spec in Hv. subst v. right. reflexivity. }
  split.
  - intros session. unfold Auth.getSessionFromRequest.
    destruct (Auth.present adminCookie) as [adminToken|] eqn:Ha.
    + intros Hs. left. exists adminToken.
      destruct (Hpresent _ _ Ha) as [-> Hne]. destruct (Hkind _ _ _ Hs) as [Hv Ht].
      repeat split; assumption.
    + destruct (Auth.present surveyCookie) as [surveyToken|] eqn:Hsv; [|discriminate].
      intros Hs. right. split; [apply Habsent, Ha|]. exists surveyToken.
      destruct (Hpresent _ _ Hsv) as [-> Hne]. destruct (Hkind _ _ _ Hs) as [Hv Ht].
      repeat split; assumption.
  - intros token -> Hne Hnone. unfold Auth.getSessionFromRequest, Auth.present.
    rewrite (falsy_string_false token Hne). exact Hnone.
Qed.

(** ** Requesting and redeeming a code *)

Lemma update_found (email : string) (f : Store.InvitedUser -> Store.InvitedUser)
    (d : Store.DB) (u : Store.InvitedUser) :
  Store.invitedUser d !! email = Some u ->
  Store.update email f d
  = Store.with_invitedUser (<[email := f u]> (Store.invitedUser d)) d.
Proof.
  intros Hu. unfold Store.update. f_equal. apply map_eq. intros e.
  destruct (decide (email = e)) as [<- | Hne].
  - rewrite lookup_alter_eq, lookup_insert_eq, Hu. reflexivity.
  - rewrite lookup_alter_ne, lookup_insert_ne by assumption. reflexivity.
Qed.

Lemma generateOTP_matches (buffer : Byte.byte * Byte.byte * Byte.byte * Byte.byte) :
  JS.matches_six_digits (Crypto.generateOTP buffer) = true.
Proof.
  destruct buffer as [[[b0 b1] b2] b3]. unfold Crypto.generateOTP.
  apply toString_six_digits, otpNumber_range, readUInt32BE_range.
Qed.

Lemma generateOTP_length (buffer : Byte.byte * Byte.byte * Byte.byte * Byte.byte) :
  String.length (Crypto.generateOTP buffer) = 6%nat.
Proof.
  pose proof (generateOTP_matches buffer) as H. unfold JS.matches_six_digits in H.
  apply andb_prop in H as [H _]. apply Nat.eqb_eq in H. exact H.
Qed.

Lemma code_units_digit (c : ascii) :
  JS.is_digit c = true -> JS.code_units c = 1%nat.
Proof.
  unfold JS.is_digit, JS.code_units. cbv zeta. intros H.
  apply andb_prop in H as [_ H]. apply Z.leb_le in H.
  destruct (Nat.ltb_spec (nat_of_ascii c) 128); [reflexivity | lia].
Qed.

(** On decimal digits, which take one byte and one code unit each, the two
    ways of counting agree. *)
Lemma length_digits (s : string) :
  forallb JS.is_digit (list_ascii_of_string s) = true ->
  JS.length s = String.length s.
Proof.
  induction s as [|c s IH]; [reflexivity|].
  cbn [list_ascii_of_string forallb JS.length String.length]. intros H.
  apply andb_prop in H as [Hc Hs]. rewrite (code_units_digit c Hc), (IH Hs). reflexivity.
Qed.

Lemma generateOTP_units (buffer : Byte.byte * Byte.byte * Byte.byte * Byte.byte) :
  JS.length (Crypto.generateOTP buffer) = 6%nat.
Proof.
  pose proof (generateOTP_matches buffer) as H. unfold JS.matches_six_digits in H.
  apply andb_prop in H as [_ H]. rewrite (length_digits _ H). apply generateOTP_length.
Qed.

Lemma generateOTP_nonempty (buffer : Byte.byte * Byte.byte * Byte.byte * Byte.byte) :
  Crypto.generateOTP buffer <> "".
Proof.
  intros H. pose proof (generateOTP_length buffer) as Hl. rewrite H in Hl. discriminate.
Qed.

Section OtpFlow.

Variable isEmail : string -> bool.
Variable createSurveySessionToken : string -> string -> bool -> Z -> string.

Let request := Routes.request_otp_POST isEmail.
Let verify := Routes.verify_otp_POST isEmail createSurveySessionToken.

(** The mail step fails: production, an API key, and the mail service
    reports failure. *)
Let mailFails (env : Routes.OtpEnv) : bool :=
  Routes.env_is (Routes.NODE_ENV env) "production"
  && Routes.env_set (Routes.RESEND_API_KEY env)
  && negb (Routes.mailDelivered env).

(** The row that a code request leaves. *)
Let issued (now : Z) (env : Routes.OtpEnv) (invited : Store.InvitedUser)
    : Store.InvitedUser :=
  {| Store.group := Store.group invited; Store.hasTaken := Store.hasTaken invited;
     Store.otpCode := Some (Crypto.generateOTP (Routes.randomBytes4 env));
     Store.otpExpiry := Some (now + 600000);
     Store.consented := Store.consented invited; Store.remindersSent := 0 |}.

Lemma request_otp_issues (now : Z) (env : Routes.OtpEnv) (req : Routes.OtpRequest)
    (w : Routes.World) (invited : Store.InvitedUser) :
  isEmail (Routes.req_email req) = true ->
  ProductionMode.allowed
    (ProductionMode.canAccessSurvey (Routes.db w) (Routes.req_email req)) = true ->
  Store.invitedUser (Routes.db w) !! Routes.req_email req = Some invited ->
  Store.hasTaken invited = false ->
  snd (request now env req w)
  = Routes.with_db
      (Store.with_invitedUser
         (<[Routes.req_email req := issued now env invited]>
            (Store.invitedUser (Routes.db w))) (Routes.db w)) w
  /\ Routes.status (fst (request now env req w)) = (if mailFails env then 500 else 200).
Proof.
  intros Hemail Hacc Hrow Htaken.
  unfold request, Routes.request_otp_POST.
  rewrite Hemail, Hacc, Hrow, Htaken. cbn [negb]. cbv zeta.
  rewrite (update_found _ _ _ invited Hrow). unfold mailFails, issued.
  destruct (Routes.env_is (Routes.NODE_ENV env) "production"
            && Routes.env_set (Routes.RESEND_API_KEY env)); cbn [andb];
    [destruct (Routes.mailDelivered env)|]; cbn [negb fst snd Routes.status Routes.json];
    split; reflexivity.
Qed.

(** X10: a code request that does not issue a code has no effect: every
    answer other than 200 and 500 (malformed email, access denied, email not
    invited, survey already completed) leaves the process state as it was. *)
Theorem request_otp_rejections_keep_state :
  forall (now : Z) (env : Routes.OtpEnv) (req : Routes.OtpRequest) (w : Routes.World),
    Routes.status (fst (request now env req w)) <> 200 ->
    Routes.status (fst (request now env req w)) <> 500 ->
    snd (request now env req w) = w /\
    (Routes.status (fst (request now env req w)) = 400 \/
     Routes.status (fst (request now env req w)) = 403 \/
     Routes.status (fst (request now env req w)) = 404 \/
     Routes.status (fst (request now env req w)) = 409).
Proof.
  intros now env req w. unfold request, Routes.request_otp_POST.
  destruct (isEmail (Routes.req_email req)); cbn [negb]; [|cbn; auto].
  destruct (ProductionMode.allowed _); cbn [negb]; [|cbn; auto 6].
  destruct (Store.invitedUser (Routes.db w) !! Routes.req_email req) as [invited|];
    [|cbn; auto 6].
  destruct (Store.hasTaken invited); [cbn; auto 6|].
  cbv zeta.
  destruct (negb _); cbn [fst snd Routes.status Routes.json]; intros H200 H500;
    contradiction.
Qed.

(** X11: what issuing a code stores.  For a well-formed, allowed, invited
    email whose survey is not completed, the handler stores a six-digit code,
    an expiry ten minutes after the request and a zero attempt counter in
    that row, keeps the row's group and flags, and changes no other row, no
    other table and not the limiter.  This holds also when the mail step
    fails: the answer is then 500 (else 200) and the new code stays
    stored. *)
Theorem request_otp_stores_code :
  forall (now : Z) (env : Routes.OtpEnv) (req : Routes.OtpRequest) (w : Routes.World)
         (invited : Store.InvitedUser),
    isEmail (Routes.req_email req) = true ->
    ProductionMode.allowed
      (ProductionMode.canAccessSurvey (Routes.db w) (Routes.req_email req)) = true ->
    Store.invitedUser (Routes.db w) !! Routes.req_email req = Some invited ->
    Store.hasTaken invited = false ->
    Routes.status (fst (request now env req w)) = (if mailFails env then 500 else 200) /\
    (exists row,
       Store.invitedUser (Routes.db (snd (request now env req w))) !! Routes.req_email req
       = Some row /\
       Store.otpCode row = Some (Crypto.generateOTP (Routes.randomBytes4 env)) /\
       JS.matches_six_digits (Crypto.generateOTP (Routes.randomBytes4 env)) = true /\
       Store.otpExpiry row = Some (now + 600000) /\
       Store.remindersSent row = 0 /\
       Store.group row = Store.group invited /\
       Store.hasTaken row = Store.hasTaken invited /\
       Store.consented row = Store.consented invited) /\
    (forall other : string,
       other <> Routes.req_email req ->
       Store.invitedUser (Routes.db (snd (request now env req w))) !! other
       = Store.invitedUser (Routes.db w) !! other) /\
    Store.adminUser (Routes.db (snd (request now env req w)))
    = Store.adminUser (Routes.db w) /\
    Store.systemSettings (Routes.db (snd (request now env req w)))
    = Store.systemSettings (Routes.db w) /\
    Store.surveyResponse (Routes.db (snd (request now env req w)))
    = Store.surveyResponse (Routes.db w) /\
    Routes.otpRateLimiter (snd (request now env req w)) = Routes.otpRateLimiter w.
Proof.
  intros now env req w invited Hemail Hacc Hrow Htaken.
  destruct (request_otp_issues now env req w invited Hemail Hacc Hrow Htaken)
    as [Hw Hstatus].
  rewrite Hw. split; [exact Hstatus|]. split.
  - exists (issued now env invited). split; [apply lookup_insert_eq|].
    split; [reflexivity|]. split; [apply generateOTP_matches|].
    repeat (split; [reflexivity|]). reflexivity.
  - split; [intros other Hne; apply lookup_insert_ne; congruence|].
    repeat (split; [reflexivity|]). reflexivity.
Qed.

(** X12: request, then redeem.  After a code request that issued a code
    (whatever the attempt counter was before, and also when the mail step
    failed), a redemption request for that email with that code and with
    consent, made no later than ten minutes after the request, is answered
    200; it stores the consent and clears the code. *)
Theorem request_then_verify_succeeds :
  forall (now now' : Z) (env : Routes.OtpEnv) (req : Routes.OtpRequest)
         (w : Routes.World) (invited : Store.InvitedUser),
    isEmail (Routes.req_email req) = true ->
    ProductionMode.allowed
      (ProductionMode.canAccessSurvey (Routes.db w) (Routes.req_email req)) = true ->
    Store.invitedUser (Routes.db w) !! Routes.req_email req = Some invited ->
    Store.hasTaken invited = false ->
    now' <= now + 600000 ->
    let redeem :=
      verify now'
        {| Routes.vr_email := Routes.req_email req;
           Routes.vr_code := Crypto.generateOTP (Routes.randomBytes4 env);
           Routes.vr_consented := true |}
        (snd (request now env req w)) in
    Routes.status (fst redeem) = 200 /\
    Store.invitedUser (Routes.db (snd redeem)) !! Routes.req_email req
    = Some {| Store.group := Store.group invited; Store.hasTaken := false;
              Store.otpCode := None; Store.otpExpiry := None;
              Store.consented := true; Store.remindersSent := 0 |}.
Proof.
  intros now now' env req w invited Hemail Hacc Hrow Htaken Hnow redeem.
  destruct (request_otp_issues now env req w invited Hemail Hacc Hrow Htaken) as [Hw _].
  subst redeem. rewrite Hw.
  rewrite (verify_reaches_validation isEmail createSurveySessionToken now' _ _
             (issued now env invited)).
  - cbn [Routes.vr_code Routes.vr_email Store.otpCode Store.otpExpiry
         Store.remindersSent issued].
    unfold Crypto.validateOTP. cbn [Z.geb Z.compare].
    rewrite (falsy_string_false _ (generateOTP_nonempty _)).
    destruct (Z.gtb_spec now' (now + 600000)); [lia|].
    rewrite String.eqb_refl. cbn [negb Crypto.valid fst snd Routes.status Routes.json].
    split; [reflexivity|].
    cbn [Routes.db Routes.with_db Store.invitedUser Store.with_invitedUser].
    rewrite lookup_insert_eq. unfold Routes.redeemed. cbn. rewrite Htaken. reflexivity.
  - unfold Routes.VerifyOTPSchema. cbn [Routes.vr_email Routes.vr_code].
    rewrite Hemail, generateOTP_units. reflexivity.
  - exact Hacc.
  - reflexivity.
  - cbn [Routes.db Routes.with_db Store.invitedUser Store.with_invitedUser Routes.vr_email].
    apply lookup_insert_eq.
Qed.

(** X13: a code is good for ten minutes only.  The same redemption request
    made later than ten minutes after the code request is answered 400 with
    "OTP has expired" and counts as a failed attempt. *)
Theorem request_then_verify_expired :
  forall (now now' : Z) (env : Routes.OtpEnv) (req : Routes.OtpRequest)
         (w : Routes.World) (invited : Store.InvitedUser),
    isEmail (Routes.req_email req) = true ->
    ProductionMode.allowed
      (ProductionMode.canAccessSurvey (Routes.db w) (Routes.req_email req)) = true ->
    Store.invitedUser (Routes.db w) !! Routes.req_email req = Some invited ->
    Store.hasTaken invited = false ->
    now + 600000 < now' ->
    let redeem :=
      verify now'
        {| Routes.vr_email := Routes.req_email req;
           Routes.vr_code := Crypto.generateOTP (Routes.randomBytes4 env);
           Routes.vr_consented := true |}
        (snd (request now env req w)) in
    fst redeem = Routes.json (Routes.ErrorBody (Some Crypto.Expired)) 400 /\
    exists row,
      Store.invitedUser (Routes.db (snd redeem)) !! Routes.req_email req = Some row /\
      Store.remindersSent row = 1 /\
      Store.otpCode row = Some (Crypto.generateOTP (Routes.randomBytes4 env)).
Proof.
  intros now now' env req w invited Hemail Hacc Hrow Htaken Hnow redeem.
  destruct (request_otp_issues now env req w invited Hemail Hacc Hrow Htaken) as [Hw _].
  subst redeem. rewrite Hw.
  rewrite (verify_reaches_validation isEmail createSurveySessionToken now' _ _
             (issued now env invited)).
  - cbn [Routes.vr_code Routes.vr_email Store.otpCode Store.otpExpiry
         Store.remindersSent issued].
    unfold Crypto.validateOTP. cbn [Z.geb Z.compare].
    rewrite (falsy_string_false _ (generateOTP_nonempty _)).
    destruct (Z.gtb_spec now' (now + 600000)); [|lia].
    cbn [Crypto.invalid Crypto.valid Crypto.error fst snd].
    split; [reflexivity|].
    exists (Routes.failedAttempt (issued now env invited)).
    cbn [Routes.db Routes.with_db Store.invitedUser Store.with_invitedUser].
    rewrite lookup_insert_eq. repeat split.
  - unfold Routes.VerifyOTPSchema. cbn [Routes.vr_email Routes.vr_code].
    rewrite Hemail, generateOTP_units. reflexivity.
  - exact Hacc.
  - reflexivity.
  - cbn [Routes.db Routes.with_db Store.invitedUser Store.with_invitedUser Routes.vr_email].
    apply lookup_insert_eq.
Qed.

End OtpFlow.

(** ** Redemption: requests without effect, lock-out *)

Section Redeem.

Variable isEmail : string -> bool.
Variable createSurveySessionToken : string -> string -> bool -> Z -> string.

Let verify := Routes.verify_otp_POST isEmail createSurveySessionToken.
Let verifyAll := Redemption.verify_otp_POSTs isEmail createSurveySessionToken.

Lemma verify_rejected (now : Z) (req : Routes.VerifyRequest) (w : Routes.World) :
  Routes.VerifyOTPSchema isEmail req = false \/
  ProductionMode.allowed
    (ProductionMode.canAccessSurvey (Routes.db w) (Routes.vr_email req)) = false \/
  Routes.vr_consented req = false \/
  Store.invitedUser (Routes.db w) !! Routes.vr_email req = None ->
  snd (verify now req w) = w /\
  (Routes.status (fst (verify now req w)) = 400 \/
   Routes.status (fst (verify now req w)) = 403 \/
   Routes.status (fst (verify now req w)) = 404).
Proof.
  intros Hcase. unfold verify, Routes.verify_otp_POST.
  destruct (Routes.VerifyOTPSchema isEmail req); cbn [negb]; [|cbn; auto].
  destruct (ProductionMode.allowed _); cbn [negb]; [|cbn; auto].
  destruct (Routes.vr_consented req); cbn [negb]; [|cbn; auto].
  destruct (Store.invitedUser (Routes.db w) !! Routes.vr_email req); [|cbn; auto].
  destruct Hcase as [H | [H | [H | H]]]; discriminate H.
Qed.

(** X14: a redemption request that does not reach the code comparison has
    no effect and counts no attempt: when the body fails the schema, the
    access policy denies the email, consent is not given, or the email is
    not invited, the process state is returned as it was and the answer is
    400, 403 or 404. *)
Theorem verify_otp_rejections_keep_state :
  forall (now : Z) (req : Routes.VerifyRequest) (w : Routes.World),
    Routes.VerifyOTPSchema isEmail req = false \/
    ProductionMode.allowed
      (ProductionMode.canAccessSurvey (Routes.db w) (Routes.vr_email req)) = false \/
    Routes.vr_consented req = false \/
    Store.invitedUser (Routes.db w) !! Routes.vr_email req = None ->
    snd (verify now req w) = w /\
    (Routes.status (fst (verify now req w)) = 400 \/
     Routes.status (fst (verify now req w)) = 403 \/
     Routes.status (fst (verify now req w)) = 404).
Proof.
  intros now req w Hcase. exact (verify_rejected now req w Hcase).
Qed.

(** A redemption request changes at most the row of its own email. *)
Lemma verify_other_rows (now : Z) (req : Routes.VerifyRequest) (w : Routes.World)
    (other : string) :
  other <> Routes.vr_email req ->
  Store.invitedUser (Routes.db (snd (verify now req w))) !! other
  = Store.invitedUser (Routes.db w) !! other.
Proof.
  intros Hne. unfold verify, Routes.verify_otp_POST.
  destruct (negb (Routes.VerifyOTPSchema isEmail req)); [reflexivity|].
  destruct (negb (ProductionMode.allowed _)); [reflexivity|].
  destruct (negb (Routes.vr_consented req)); [reflexivity|].
  destruct (Store.invitedUser (Routes.db w) !! Routes.vr_email req); [|reflexivity].
  cbv zeta. destruct (negb (Crypto.valid _)); cbn [snd Routes.db Routes.with_db];
    unfold Store.update; cbn [Store.invitedUser Store.with_invitedUser];
    apply lookup_alter_ne; congruence.
Qed.

(** One request on a locked row: no success for that email, and the row
    stays locked with its code and expiry. *)
Lemma verify_locked (now : Z) (req : Routes.VerifyRequest) (w : Routes.World)
    (email : string) (user : Store.InvitedUser) :
  Store.invitedUser (Routes.db w) !! email = Some user ->
  5 <= Store.remindersSent user ->
  (Routes.vr_email req = email -> Routes.status (fst (verify now req w)) <> 200) /\
  exists user',
    Store.invitedUser (Routes.db (snd (verify now req w))) !! email = Some user' /\
    5 <= Store.remindersSent user' /\
    Store.otpCode user' = Store.otpCode user /\
    Store.otpExpiry user' = Store.otpExpiry user.
Proof.
  intros Hrow Hlocked.
  destruct (decide (email = Routes.vr_email req)) as [-> | Hne].
  - destruct (Routes.VerifyOTPSchema isEmail req) eqn:Hschema;
      [destruct (ProductionMode.allowed
                   (ProductionMode.canAccessSurvey (Routes.db w) (Routes.vr_email req)))
         eqn:Hacc;
       [destruct (Routes.vr_consented req) eqn:Hcons|]|].
    + pose proof (verify_reaches_validation isEmail createSurveySessionToken
                    now req w user Hschema Hacc Hcons Hrow) as Hrun.
      fold verify in Hrun. rewrite Hrun. cbv zeta.
      assert (Hv : Crypto.validateOTP now (Routes.vr_code req) (Store.otpCode user)
                     (Store.otpExpiry user) (Store.remindersSent user)
                   = Crypto.invalid Crypto.TooManyAttempts).
      { unfold Crypto.validateOTP.
        destruct (Z.geb_spec (Store.remindersSent user) 5); [reflexivity | lia]. }
      rewrite Hv. cbn [Crypto.valid Crypto.invalid fst snd Routes.status Routes.json].
      split; [intros _; lia|].
      exists (Routes.failedAttempt user).
      cbn [Routes.db Routes.with_db Store.invitedUser Store.with_invitedUser].
      rewrite lookup_insert_eq. cbn [Routes.failedAttempt Store.remindersSent
                                     Store.otpCode Store.otpExpiry].
      repeat split; lia.
    + destruct (verify_rejected now req w) as [Hw Hst]; [auto|].
      rewrite Hw. split; [intros _; lia|]. exists user. repeat split; assumption || lia.
    + destruct (verify_rejected now req w) as [Hw Hst]; [auto|].
      rewrite Hw. split; [intros _; lia|]. exists user. repeat split; assumption || lia.
    + destruct (verify_rejected now req w) as [Hw Hst]; [auto|].
      rewrite Hw. split; [intros _; lia|]. exists user. repeat split; assumption || lia.
  - split; [congruence|]. exists user.
    rewrite (verify_other_rows now req w email Hne). repeat split; assumption || lia.
Qed.

Lemma verifyAll_cons (now : Z) (req : Routes.VerifyRequest)
    (calls : list (Z * Routes.VerifyRequest)) (w : Routes.World) :
  verifyAll ((now, req) :: calls) w
  = (fst (verify now req w) :: fst (verifyAll calls (snd (verify now req w))),
     snd (verifyAll calls (snd (verify now req w)))).
Proof.
  unfold verifyAll, verify. cbn [Redemption.verify_otp_POSTs].
  destruct (Routes.verify_otp_POST isEmail createSurveySessionToken now req w) as [r w'].
  cbn [fst snd].
  destruct (Redemption.verify_otp_POSTs isEmail createSurveySessionToken calls w')
    as [rs w'']. reflexivity.
Qed.

(** X15: the lock-out holds against redemption requests.  Once the attempt
    counter of an invitation is 5 or more, no sequence of redemption
    requests, for whatever emails and with whatever codes (the right one
    included), gets a 200 for that email; the counter stays at 5 or more and
    the stored code and expiry stay as they are. *)
Theorem verify_lockout_persists :
  forall (calls : list (Z * Routes.VerifyRequest)) (w : Routes.World)
         (email : string) (user : Store.InvitedUser),
    Store.invitedUser (Routes.db w) !! email = Some user ->
    5 <= Store.remindersSent user ->
    List.Forall2
      (fun call response =>
         Routes.vr_email (snd call) = email -> Routes.status response <> 200)
      calls (fst (verifyAll calls w)) /\
    exists user',
      Store.invitedUser (Routes.db (snd (verifyAll calls w))) !! email = Some user' /\
      5 <= Store.remindersSent user' /\
      Store.otpCode user' = Store.otpCode user /\
      Store.otpExpiry user' = Store.otpExpiry user.
Proof.
  induction calls as [|[now req] calls IH]; intros w email user Hrow Hlocked.
  - split; [constructor|]. exists user. repeat split; assumption || lia.
  - rewrite verifyAll_cons. cbn [fst snd].
    destruct (verify_locked now req w email user Hrow Hlocked)
      as [Hhere (user1 & Hrow1 & Hlocked1 & Hcode1 & Hexp1)].
    destruct (IH (snd (verify now req w)) email user1 Hrow1 Hlocked1)
      as [Hrest (user2 & Hrow2 & Hlocked2 & Hcode2 & Hexp2)].
    split; [constructor; assumption|].
    exists user2. repeat split; try assumption; congruence.
Qed.

End Redeem.

(** ** The mode transition and the code flow *)

Section AfterTransition.

Variable isEmail : string -> bool.
Variable createSurveySessionToken : string -> string -> bool -> Z -> string.
Variable validateSessionToken : string -> option Auth.Session.

Let toggle := Routes.toggle_production_POST validateSessionToken.
Let request := Routes.request_otp_POST isEmail.
Let verify := Routes.verify_otp_POST isEmail createSurveySessionToken.

(** X16: the transition invalidates every outstanding code.  From the state
    that a successful transition leaves, no redemption request, for any
    email and any code at any time, is answered 200: a new code has to be
    requested first. *)
Theorem toggle_invalidates_codes :
  forall (now : Z) (req : Routes.ToggleRequest) (w : Routes.World)
         (session : Auth.Session),
    Auth.getSessionFromRequest validateSessionToken
      (Routes.adminCookie req) (Routes.surveyCookie req) = Some session ->
    Routes.ToggleSchema req = true ->
    Routes.currentlyProduction (Routes.db w) = false ->
    forall (now' : Z) (req' : Routes.VerifyRequest),
      Routes.status (fst (verify now' req' (snd (toggle now req w)))) <> 200.
Proof.
  intros now req w session Hsession Hschema Hmode now' req'.
  unfold toggle. rewrite (toggle_runs validateSessionToken now req w session
                            Hsession Hschema Hmode). cbn [snd].
  unfold verify, Routes.verify_otp_POST.
  destruct (negb (Routes.VerifyOTPSchema isEmail req')); [cbn; lia|].
  destruct (negb (ProductionMode.allowed _)); [cbn; lia|].
  destruct (negb (Routes.vr_consented req')); [cbn; lia|].
  cbn [Routes.db Routes.with_db Store.invitedUser]. rewrite lookup_fmap.
  destruct (Store.invitedUser (Routes.db w) !! Routes.vr_email req') as [u|];
    cbn [fmap option_fmap option_map]; [|cbn; lia].
  cbv zeta. cbn [Routes.resetUser Store.otpCode Store.otpExpiry Store.remindersSent].
  unfold Crypto.validateOTP.
  destruct (JS.or_zero (Store.remindersSent u) >=? 5); cbn; lia.
Qed.

(** X17: after a successful transition on a store that has a System Mode
    record, test accounts are shut out of the code flow: a code request or a
    redemption request for an address ending in [@example.com] is not
    answered 200 and changes nothing. *)
Theorem toggle_shuts_out_test_accounts :
  forall (now : Z) (req : Routes.ToggleRequest) (w : Routes.World)
         (session : Auth.Session),
    Auth.getSessionFromRequest validateSessionToken
      (Routes.adminCookie req) (Routes.surveyCookie req) = Some session ->
    Routes.ToggleSchema req = true ->
    Routes.currentlyProduction (Routes.db w) = false ->
    Store.systemSettings (Routes.db w) <> [] ->
    forall (p : string) (now' : Z),
      (forall (env : Routes.OtpEnv) (oreq : Routes.OtpRequest),
         Routes.req_email oreq = p ++ "@example.com" ->
         Routes.status (fst (request now' env oreq (snd (toggle now req w)))) <> 200 /\
         snd (request now' env oreq (snd (toggle now req w))) = snd (toggle now req w)) /\
      (forall vreq : Routes.VerifyRequest,
         Routes.vr_email vreq = p ++ "@example.com" ->
         Routes.status (fst (verify now' vreq (snd (toggle now req w)))) <> 200 /\
         snd (verify now' vreq (snd (toggle now req w))) = snd (toggle now req w)).
Proof.
  intros now req w session Hsession Hschema Hmode Hrow p now'.
  assert (Hdenied :
            ProductionMode.allowed
              (ProductionMode.canAccessSurvey
                 (Routes.db (snd (toggle now req w))) (p ++ "@example.com")) = false).
  { apply test_account_denied.
    unfold toggle. rewrite (toggle_runs validateSessionToken now req w session
                              Hsession Hschema Hmode).
    unfold ProductionMode.getProductionMode, Store.findFirst.
    cbn [snd Routes.db Routes.with_db Store.systemSettings].
    destruct (Store.systemSettings (Routes.db w)); [contradiction | reflexivity]. }
  split.
  - intros env oreq Hemail. unfold request, Routes.request_otp_POST.
    destruct (negb (isEmail (Routes.req_email oreq))); [cbn; split; [lia | reflexivity]|].
    rewrite Hemail, Hdenied. cbn. split; [lia | reflexivity].
  - intros vreq Hemail. unfold verify, Routes.verify_otp_POST.
    destruct (negb (Routes.VerifyOTPSchema isEmail vreq));
      [cbn; split; [lia | reflexivity]|].
    rewrite Hemail, Hdenied. cbn. split; [lia | reflexivity].
Qed.


End AfterTransition.

(** ** Administrative handlers *)

Section AdminHandlers.

Variable isEmail : string -> bool.
Variable validateSessionToken : string -> option Auth.Session.
Variable maskEmail : string -> string.

Let allow := Admin.allow_resubmission_POST isEmail validateSessionToken maskEmail.

(** X19: the mode transition asks for a verified session of either kind.
    A request without an admin cookie whose survey cookie verifies as a
    participant's session, sent with the confirmation while the mode is
    normal, is answered 200: the submissions are deleted and every System
    Mode record names the participant's email as the actor. *)
Theorem toggle_production_accepts_survey_session :
  forall (now : Z) (token : string) (session : Auth.Session) (w : Routes.World),
    token <> "" ->
    validateSessionToken token = Some session ->
    Auth.sessionType session = "survey" ->
    Routes.currentlyProduction (Routes.db w) = false ->
    let req := {| Routes.adminCookie := None; Routes.surveyCookie := Some token;
                  Routes.confirmation := Some "PRODUCTION" |} in
    let r := Routes.toggle_production_POST validateSessionToken now req w in
    Routes.status (fst r) = 200 /\
    Store.surveyResponse (Routes.db (snd r)) = [] /\
    List.Forall (fun s => Store.productionMode s = true /\
                          Store.toggledBy s = Some (Auth.sessionEmail session))
      (Store.systemSettings (Routes.db (snd r))).
Proof.
  intros now token session w Htoken Hvalid Htype Hmode req r.
  assert (Hsession : Auth.getSessionFromRequest validateSessionToken
                       (Routes.adminCookie req) (Routes.surveyCookie req) = Some session).
  { unfold Auth.getSessionFromRequest, Auth.present, Auth.sessionOfType.
    cbn [req Routes.adminCookie Routes.surveyCookie].
    rewrite (falsy_string_false token Htoken), Hvalid, Htype. reflexivity. }
  subst r. rewrite (toggle_runs validateSessionToken now req w session Hsession
                      eq_refl Hmode).
  cbn [fst snd Routes.status Routes.json Routes.db Routes.with_db
       Store.surveyResponse Store.systemSettings].
  split; [reflexivity|]. split; [reflexivity|].
  generalize (Store.systemSettings (Routes.db w)). intros rows.
  induction rows as [|s0 rows IH]; cbn [List.map]; constructor;
    [split; reflexivity | exact IH].
Qed.

(** X20: allowing a resubmission.  For an authenticated request naming an
    invited email, the handler answers 200 with the group and the number of
    that email's earlier submissions, sets the completion flag to false and
    the attempt counter to 0, keeps the stored code, expiry and consent flag,
    and touches no other invitation and no submission; a code request for
    that email is thereafter never answered 409. *)
Theorem allow_resubmission_effects :
  forall (req : Admin.ResubmissionRequest) (w : Routes.World)
         (session : Auth.Session) (user : Store.InvitedUser),
    Auth.getSessionFromRequest validateSessionToken
      (Admin.ar_adminCookie req) (Admin.ar_surveyCookie req) = Some session ->
    isEmail (Admin.ar_email req) = true ->
    Store.invitedUser (Routes.db w) !! Admin.ar_email req = Some user ->
    fst (allow req w)
    = {| Admin.ar_status := 200;
         Admin.ar_body :=
           Admin.ResubmissionEnabled (maskEmail (Admin.ar_email req)) (Store.group user)
             (Z.of_nat (length (List.filter
                                  (fun r => String.eqb (Store.responseEmail r)
                                              (Admin.ar_email req))
                                  (Store.surveyResponse (Routes.db w)))))
             (Admin.reasonOrDefault (Admin.ar_reason req)) |} /\
    Store.invitedUser (Routes.db (snd (allow req w))) !! Admin.ar_email req
    = Some {| Store.group := Store.group user; Store.hasTaken := false;
              Store.otpCode := Store.otpCode user; Store.otpExpiry := Store.otpExpiry user;
              Store.consented := Store.consented user; Store.remindersSent := 0 |} /\
    (forall other : string,
       other <> Admin.ar_email req ->
       Store.invitedUser (Routes.db (snd (allow req w))) !! other
       = Store.invitedUser (Routes.db w) !! other) /\
    Store.surveyResponse (Routes.db (snd (allow req w)))
    = Store.surveyResponse (Routes.db w) /\
    Store.adminUser (Routes.db (snd (allow req w))) = Store.adminUser (Routes.db w) /\
    Store.systemSettings (Routes.db (snd (allow req w)))
    = Store.systemSettings (Routes.db w) /\
    (forall (now : Z) (env : Routes.OtpEnv) (oreq : Routes.OtpRequest),
       Routes.req_email oreq = Admin.ar_email req ->
       Routes.status (fst (Routes.request_otp_POST isEmail now env oreq (snd (allow req w))))
       <> 409).
Proof.
  intros req w session user Hsession Hemail Hrow.
  unfold allow, Admin.allow_resubmission_POST.
  rewrite Hsession, Hemail, Hrow. cbn [negb]. cbv zeta.
  rewrite (update_found _ _ _ user Hrow).
  cbn [fst snd Routes.db Routes.with_db Store.invitedUser Store.with_invitedUser
       Store.surveyResponse Store.adminUser Store.systemSettings].
  split; [reflexivity|]. split; [apply lookup_insert_eq|].
  split; [intros other Hne; apply lookup_insert_ne; congruence|].
  do 3 (split; [reflexivity|]).
  intros now env oreq Hreq. unfold Routes.request_otp_POST.
  destruct (negb (isEmail (Routes.req_email oreq))); [cbn; lia|].
  destruct (negb (ProductionMode.allowed _)); [cbn; lia|].
  cbn [Routes.db Routes.with_db Store.invitedUser Store.with_invitedUser].
  rewrite Hreq, lookup_insert_eq.
  cbn [Admin.allowAgain Store.hasTaken]. cbv zeta.
  destruct (negb _); cbn; lia.
Qed.

(** X21: the administrator check and the access policy agree.  The
    check-site-admin handler answers true exactly for a well-formed email
    that has a row in the administrator table, and every email it flags is
    denied by [canAccessSurvey] with the administrator reason, whatever the
    System Mode. *)
Theorem check_site_admin_agrees :
  forall (email : string) (w : Routes.World),
    (Admin.check_site_admin_POST isEmail email w = true <->
     isEmail email = true /\ is_Some (Store.adminUser (Routes.db w) !! email)) /\
    (Admin.check_site_admin_POST isEmail email w = true ->
     forall settings : list Store.SystemSettings,
       ProductionMode.canAccessSurvey
         (Store.with_systemSettings settings (Routes.db w)) email
       = {| ProductionMode.allowed := false;
            ProductionMode.reason := Some ProductionMode.ADMIN_REASON |}).
Proof.
  intros email w. unfold Admin.check_site_admin_POST.
  destruct (isEmail email); cbn [negb].
  - destruct (Store.adminUser (Routes.db w) !! email) as [a|] eqn:Ha.
    + split; [split; [intros _; split; [reflexivity | eauto] | reflexivity]|].
      intros _ settings. unfold ProductionMode.canAccessSurvey, ProductionMode.isSiteAdmin.
      cbn [Store.with_systemSettings Store.adminUser]. rewrite Ha. reflexivity.
    + split; [split; [discriminate | intros [_ [a Hsome]]; discriminate]|discriminate].
  - split; [split; [discriminate | intros [H _]; discriminate]|discriminate].
Qed.

End AdminHandlers.

(** ** The validator and the generator, from the other side *)

(** X22: [validateOTP] accepts exactly the fresh, matching, unexpired code:
    the result is valid if and only if fewer than five attempts are
    recorded, a non-empty code and an expiry are stored, the clock is not
    past the expiry (at the expiry instant the code is still good) and the
    submitted code equals the stored one; and the error is null exactly when
    the result is valid. *)
Theorem validateOTP_valid_iff :
  forall (now : Z) (submitted : string) (stored : option string)
         (expiry : option Z) (attempts : Z),
    (Crypto.valid (Crypto.validateOTP now submitted stored expiry attempts) = true <->
     attempts < 5 /\ stored = Some submitted /\ submitted <> "" /\
     exists e, expiry = Some e /\ now <= e) /\
    (Crypto.error (Crypto.validateOTP now submitted stored expiry attempts) = None <->
     Crypto.valid (Crypto.validateOTP now submitted stored expiry attempts) = true).
Proof.
  intros now submitted stored expiry attempts. unfold Crypto.validateOTP.
  destruct (Z.geb_spec attempts 5) as [Hge | Hlt].
  { cbn. split; split; try discriminate. intros [H _]. lia. }
  destruct stored as [code|]; [|cbn; split; split; try discriminate;
                                 intros (_ & H & _); discriminate].
  destruct expiry as [e|]; [|cbn; split; split; try discriminate;
                              intros (_ & _ & _ & e & H & _); discriminate].
  destruct (JS.falsy_string code) eqn:Hcode.
  { apply falsy_string_spec in Hcode. subst code.
    cbn. split; split; try discriminate. intros (_ & [= <-] & H & _). contradiction. }
  destruct (Z.gtb_spec now e) as [Hpast | Hfresh].
  { cbn. split; split; try discriminate. intros (_ & _ & _ & e' & [= <-] & H). lia. }
  destruct (String.eqb_spec submitted code) as [-> | Hneq].
  - cbn. split; split; try reflexivity. intros _.
    repeat split; [lia | | exists e; split; [reflexivity | lia]].
    intros ->. discriminate.
  - cbn. split; split; try discriminate. intros (_ & [= <-] & _). contradiction.
Qed.

Lemma byte_of_value (z : Z) :
  0 <= z < 256 -> exists b : Byte.byte, Z.of_N (Byte.to_N b) = z.
Proof.
  intros Hz. destruct (Byte.of_N (Z.to_N z)) as [b|] eqn:Hb.
  - exists b. apply Byte.to_of_N in Hb. rewrite Hb. lia.
  - apply Byte.of_N_None_iff in Hb. lia.
Qed.

(** X23: which codes the generator produces, and how often.  Every code
    from 100000 to 999999 is produced by some four random bytes; and among
    the 32-bit values the ones that produce a given code [c] are exactly
    [900000 * q + (c - 100000)] for [q] from 0 to 4772 when [c <= 267295]
    and from 0 to 4771 otherwise, so the low codes have 4773 sources each and
    the others 4772. *)
Theorem generateOTP_codes :
  forall c : Z,
    100000 <= c <= 999999 ->
    (exists buffer, Crypto.generateOTP buffer = JS.toString c) /\
    (forall n : Z,
       (0 <= n < 4294967296 /\ Crypto.otpNumber n = c) <->
       exists q : Z,
         0 <= q <= (if c <=? 267295 then 4772 else 4771) /\
         n = 900000 * q + (c - 100000)).
Proof.
  intros c Hc. split.
  - destruct (byte_of_value ((c - 100000) / 65536)) as [b1 Hb1];
      [Z.to_euclidean_division_equations; lia|].
    destruct (byte_of_value (((c - 100000) / 256) mod 256)) as [b2 Hb2];
      [apply Z.mod_pos_bound; lia|].
    destruct (byte_of_value ((c - 100000) mod 256)) as [b3 Hb3];
      [apply Z.mod_pos_bound; lia|].
    exists (Byte.x00, b1, b2, b3). unfold Crypto.generateOTP. f_equal.
    unfold Crypto.readUInt32BE, Crypto.otpNumber. rewrite Hb1, Hb2, Hb3.
    change (Z.of_N (Byte.to_N Byte.x00)) with 0.
    assert (Hnum : 0 * 16777216 + (c - 100000) / 65536 * 65536
                   + (c - 100000) / 256 mod 256 * 256 + (c - 100000) mod 256
                   = c - 100000)
      by (Z.to_euclidean_division_equations; lia).
    rewrite Hnum. rewrite Z.rem_small by lia. lia.
  - intros n. unfold Crypto.otpNumber. split.
    + intros [Hn Hcode]. exists (n / 900000).
      rewrite Z.rem_mod_nonneg in Hcode by lia.
      destruct (Z.leb_spec c 267295); Z.to_euclidean_division_equations; lia.
    + intros [q [Hq ->]].
      assert (Hrange : 0 <= 900000 * q + (c - 100000) < 4294967296)
        by (destruct (Z.leb_spec c 267295); lia).
      split; [exact Hrange|].
      rewrite Z.rem_mod_nonneg by lia.
      Z.to_euclidean_division_equations. lia.
Qed.

(** ** Anonymized export *)

Lemma hashEmail_excludes (env_salt : option string) (email needle : string) (c : ascii) :
  In c (list_ascii_of_string needle) -> Sha256.is_hex c = false ->
  JS.includes (Crypto.hashEmail env_salt email) needle = false.
Proof.
  intros Hc Hhex. unfold JS.includes.
  destruct (JS.includes_list _ _) eqn:Hinc; [exfalso | reflexivity].
  pose proof (includes_list_In _ _ c Hinc Hc) as Hin.
  pose proof (hashEmail_hex env_salt email) as Hall.
  rewrite forallb_forall in Hall. specialize (Hall c Hin). congruence.
Qed.

(** X24: the token shows no part of an address.  Whatever the email and
    the salt, the token of [hashEmail] contains no text that has a character
    outside [0-9a-f]: no at-sign, and no piece of the email or of its domain
    that has such a character, whatever email it was computed from. *)
Theorem hashEmail_shows_no_foreign_text :
  forall (env_salt : option string) (email needle : string),
    ((exists c, In c (list_ascii_of_string needle) /\ Sha256.is_hex c = false) ->
     JS.includes (Crypto.hashEmail env_salt email) needle = false) /\
    JS.includes (Crypto.hashEmail env_salt email) "@" = false.
Proof.
  intros env_salt email needle. split.
  - intros (c & Hc & Hhex). exact (hashEmail_excludes env_salt email needle c Hc Hhex).
  - apply (hashEmail_excludes env_salt email "@" "@"%char); [left|]; reflexivity.
Qed.

Section ExportRows.

Variable env_salt : option string.
Variables toISOString toLocaleDateString toLocaleTimeString : Z -> string.

Let process :=
  DataExport.processRow env_salt toISOString toLocaleDateString toLocaleTimeString.

(** X25: which value an export record shows under [participantId].  An
    answer stored under the key [participantId] in the answer sheet takes
    the place of the participant id; without such an answer the record
    shows, when anonymizing, the 16-character token of the email, which has
    no at-sign, and otherwise the email itself.  The metadata fields, in
    contrast, override answers of the same name. *)
Theorem export_participantId :
  forall (anonymize includeMetadata : bool) (response : DataExport.Row),
    process anonymize includeMetadata response !! "participantId"
    = match DataExport.rowResponses response !! "participantId" with
      | Some answer => Some answer
      | None =>
          Some (DataExport.JString
                  (if anonymize
                   then Crypto.hashEmail env_salt (DataExport.rowEmail response)
                   else DataExport.rowEmail response))
      end
    /\ (anonymize = true ->
        DataExport.rowResponses response !! "participantId" = None ->
        exists token,
          process anonymize includeMetadata response !! "participantId"
          = Some (DataExport.JString token) /\
          String.length token = 16%nat /\ JS.includes token "@" = false)
    /\ process anonymize true response !! "deviceType"
       = Some (DataExport.nullable DataExport.JString (DataExport.rowDeviceType response)).
Proof.
  intros anonymize includeMetadata response.
  assert (Hbase :
            DataExport.baseData env_salt toISOString anonymize response !! "participantId"
            = match DataExport.rowResponses response !! "participantId" with
              | Some answer => Some answer
              | None =>
                  Some (DataExport.JString
                          (if anonymize
                           then Crypto.hashEmail env_salt (DataExport.rowEmail response)
                           else DataExport.rowEmail response))
              end).
  { unfold DataExport.baseData. rewrite lookup_union.
    destruct (DataExport.rowResponses response !! "participantId") as [answer|];
      [reflexivity|].
    rewrite lookup_insert_eq. reflexivity. }
  assert (Hprocess :
            process anonymize includeMetadata response !! "participantId"
            = DataExport.baseData env_salt toISOString anonymize response
              !! "participantId").
  { unfold process, DataExport.processRow. destruct includeMetadata; [|reflexivity].
    rewrite lookup_union. do 3 (rewrite lookup_insert_ne by discriminate).
    rewrite lookup_singleton_ne by discriminate. destruct (_ !! _); reflexivity. }
  split; [rewrite Hprocess; exact Hbase|]. split.
  - intros -> Hnone. rewrite Hprocess, Hbase, Hnone.
    eexists. split; [reflexivity|]. split; [apply hashEmail_length|].
    apply (hashEmail_excludes env_salt _ "@" "@"%char); [left|]; reflexivity.
  - unfold process, DataExport.processRow. rewrite lookup_union.
    rewrite lookup_insert_ne by discriminate. rewrite lookup_insert_eq.
    destruct (DataExport.baseData env_salt toISOString anonymize response !! "deviceType");
      reflexivity.
Qed.

End ExportRows.

(** ** CSV cells *)

Lemma doubleQuotes_injective (a : string) :
  forall b : string, DataExport.doubleQuotes a = DataExport.doubleQuotes b -> a = b.
Proof.
  induction a as [|c a IH]; intros [|d b]; cbn [DataExport.doubleQuotes].
  - reflexivity.
  - destruct (Ascii.eqb d DataExport.quote); discriminate.
  - destruct (Ascii.eqb c DataExport.quote); discriminate.
  - destruct (Ascii.eqb_spec c DataExport.quote) as [-> | Hc];
      destruct (Ascii.eqb_spec d DataExport.quote) as [-> | Hd].
    + intros [= H]. f_equal. apply IH, H.
    + intros [= <- _]. contradiction.
    + intros [= -> _]. contradiction.
    + intros [= -> H]. f_equal. apply IH, H.
Qed.

Lemma append_inv_tail (a b t : string) : a ++ t = b ++ t -> a = b.
Proof.
  intros H. apply (f_equal list_ascii_of_string) in H.
  rewrite !list_ascii_of_string_app in H. apply app_inv_tail in H.
  rewrite <- (string_of_list_ascii_of_string a), H.
  apply string_of_list_ascii_of_string.
Qed.

Lemma includes_head (c : ascii) (s : string) :
  JS.includes (String c s) (String c EmptyString) = true.
Proof.
  unfold JS.includes. cbn [list_ascii_of_string JS.includes_list JS.is_prefix].
  rewrite Ascii.eqb_refl. destruct (list_ascii_of_string s); reflexivity.
Qed.

Lemma doubleQuotes_chars (s : string) :
  list_ascii_of_string (DataExport.doubleQuotes s)
  = flat_map (fun c => if Ascii.eqb c DataExport.quote
                       then [DataExport.quote; DataExport.quote] else [c])
      (list_ascii_of_string s).
Proof.
  induction s as [|c s IH]; [reflexivity|].
  cbn [DataExport.doubleQuotes list_ascii_of_string flat_map].
  destruct (Ascii.eqb c DataExport.quote);
    cbn [list_ascii_of_string app]; rewrite IH; reflexivity.
Qed.

Lemma doubled_length (l : list ascii) :
  (length l <= length (flat_map (fun c => if Ascii.eqb c DataExport.quote
                                          then [DataExport.quote; DataExport.quote]
                                          else [c]) l))%nat.
Proof.
  induction l as [|c l IH]; [reflexivity|].
  cbn [flat_map]. rewrite length_app. destruct (Ascii.eqb c DataExport.quote); cbn; lia.
Qed.

(** X26: the CSV cell of a string value.  A value is written as it is
    exactly when it has neither comma nor quote (a line break alone does not
    make it quoted); otherwise the cell is a quote, the characters of the
    value with every quote written twice, and a closing quote.  Different
    values always give different cells. *)
Theorem csvCell_distinguishes :
  forall s1 s2 : string,
    s1 <> s2 ->
    DataExport.csvCell s1 <> DataExport.csvCell s2 /\
    (JS.includes s1 "," = false ->
     JS.includes s1 (String DataExport.quote EmptyString) = false ->
     DataExport.csvCell s1 = s1) /\
    (JS.includes s1 "," = true \/
     JS.includes s1 (String DataExport.quote EmptyString) = true ->
     list_ascii_of_string (DataExport.csvCell s1)
     = (DataExport.quote
        :: flat_map (fun c => if Ascii.eqb c DataExport.quote
                              then [DataExport.quote; DataExport.quote] else [c])
             (list_ascii_of_string s1)
        ++ [DataExport.quote])%list /\
     DataExport.csvCell s1 <> s1).
Proof.
  intros s1 s2 Hne. split; [|split].
  - intros Heq. apply Hne. unfold DataExport.csvCell in Heq.
    destruct (JS.includes s1 "," || JS.includes s1 (String DataExport.quote EmptyString))
      eqn:H1;
      destruct (JS.includes s2 "," || JS.includes s2 (String DataExport.quote EmptyString))
        eqn:H2.
    + injection Heq as Heq. apply append_inv_tail in Heq.
      apply doubleQuotes_injective, Heq.
    + subst s2. rewrite includes_head, orb_true_r in H2. discriminate.
    + subst s1. rewrite includes_head, orb_true_r in H1. discriminate.
    + exact Heq.
  - intros Hcomma Hquote. unfold DataExport.csvCell. rewrite Hcomma, Hquote. reflexivity.
  - intros Hsome.
    assert (Hchars :
              list_ascii_of_string (DataExport.csvCell s1)
              = (DataExport.quote
                 :: flat_map (fun c => if Ascii.eqb c DataExport.quote
                                       then [DataExport.quote; DataExport.quote]
                                       else [c])
                      (list_ascii_of_string s1)
                 ++ [DataExport.quote])%list).
    { unfold DataExport.csvCell.
      assert (Hor : JS.includes s1 ","
                    || JS.includes s1 (String DataExport.quote EmptyString) = true)
        by (destruct Hsome as [-> | ->]; [reflexivity | apply orb_true_r]).
      rewrite Hor. cbn [list_ascii_of_string].
      rewrite list_ascii_of_string_app, doubleQuotes_chars. reflexivity. }
    split; [exact Hchars|].
    intros Heq. rewrite Heq in Hchars. apply (f_equal (@length ascii)) in Hchars.
    cbn [length] in Hchars. rewrite length_app in Hchars. cbn [length] in Hchars.
    pose proof (doubled_length (list_ascii_of_string s1)). lia.
Qed.

(** ** Survey submission *)

Section Submit.

Variable isEmail : string -> bool.
Variable env_salt : option string.

Let submit := Submission.submit_POST isEmail env_salt.

Let partialOf (req : Submission.SubmitRequest) : bool :=
  match Submission.sq_partial req with Some b => b | None => false end.

(** X27: a submission that is not stored changes nothing.  Whenever the
    answer is not the success answer (invalid body, access denied, unknown
    email, no consent, survey already completed, unknown version, version of
    another group), the tables are returned as they were. *)
Theorem submit_rejections_keep_state :
  forall (now : Z) (req : Submission.SubmitRequest) (t : Submission.Tables),
    Submission.isSubmitted (Submission.submitBody (fst (submit now req t))) = false ->
    snd (submit now req t) = t.
Proof.
  intros now req t. unfold submit, Submission.submit_POST.
  destruct (negb (Submission.SubmitSurveySchema isEmail req)); [reflexivity|].
  cbv zeta.
  destruct (negb (ProductionMode.allowed _)); [reflexivity|].
  destruct (Submission.invited t !! Submission.sq_email req) as [user|]; [|reflexivity].
  destruct (negb (Store.consented user)); [reflexivity|].
  destruct (Store.hasTaken user && _ && _); [reflexivity|].
  destruct (Submission.versions t !! Submission.sq_surveyVersionId req) as [v|];
    [|reflexivity].
  destruct (negb (String.eqb _ _)); [reflexivity|].
  cbn [fst Submission.submitBody Submission.isSubmitted]. discriminate.
Qed.

(** The row that an accepted submission creates. *)
Let created (now : Z) (req : Submission.SubmitRequest) (t : Submission.Tables)
    (user : Store.InvitedUser) : Submission.ResponseRow :=
  {| Submission.sr_id := Submission.nextResponseId t;
     Submission.sr_email := Submission.sq_email req;
     Submission.sr_group := Store.group user;
     Submission.sr_versionId := Submission.sq_surveyVersionId req;
     Submission.sr_responses :=
       Submission.tracked (Submission.sq_responses req)
         (Z.of_nat (length (Submission.rowsOf (Submission.sq_email req)
                              (Submission.responseRows t))));
     Submission.sr_completionTime := Submission.sq_completionTime req;
     Submission.sr_partial := partialOf req;
     Submission.sr_userAgent :=
       Submission.orElse (Submission.sq_userAgent req)
         (Submission.orElse (Submission.sq_userAgentHeader req) "unknown");
     Submission.sr_deviceType := Submission.orElse (Submission.sq_deviceType req) "unknown";
     Submission.sr_ipAddressHash :=
       Crypto.hashEmail env_salt
         (Submission.orElse (Submission.sq_forwardedForHeader req)
            (Submission.orElse (Submission.sq_realIpHeader req) "unknown"));
     Submission.sr_submittedAt := now |}.

(** A submission that passes every check. *)
Lemma submit_stores (now : Z) (req : Submission.SubmitRequest) (t : Submission.Tables)
    (user : Store.InvitedUser) (v : Submission.Version) :
  Submission.SubmitSurveySchema isEmail req = true ->
  ProductionMode.allowed
    (ProductionMode.canAccessSurvey (Submission.toDB t) (Submission.sq_email req)) = true ->
  Submission.invited t !! Submission.sq_email req = Some user ->
  Store.consented user = true ->
  Store.hasTaken user && negb (partialOf req)
  && negb (Routes.env_is (Submission.sq_allowResubmissionHeader req) "true") = false ->
  Submission.versions t !! Submission.sq_surveyVersionId req = Some v ->
  Submission.versionGroup v = Store.group user ->
  Submission.submitStatus (fst (submit now req t)) = 200 /\
  snd (submit now req t)
  = {| Submission.invited :=
         if partialOf req then Submission.invited t
         else <[Submission.sq_email req := Submission.markTaken user]>
                (Submission.invited t);
       Submission.admins := Submission.admins t;
       Submission.settings := Submission.settings t;
       Submission.responseRows :=
         (Submission.responseRows t ++ [created now req t user])%list;
       Submission.versions := Submission.versions t;
       Submission.nextResponseId := Submission.nextResponseId t + 1 |}.
Proof.
  intros Hschema Hacc Huser Hcons Hagain Hv Hgroup.
  unfold submit, Submission.submit_POST.
  rewrite Hschema. cbn [negb]. cbv zeta. rewrite Hacc, Huser, Hcons. cbn [negb].
  fold (partialOf req). rewrite Hagain, Hv, Hgroup, String.eqb_refl. cbn [negb].
  split; [reflexivity|]. cbn [snd]. unfold created. f_equal.
  destruct (partialOf req); cbn [negb]; [reflexivity|].
  apply map_eq. intros e. destruct (decide (Submission.sq_email req = e)) as [<- | Hne].
  - rewrite lookup_alter_eq, lookup_insert_eq, Huser. reflexivity.
  - rewrite lookup_alter_ne, lookup_insert_ne by assumption. reflexivity.
Qed.


(** X29: a completed survey is not stored twice, unless asked.  After an
    accepted complete submission, a further submission for the same email
    that is complete and does not carry the header [x-allow-resubmission:
    true] is answered "already completed" and stores nothing; a further
    submission that is partial, or that carries that header, is never
    answered "already completed". *)
Theorem submit_completes_once :
  forall (now now' : Z) (req req' : Submission.SubmitRequest) (t : Submission.Tables)
         (user : Store.InvitedUser) (v : Submission.Version),
    Submission.SubmitSurveySchema isEmail req = true ->
    ProductionMode.allowed
      (ProductionMode.canAccessSurvey (Submission.toDB t) (Submission.sq_email req))
    = true ->
    Submission.invited t !! Submission.sq_email req = Some user ->
    Store.consented user = true ->
    Store.hasTaken user && negb (partialOf req)
    && negb (Routes.env_is (Submission.sq_allowResubmissionHeader req) "true") = false ->
    Submission.versions t !! Submission.sq_surveyVersionId req = Some v ->
    Submission.versionGroup v = Store.group user ->
    partialOf req = false ->
    Submission.sq_email req' = Submission.sq_email req ->
    Submission.SubmitSurveySchema isEmail req' = true ->
    let again := submit now' req' (snd (submit now req t)) in
    (partialOf req' = false ->
     Routes.env_is (Submission.sq_allowResubmissionHeader req') "true" = false ->
     snd again = snd (submit now req t) /\
     exists responseId submittedAt,
       fst again
       = {| Submission.submitStatus := 200;
            Submission.submitBody :=
              Submission.AlreadyCompleted (Store.group user) responseId submittedAt |}) /\
    (partialOf req' = true \/
     Routes.env_is (Submission.sq_allowResubmissionHeader req') "true" = true ->
     forall group responseId submittedAt,
       Submission.submitBody (fst again)
       <> Submission.AlreadyCompleted group responseId submittedAt).
Proof.
  intros now now' req req' t user v Hschema Hacc Huser Hcons Hagain Hv Hgroup
         Hcomplete Hsame Hschema' again.
  destruct (submit_stores now req t user v Hschema Hacc Huser Hcons Hagain Hv Hgroup)
    as (_ & Hsnd).
  subst again. rewrite Hsnd, Hcomplete.
  unfold submit, Submission.submit_POST. rewrite Hschema'. cbn [negb]. cbv zeta.
  rewrite Hsame.
  assert (Hsameaccess : forall t' : Submission.Tables,
             Submission.admins t' = Submission.admins t ->
             Submission.settings t' = Submission.settings t ->
             ProductionMode.canAccessSurvey (Submission.toDB t') (Submission.sq_email req)
             = ProductionMode.canAccessSurvey (Submission.toDB t) (Submission.sq_email req)).
  { intros t' Ha Hs.
    unfold ProductionMode.canAccessSurvey, ProductionMode.isSiteAdmin,
      ProductionMode.getProductionMode, Submission.toDB.
    cbn [Store.adminUser Store.systemSettings]. rewrite Ha, Hs. reflexivity. }
  rewrite Hsameaccess by reflexivity.
  rewrite Hacc. cbn [negb Submission.invited]. rewrite lookup_insert_eq.
  cbn [Submission.markTaken Store.consented Store.hasTaken Store.group].
  rewrite Hcons. cbn [negb andb]. fold (partialOf req'). split.
  - intros Hp Hh. rewrite Hp, Hh. cbn [negb andb fst snd].
    split; [reflexivity|]. eexists _, _. reflexivity.
  - intros Hor group responseId submittedAt.
    assert (Hskip : negb (partialOf req')
                    && negb (Routes.env_is (Submission.sq_allowResubmissionHeader req')
                               "true") = false).
    { destruct Hor as [-> | ->]; [reflexivity | apply andb_false_r]. }
    rewrite Hskip.
    cbn [Submission.versions].
    destruct (Submission.versions t !! Submission.sq_surveyVersionId req') as [v'|];
      [|cbn; discriminate].
    destruct (negb (String.eqb (Submission.versionGroup v') (Store.group user)));
      cbn; discriminate.
Qed.

End Submit.

(** ** The client identifier *)

Lemma includes_single_cons (c d : ascii) (s : string) :
  JS.includes (String c s) (String d EmptyString)
  = Ascii.eqb d c || JS.includes s (String d EmptyString).
Proof.
  unfold JS.includes. cbn [list_ascii_of_string JS.includes_list JS.is_prefix].
  destruct (list_ascii_of_string s); rewrite andb_true_r; reflexivity.
Qed.

Lemma first_field_spec (s : string) :
  (s = Routes.first_field s \/ exists rest, s = Routes.first_field s ++ "," ++ rest) /\
  JS.includes (Routes.first_field s) "," = false.
Proof.
  induction s as [|c s [IHs IHc]]; [split; [left|]; reflexivity|].
  cbn [Routes.first_field].
  destruct (Ascii.eqb_spec c ","%char) as [-> | Hc].
  - split; [right; exists s; reflexivity | reflexivity].
  - split.
    + destruct IHs as [IHs | [rest IHs]].
      * left. f_equal. exact IHs.
      * right. exists rest. change (String c (Routes.first_field s) ++ "," ++ rest)
          with (String c (Routes.first_field s ++ "," ++ rest)).
        f_equal. exact IHs.
    + rewrite includes_single_cons, IHc, orb_false_r.
      apply Ascii.eqb_neq. congruence.
Qed.

(** X30: which text identifies a client.  With a non-empty
    [x-forwarded-for] header the identifier is the text of that header before
    its first comma, and has no comma itself; [x-real-ip] is then not
    looked at.  Without it the identifier is a non-empty [x-real-ip], and
    requests with neither header all share the identifier ["unknown"]. *)
Theorem getClientIdentifier_text :
  forall h : Routes.Headers,
    (forall forwarded : string,
       Routes.xForwardedFor h = Some forwarded -> forwarded <> "" ->
       (forwarded = Routes.getClientIdentifier h \/
        exists rest, forwarded = Routes.getClientIdentifier h ++ "," ++ rest) /\
       JS.includes (Routes.getClientIdentifier h) "," = false) /\
    (Routes.xForwardedFor h = None \/ Routes.xForwardedFor h = Some "" ->
     (forall ip : string,
        Routes.xRealIp h = Some ip -> ip <> "" -> Routes.getClientIdentifier h = ip) /\
     (Routes.xRealIp h = None \/ Routes.xRealIp h = Some "" ->
      Routes.getClientIdentifier h = "unknown")).
Proof.
  intros h. unfold Routes.getClientIdentifier, Auth.present. split.
  - intros forwarded -> Hne. rewrite (falsy_string_false forwarded Hne).
    apply first_field_spec.
  - intros Habsent.
    assert (Hnone : match Routes.xForwardedFor h with
                    | Some v => if JS.falsy_string v then None else Some v
                    | None => None
                    end = None) by (destruct Habsent as [-> | ->]; reflexivity).
    rewrite Hnone. split.
    + intros ip -> Hne. rewrite (falsy_string_false ip Hne). reflexivity.
    + intros [-> | ->]; reflexivity.
Qed.

(** ** Instances on the sample data *)

(** A closed side condition, by evaluation. *)
Ltac evaluated :=
  vm_compute; first [reflexivity | discriminate | (intros ?; discriminate)].

Lemma withRateLimit_refuses_witness :
  Limited.withRateLimit Scenario.OtpCall Routes.Response Routes.World
    Scenario.otpHeaders Scenario.otpHandler RateLimiter.OTP_REQUEST
    Scenario.acrossWindowEnd (Sample.otpCall 61000 Byte.x06) Scenario.usedUp
    (Sample.world false)
  = (Limited.Refused 0
       {| Limited.retryAfterHeader := Some 0; Limited.limitHeader := 5;
          Limited.remainingHeader := 5; Limited.resetHeader := 61000 |},
     Scenario.usedUp, Sample.world false).
Proof.
  destruct (withRateLimit_refuses Scenario.OtpCall Routes.Response Routes.World
              Scenario.otpHeaders Scenario.otpHandler RateLimiter.OTP_REQUEST
              Scenario.acrossWindowEnd (Sample.otpCall 61000 Byte.x06) Scenario.usedUp
              (Sample.world false)
              {| RateLimiter.count := 5; RateLimiter.resetTime := 61000 |})
    as (bodyRetry & retry & Hrun & Hbounds); [evaluated .. |].
  specialize (Hbounds ltac:(evaluated)). destruct Hbounds as (Hreset & Hretry & Hbody & _).
  cbn in Hretry, Hbody.
  assert (Hr : retry = 0) by lia. assert (Hb : bodyRetry = 0) by lia.
  rewrite Hrun, Hreset, Hr, Hb. reflexivity.
Defined.

Lemma serve_runs_handler_up_to_limit_witness :
  List.map Limited.isServed
    (fst (fst (Limited.serve Scenario.OtpCall Routes.Response Routes.World
                 Scenario.otpHeaders Scenario.otpHandler RateLimiter.OTP_REQUEST
                 (List.map Scenario.timed Sample.sixCalls) ∅ (Sample.world false))))
  = [true; true; true; true; true; false].
Proof.
  refine (proj1 (serve_runs_handler_up_to_limit Scenario.OtpCall Routes.Response
                   Routes.World Scenario.otpHeaders Scenario.otpHandler
                   RateLimiter.OTP_REQUEST (Limited.sameInstant 1000)
                   (Sample.otpCall 1000 Byte.x01)
                   (List.map Scenario.timed (tl Sample.sixCalls)) ∅
                   (Sample.world false) _ _)).
  - left. reflexivity.
  - repeat constructor; evaluated.
Defined.

Lemma request_otp_rejections_keep_state_witness :
  snd (Routes.request_otp_POST Sample.isEmail 1000 Scenario.parentEnv
         Scenario.strangerRequest (Sample.world false)) = Sample.world false.
Proof.
  refine (proj1 (request_otp_rejections_keep_state Sample.isEmail 1000
                   Scenario.parentEnv Scenario.strangerRequest (Sample.world false) _ _));
    evaluated.
Defined.

Lemma request_otp_stores_code_witness :
  Routes.status
    (fst (Routes.request_otp_POST Sample.isEmail 1000 Scenario.parentEnv
            Scenario.parentRequest (Sample.world false))) = 200.
Proof.
  refine (proj1 (request_otp_stores_code Sample.isEmail 1000 Scenario.parentEnv
                   Scenario.parentRequest (Sample.world false) Sample.parent _ _ _ _));
    evaluated.
Defined.

Lemma request_then_verify_succeeds_witness :
  Routes.status
    (fst (Routes.verify_otp_POST Sample.isEmail Sample.createSurveySessionToken 600999
            {| Routes.vr_email := "parent@district.org";
               Routes.vr_code := Crypto.generateOTP (Routes.randomBytes4 Scenario.parentEnv);
               Routes.vr_consented := true |}
            (snd (Routes.request_otp_POST Sample.isEmail 1000 Scenario.parentEnv
                    Scenario.parentRequest (Sample.world false))))) = 200.
Proof.
  refine (proj1 (request_then_verify_succeeds Sample.isEmail
                   Sample.createSurveySessionToken 1000 600999 Scenario.parentEnv
                   Scenario.parentRequest (Sample.world false) Sample.parent _ _ _ _ _));
    evaluated.
Defined.

Lemma request_then_verify_expired_witness :
  fst (Routes.verify_otp_POST Sample.isEmail Sample.createSurveySessionToken 601001
         {| Routes.vr_email := "parent@district.org";
            Routes.vr_code := Crypto.generateOTP (Routes.randomBytes4 Scenario.parentEnv);
            Routes.vr_consented := true |}
         (snd (Routes.request_otp_POST Sample.isEmail 1000 Scenario.parentEnv
                 Scenario.parentRequest (Sample.world false))))
  = Routes.json (Routes.ErrorBody (Some Crypto.Expired)) 400.
Proof.
  refine (proj1 (request_then_verify_expired Sample.isEmail
                   Sample.createSurveySessionToken 1000 601001 Scenario.parentEnv
                   Scenario.parentRequest (Sample.world false) Sample.parent _ _ _ _ _));
    evaluated.
Defined.

Lemma verify_otp_rejections_keep_state_witness :
  snd (Routes.verify_otp_POST Sample.isEmail Sample.createSurveySessionToken 1000
         Scenario.withoutConsent (Sample.world false)) = Sample.world false.
Proof.
  refine (proj1 (verify_otp_rejections_keep_state Sample.isEmail
                   Sample.createSurveySessionToken 1000 Scenario.withoutConsent
                   (Sample.world false) _)).
  right. right. left. reflexivity.
Defined.

Lemma verify_lockout_persists_witness :
  List.Forall2
    (fun call response =>
       Routes.vr_email (snd call) = "teacher@district.org" ->
       Routes.status response <> 200)
    [(1000, Sample.rightCode); (2000, Sample.wrongCode)]
    (fst (Redemption.verify_otp_POSTs Sample.isEmail Sample.createSurveySessionToken
            [(1000, Sample.rightCode); (2000, Sample.wrongCode)] Scenario.lockedWorld)).
Proof.
  refine (proj1 (verify_lockout_persists Sample.isEmail Sample.createSurveySessionToken
                   [(1000, Sample.rightCode); (2000, Sample.wrongCode)]
                   Scenario.lockedWorld "teacher@district.org"
                   {| Store.group := "teacher"; Store.hasTaken := false;
                      Store.otpCode := Some "123456"; Store.otpExpiry := Some 600000;
                      Store.consented := false; Store.remindersSent := 5 |} _ _));
    evaluated.
Defined.

Lemma toggle_invalidates_codes_witness :
  Routes.status
    (fst (Routes.verify_otp_POST Sample.isEmail Sample.createSurveySessionToken 2000
            Sample.rightCode
            (snd (Routes.toggle_production_POST Sample.validateSessionToken 1000
                    Sample.confirmedToggle (Sample.world false))))) <> 200.
Proof.
  refine (toggle_invalidates_codes Sample.isEmail Sample.createSurveySessionToken
            Sample.validateSessionToken 1000 Sample.confirmedToggle (Sample.world false)
            {| Auth.sessionEmail := "admin@district.org"; Auth.sessionType := "admin" |}
            _ _ _ 2000 Sample.rightCode); evaluated.
Defined.

Lemma toggle_shuts_out_test_accounts_witness :
  Routes.status
    (fst (Routes.request_otp_POST Sample.isEmail 2000 Scenario.parentEnv
            {| Routes.req_headers :=
                 {| Routes.xForwardedFor := None; Routes.xRealIp := None |};
               Routes.req_email := "teacher@example.com" |}
            (snd (Routes.toggle_production_POST Sample.validateSessionToken 1000
                    Sample.confirmedToggle (Sample.world false))))) <> 200.
Proof.
  refine (proj1 (proj1 (toggle_shuts_out_test_accounts Sample.isEmail
                          Sample.createSurveySessionToken Sample.validateSessionToken 1000
                          Sample.confirmedToggle (Sample.world false)
                          {| Auth.sessionEmail := "admin@district.org";
                             Auth.sessionType := "admin" |} _ _ _ _ "teacher" 2000)
                   Scenario.parentEnv _ _)); evaluated.
Defined.


Lemma toggle_production_accepts_survey_session_witness :
  Routes.status
    (fst (Routes.toggle_production_POST Scenario.validateSessionToken 1000
            Scenario.participantToggle (Sample.world false))) = 200.
Proof.
  refine (proj1 (toggle_production_accepts_survey_session Scenario.validateSessionToken
                   1000 "survey-jwt" Scenario.participant (Sample.world false) _ _ _ _));
    evaluated.
Defined.

Lemma allow_resubmission_effects_witness :
  Store.invitedUser
    (Routes.db (snd (Admin.allow_resubmission_POST Sample.isEmail
                       Sample.validateSessionToken Scenario.maskEmail
                       Scenario.resubmission (Sample.world false))))
    !! "teacher@district.org"
  = Some {| Store.group := "teacher"; Store.hasTaken := false;
            Store.otpCode := Some "123456"; Store.otpExpiry := Some 600000;
            Store.consented := true; Store.remindersSent := 0 |}.
Proof.
  refine (proj1 (proj2 (allow_resubmission_effects Sample.isEmail
                          Sample.validateSessionToken Scenario.maskEmail
                          Scenario.resubmission (Sample.world false)
                          {| Auth.sessionEmail := "admin@district.org";
                             Auth.sessionType := "admin" |} Sample.teacher _ _ _)));
    evaluated.
Defined.

Lemma generateOTP_codes_witness :
  exists buffer, Crypto.generateOTP buffer = JS.toString 123456.
Proof.
  refine (proj1 (generateOTP_codes 123456 _)). lia.
Defined.

Lemma csvCell_distinguishes_witness :
  DataExport.csvCell "a,b" <> DataExport.csvCell "a" /\
  list_ascii_of_string (DataExport.csvCell "a,b")
  = [DataExport.quote; "a"%char; ","%char; "b"%char; DataExport.quote].
Proof.
  destruct (csvCell_distinguishes "a,b" "a") as (Hdiff & _ & Hquoted); [discriminate|].
  split; [exact Hdiff|]. destruct Hquoted as [Hchars _]; [left; reflexivity|].
  exact Hchars.
Defined.

Lemma submit_rejections_keep_state_witness :
  snd (Submission.submit_POST Sample.isEmail None 1000
         {| Submission.sq_email := "teacher@district.org";
            Submission.sq_surveyVersionId := 7;
            Submission.sq_responses := ∅;
            Submission.sq_completionTime := None;
            Submission.sq_partial := None;
            Submission.sq_userAgent := None;
            Submission.sq_deviceType := None;
            Submission.sq_allowResubmissionHeader := None;
            Submission.sq_forwardedForHeader := None;
            Submission.sq_realIpHeader := None;
            Submission.sq_userAgentHeader := None |} Scenario.tables)
  = Scenario.tables.
Proof.
  refine (submit_rejections_keep_state Sample.isEmail None 1000 _ Scenario.tables _).
  evaluated.
Defined.


Lemma submit_completes_once_witness :
  snd (Submission.submit_POST Sample.isEmail None 2000 (Scenario.submission false)
         (snd (Submission.submit_POST Sample.isEmail None 1000 (Scenario.submission false)
                 Scenario.tables)))
  = snd (Submission.submit_POST Sample.isEmail None 1000 (Scenario.submission false)
           Scenario.tables).
Proof.
  refine (proj1 (proj1 (submit_completes_once Sample.isEmail None 1000 2000
                          (Scenario.submission false) (Scenario.submission false)
                          Scenario.tables
                          {| Store.group := "teacher"; Store.hasTaken := false;
                             Store.otpCode := None; Store.otpExpiry := None;
                             Store.consented := true; Store.remindersSent := 0 |}
                          {| Submission.versionGroup := "teacher";
                             Submission.versionQuestions := Some [] |}
                          _ _ _ _ _ _ _ _ _ _) _ _)); evaluated.
Defined.
